(** * Benchmark orchestration harness of rustrade

    Shallow embedding of [scripts/compare_strategies.py] and
    [scripts/validate_risk_filter.py]: the report pattern and the
    backtracking search that [re.search] performs on it, the numeric
    conversions, [run_benchmark] with its exception handlers, the trial
    loops of [main], the persisted table and the console summary; of
    [create_sequences] of [scripts/ml/train_lstm.py]; and of
    [test_alpaca_crypto] of [test_crypto_ws.py].

    Conventions of the model.
    - A text is a [string]; each character stands for the code point of the
      same number (0..255).  On that range [\d] is exactly the ASCII digits
      and [\s] the twelve white-space code points listed in [category_space].
    - A Python [float] is represented by the rational it denotes (type [Q],
      kept in lowest terms); rounding to binary64 and the range of binary64
      are not modelled: no conversion overflows.  A Python [int] is a [Z];
      [int] applies the interpreter's limit on the number of digits of a
      decimal text, at its default of 4300.
    - The external evaluator is an oracle threaded through the trial loops.
*)

From Stdlib Require Import String Ascii List ZArith QArith Lia Bool DecimalString.
From stdpp Require Import gmap strings.

Import ListNotations.
Local Open Scope string_scope.
Local Open Scope list_scope.

(** ** Strings *)

Module Str.

Fixpoint all_chars (p : ascii -> bool) (s : string) : bool :=
  match s with
  | EmptyString => true
  | String c s' => p c && all_chars p s'
  end.

(** [head_in p s]: the first character of [s] exists and satisfies [p]. *)
Definition head_in (p : ascii -> bool) (s : string) : bool :=
  match s with
  | EmptyString => false
  | String c _ => p c
  end.

(** [needle in haystack], as Python's substring test. *)
Fixpoint contains (needle hay : string) : bool :=
  String.prefix needle hay
  || match hay with
     | EmptyString => false
     | String _ hay' => contains needle hay'
     end.

End Str.

(** ** The regular-expression engine

    The subset of [re] the report pattern uses: literal characters,
    greedy and lazy repetition of a character class, capturing groups.
    Matching is by backtracking with the priorities of [sre]: a greedy
    repetition tries the longest run first, a lazy one the shortest. *)

Module Re.

Definition charset := ascii -> bool.

Definition code (c : ascii) : N := N_of_ascii c.

(** [\d] *)
Definition category_digit : charset :=
  fun c => ((48 <=? code c) && (code c <=? 57))%N.

(** [\s]: TAB LF VT FF CR, FS GS RS US, SPACE, NEL, NBSP. *)
Definition category_space : charset :=
  fun c => (((9 <=? code c) && (code c <=? 13))
            || ((28 <=? code c) && (code c <=? 32))
            || (code c =? 133) || (code c =? 160))%N.

(** [.] without DOTALL: any character but the line feed. *)
Definition any_char : charset :=
  fun c => negb (code c =? 10)%N.

Definition literal (a : ascii) : charset := fun c => Ascii.eqb c a.

(** [[...]]: union of the listed members. *)
Definition in_set (members : list charset) : charset :=
  fun c => existsb (fun m => m c) members.

Inductive item : Type :=
| LITERAL (c : ascii)
| MAX_REPEAT (min : nat) (cls : charset)   (* cls{min,}   greedy *)
| MIN_REPEAT (min : nat) (cls : charset)   (* cls{min,}?  lazy   *)
| SUBPATTERN (body : item).                (* ( body )           *)

Definition regex := list item.

(** Outcome of a successful match from a position: the groups in the
    order of their opening parentheses, and the unconsumed text. *)
Definition found : Type := list string * string.

Definition continuation := string -> option found.

Section Repeat.
Variable cls : charset.
Variable k : continuation.

(** Greedy: one more character if possible, the rest of the pattern
    only when that fails. [min] counts the characters still owed. *)
Fixpoint rep_max (min : nat) (s : string) : option (string * found) :=
  let stop := if Nat.eqb min 0 then option_map (pair "") (k s) else None in
  match s with
  | String c s' =>
      if cls c then
        match rep_max (Nat.pred min) s' with
        | Some (w, r) => Some (String c w, r)
        | None => stop
        end
      else stop
  | EmptyString => stop
  end.

(** Lazy: the rest of the pattern first, one more character only
    when that fails. *)
Fixpoint rep_min (min : nat) (s : string) : option (string * found) :=
  let stop := if Nat.eqb min 0 then option_map (pair "") (k s) else None in
  match stop with
  | Some r => Some r
  | None =>
      match s with
      | String c s' =>
          if cls c then
            match rep_min (Nat.pred min) s' with
            | Some (w, r) => Some (String c w, r)
            | None => None
            end
          else None
      | EmptyString => None
      end
  end.
End Repeat.

(** [match_item it k s]: match [it] at the head of [s], then [k] on what
    follows; returns the text [it] consumed and the outcome. *)
Fixpoint match_item (it : item) (k : continuation) (s : string)
  : option (string * found) :=
  match it with
  | LITERAL c =>
      match s with
      | String d s' =>
          if Ascii.eqb d c then option_map (pair (String d "")) (k s') else None
      | EmptyString => None
      end
  | MAX_REPEAT min cls => rep_max cls k min s
  | MIN_REPEAT min cls => rep_min cls k min s
  | SUBPATTERN body =>
      match match_item body k s with
      | Some (w, (groups, rest)) => Some (w, (w :: groups, rest))
      | None => None
      end
  end.

Fixpoint match_here (p : regex) (s : string) : option found :=
  match p with
  | [] => Some ([], s)
  | it :: p' => option_map snd (match_item it (match_here p') s)
  end.

(** [re.search]: the first start position, from the left, at which the
    pattern matches; [start] counts the characters skipped. *)
Fixpoint search_from (p : regex) (start : nat) (s : string)
  : option (nat * list string) :=
  match match_here p s with
  | Some (groups, _) => Some (start, groups)
  | None =>
      match s with
      | String _ s' => search_from p (S start) s'
      | EmptyString => None
      end
  end.

Definition search (p : regex) (s : string) : option (nat * list string) :=
  search_from p 0 s.

(** [match.group(i)] for [i >= 1]. *)
Definition group (m : nat * list string) (i : nat) : option string :=
  nth_error (snd m) (Nat.pred i).

Definition literals (s : string) : regex :=
  map LITERAL (list_ascii_of_string s).

End Re.

(** ** Python values, exceptions and conversions *)

Module Py.

(** Exceptions the harness can meet.  [TimeoutExpired] is
    [subprocess.TimeoutExpired]; any other subclass of [Exception] is
    kept by class name and by its message [str(e)]. *)
Inductive exn : Type :=
| TimeoutExpired
| Exception (class_name : string) (msg : string).

Inductive res (A : Type) : Type :=
| Ok (a : A)
| Raise (e : exn).
Arguments Ok {A} a.
Arguments Raise {A} e.

Definition bind {A B} (m : res A) (f : A -> res B) : res B :=
  match m with
  | Ok a => f a
  | Raise e => Raise e
  end.

#[export] Instance res_ret : MRet res := @Ok.
#[export] Instance res_bind : MBind res := fun A B f m => bind m f.

(** Numbers: the dictionaries of the harness hold the int [0] in failed
    trials and floats in successful ones. *)
Inductive num : Type :=
| PyInt (z : Z)
| PyFloat (q : Q).

Definition to_Q (n : num) : Q :=
  match n with
  | PyInt z => inject_Z z
  | PyFloat q => q
  end.

Definition add (a b : num) : num :=
  match a, b with
  | PyInt x, PyInt y => PyInt (x + y)
  | _, _ => PyFloat (Qred (to_Q a + to_Q b))
  end.

Definition mul (a b : num) : num :=
  match a, b with
  | PyInt x, PyInt y => PyInt (x * y)
  | _, _ => PyFloat (Qred (to_Q a * to_Q b))
  end.

Definition is_zero (n : num) : bool :=
  match Qcompare (to_Q n) 0 with Eq => true | _ => false end.

(** [a / b]: true division, always a float.  The quotient is the exact
    rational: the [OverflowError] of a quotient of two ints beyond the
    range of binary64 is outside the model, as that range is. *)
Definition truediv (a b : num) : res num :=
  if is_zero b then Raise (Exception "ZeroDivisionError" "division by zero")
  else Ok (PyFloat (Qred (to_Q a / to_Q b))).

(** [a > 0] *)
Definition gt0 (a : num) : bool :=
  match Qcompare (to_Q a) 0 with Gt => true | _ => false end.

(** [sum(xs)]: starts from the int [0]. *)
Definition sum (xs : list num) : num := fold_left add xs (PyInt 0).

Definition len {A} (l : list A) : num := PyInt (Z.of_nat (List.length l)).

Definition digit_value (c : ascii) : Z := Z.of_N (Re.code c) - 48.

Fixpoint digits_value (acc : Z) (s : string) : Z :=
  match s with
  | EmptyString => acc
  | String c s' => digits_value (10 * acc + digit_value c) s'
  end.

(** The longest prefix of decimal digits, and what follows it. *)
Fixpoint span_digits (s : string) : string * string :=
  match s with
  | String c s' =>
      if Re.category_digit c then
        let (d, r) := span_digits s' in (String c d, r)
      else (EmptyString, s)
  | EmptyString => (EmptyString, EmptyString)
  end.

Definition could_not_convert (s : string) : exn :=
  Exception "ValueError"
    ("could not convert string to float: '" +:+ s +:+ "'").

(** [float(s)] for a text [s] over the minus sign, the decimal digits and
    the dot, the only characters a group of the report pattern can hold:
    an optional sign, then [digits], [digits.], [digits.digits] or
    [.digits]. *)
Definition float (s : string) : res Q :=
  let (negative, body) :=
    match s with
    | String "-" t => (true, t)
    | _ => (false, s)
    end in
  let (ip, rest) := span_digits body in
  match rest with
  | EmptyString =>
      if String.eqb ip "" then Raise (could_not_convert s)
      else Ok (Qred (inject_Z (if negative then - digits_value 0 ip else digits_value 0 ip)))
  | String "." fp =>
      if Str.all_chars Re.category_digit fp
         && negb (String.eqb ip "" && String.eqb fp "")
      then Ok (Qred ((if negative then - digits_value 0 (ip +:+ fp)
                      else digits_value 0 (ip +:+ fp))%Z
                     # Z.to_pos (10 ^ Z.of_nat (String.length fp))))
      else Raise (could_not_convert s)
  | _ => Raise (could_not_convert s)
  end.

(** [str(n)] for a natural number. *)
Definition decimal (n : nat) : string := NilEmpty.string_of_uint (Nat.to_uint n).

(** [sys.get_int_max_str_digits()], at its default. *)
Definition MAX_STR_DIGITS : N := 4300.

Definition exceeds_the_limit (s : string) : exn :=
  Exception "ValueError"
    ("Exceeds the limit (4300 digits) for integer string conversion: value has "
       +:+ decimal (String.length s)
       +:+ " digits; use sys.set_int_max_str_digits() to increase the limit").

(** [int(s)] for a text of decimal digits, the only characters the third
    group of the report pattern can hold: every digit counts towards the
    limit, leading zeros too. *)
Definition int (s : string) : res Z :=
  if Str.all_chars Re.category_digit s && negb (String.eqb s "")
  then
    if (N.of_nat (String.length s) <=? MAX_STR_DIGITS)%N then Ok (digits_value 0 s)
    else Raise (exceeds_the_limit s)
  else Raise (Exception "ValueError"
                ("invalid literal for int() with base 10: '" +:+ s +:+ "'")).

End Py.

(** ** One trial: [run_benchmark]

    Both scripts define [run_benchmark] with the same body;
    [validate_risk_filter.py] passes the constant strategy ["advanced"]. *)

Module Trial.
Import Py.

(** [r'Return:\s*([-\d.]+)%.*?Net:\s*\$([-\d.]+).*?Trades:\s*(\d+)'] *)
Definition signed_decimal : Re.charset :=
  Re.in_set [Re.literal "-"; Re.category_digit; Re.literal "."].

Definition PATTERN : Re.regex :=
  Re.literals "Return:"
    ++ [ Re.MAX_REPEAT 0 Re.category_space;
         Re.SUBPATTERN (Re.MAX_REPEAT 1 signed_decimal);
         Re.LITERAL "%";
         Re.MIN_REPEAT 0 Re.any_char ]
    ++ Re.literals "Net:"
    ++ [ Re.MAX_REPEAT 0 Re.category_space;
         Re.LITERAL "$";
         Re.SUBPATTERN (Re.MAX_REPEAT 1 signed_decimal);
         Re.MIN_REPEAT 0 Re.any_char ]
    ++ Re.literals "Trades:"
    ++ [ Re.MAX_REPEAT 0 Re.category_space;
         Re.SUBPATTERN (Re.MAX_REPEAT 1 Re.category_digit) ].

(** The dictionary [run_benchmark] returns. *)
Record outcome : Type := Outcome {
  status : string;
  return_ : num;
  net : num;
  trades : Z
}.

Definition SUCCESS : string := "SUCCESS".
Definition PARSE_ERROR : string := "PARSE_ERROR".
Definition TIMEOUT : string := "TIMEOUT".

Definition failed (st : string) : outcome :=
  {| status := st; return_ := PyInt 0; net := PyInt 0; trades := 0 |}.

(** [subprocess.CompletedProcess] *)
Record completed : Type := CompletedProcess {
  returncode : Z;
  stdout : string;
  stderr : string
}.

Definition cmd (symbol start_date end_date strategy : string) : list string :=
  [ "cargo"; "run"; "--release"; "--bin"; "benchmark"; "--";
    "--symbol"; symbol;
    "--start"; start_date;
    "--end"; end_date;
    "--strategy"; strategy ].

(** [match.group(i)] *)
Definition group (m : nat * list string) (i : nat) : res string :=
  match Re.group m i with
  | Some g => Ok g
  | None => Raise (Exception "IndexError" "no such group")
  end.

(** The statements of the [try] block after [subprocess.run] returned. *)
Definition parse_output (result : completed) : res outcome :=
  let output := stdout result +:+ stderr result in
  match Re.search PATTERN output with
  | Some m =>
      g1 ← group m 1; r ← float g1;
      g2 ← group m 2; n ← float g2;
      g3 ← group m 3; t ← int g3;
      Ok {| status := SUCCESS; return_ := PyFloat r; net := PyFloat n; trades := t |}
  | None => Ok (failed PARSE_ERROR)
  end.

(** The two [except] clauses. *)
Definition handlers (body : res outcome) : outcome :=
  match body with
  | Ok o => o
  | Raise TimeoutExpired => failed TIMEOUT
  | Raise (Exception _ e) => failed ("ERROR: " +:+ e)
  end.

Section Evaluator.
(** The evaluator and the operating system: [subprocess_run cmd timeout]
    either completes or raises, and moves the world on. *)
Context {World : Type}.
Variable subprocess_run : list string -> Z -> World -> res completed * World.

Definition run_benchmark (symbol start_date end_date strategy : string)
           (w : World) : outcome * World :=
  let (result, w') := subprocess_run (cmd symbol start_date end_date strategy) 60 w in
  (handlers (p ← result; parse_output p), w').
End Evaluator.

End Trial.

(** ** Console, files and the table writer *)

Module Io.
Import Py.

(** A piece of an f-string: literal text, or a value with its format
    specification (empty when none is given).  [Upper s] is
    [s.upper()]. *)
Inductive seg : Type :=
| Txt (s : string)
| Str (s : string) (spec : string)
| Upper (s : string)
| Int (z : Z)
| Num (n : num) (spec : string).

(** One call of [print]: the pieces of its argument and its [end]. *)
Record printed : Type := Print { text : list seg; end_ : string }.

Definition print (t : list seg) : printed := Print t (String "010" "").
Definition newline : string := String "010" "".

(** ["=" * n] *)
Fixpoint rule (n : nat) : string :=
  match n with
  | O => ""
  | S n' => String "=" (rule n')
  end.

(** A cell of the table: what [csv] is handed before it renders it. *)
Inductive cell : Type :=
| CStr (s : string)
| CInt (z : Z)
| CNum (n : num).

Definition table : Type := list (list cell).

(** A file system reduced to what the scripts touch: the directories of
    the working directory and the files in them, keyed by directory and
    name.  It is kept apart from the world of the evaluator, which is
    taken not to touch the results directory, and an entry of the working
    directory with the name of the results directory is taken to be a
    directory. *)
Record fs : Type := Fs {
  dirs : gset string;
  files : gmap (string * string) table
}.

(** [Path(d).mkdir(exist_ok=True)] *)
Definition mkdir_exist_ok (d : string) (f : fs) : fs :=
  Fs ({[ d ]} ∪ dirs f) (files f).

(** [open(path, 'w')] followed by the writes and the close. *)
Definition write_file (path : string * string) (t : table) (f : fs) : res fs :=
  if decide (fst path ∈ dirs f) then Ok (Fs (dirs f) (<[ path := t ]> (files f)))
  else Raise (Exception "FileNotFoundError" "No such file or directory").

(** [csv.DictWriter(f, fieldnames)]: [writeheader] then [writerows].
    A row is a dictionary, given by its items; a key outside
    [fieldnames] raises, a missing one yields the empty text. *)
Definition dict : Type := list (string * cell).

Definition get (d : dict) (key : string) : option cell :=
  snd <$> List.find (fun kv => String.eqb (fst kv) key) d.

Definition dict_to_list (fieldnames : list string) (d : dict) : res (list cell) :=
  if forallb (fun kv => existsb (String.eqb (fst kv)) fieldnames) d
  then Ok (map (fun key => default (CStr "") (get d key)) fieldnames)
  else Raise (Exception "ValueError" "dict contains fields not in fieldnames").

Fixpoint writerows (fieldnames : list string) (rows : list dict) : res table :=
  match rows with
  | [] => Ok []
  | d :: rows' =>
      r ← dict_to_list fieldnames d;
      t ← writerows fieldnames rows';
      Ok (r :: t)
  end.

Definition DictWriter (fieldnames : list string) (rows : list dict) : res table :=
  t ← writerows fieldnames rows;
  Ok (map CStr fieldnames :: t).

End Io.

(** ** [scripts/compare_strategies.py] *)

Module CompareStrategies.
Import Py Trial Io.

Definition RESULTS_DIR : string := "benchmark_results".

Definition PERIODS : list (string * string * string) :=
  [ ("Election_Rally", "2024-11-06", "2024-12-06");
    ("Oct_2024", "2024-10-01", "2024-10-31");
    ("Sep_2024", "2024-09-01", "2024-09-30") ].
Definition SYMBOLS : list string := ["AAPL"; "NVDA"; "TSLA"; "MSFT"].

(** The dictionary appended for each trial:
    [{'strategy': .., 'period': .., 'symbol': .., **result}]. *)
Record row : Type := Row {
  strategy : string;
  period : string;
  symbol : string;
  result : outcome
}.

(** Its items; [DictWriter] reads them by key, so that their order plays
    no part. *)
Definition items (r : row) : dict :=
  [ ("strategy", CStr (strategy r));
    ("period", CStr (period r));
    ("symbol", CStr (symbol r));
    ("status", CStr (status (result r)));
    ("return", CNum (return_ (result r)));
    ("net", CNum (net (result r)));
    ("trades", CInt (trades (result r))) ].

Definition fieldnames : list string :=
  ["strategy"; "period"; "symbol"; "return"; "net"; "trades"; "status"].

Definition is_success (r : row) : bool := String.eqb (status (result r)) SUCCESS.

(** The block under [for strategy in STRATEGIES] of the comparison
    summary, for the list [results[strategy]]. *)
Definition successful (rs : list row) : list row := List.filter is_success rs.

Definition winners (succ : list row) : num :=
  sum (map (fun _ => PyInt 1) (List.filter (fun r => gt0 (return_ (result r))) succ)).

Definition total_trades (succ : list row) : num :=
  sum (map (fun r => PyInt (trades (result r))) succ).

Definition total_profit (succ : list row) : num :=
  sum (map (fun r => net (result r)) succ).

Definition avg_return (succ : list row) : res num :=
  truediv (sum (map (fun r => return_ (result r)) succ)) (len succ).

(** [winners/len(successful)], the ratio the report prints as a
    percentage. *)
Definition win_rate (succ : list row) : res num :=
  truediv (winners succ) (len succ).

Definition summary (strat : string) (rs : list row) : res (list printed) :=
  let succ := successful rs in
  match succ with
  | [] => Ok []
  | _ :: _ =>
      avg ← avg_return succ;
      ratio ← win_rate succ;
      per_test ← truediv (total_trades succ) (len succ);
      Ok [ print [Txt newline; Upper strat; Txt ":"];
           print [Txt "  Avg Return: "; Num avg "+.2f"; Txt "%"];
           print [Txt "  Total P&L: $"; Num (total_profit succ) "+.2f"];
           print [Txt "  Win Rate: "; Num (mul ratio (PyInt 100)) ".1f"; Txt "%"];
           print [Txt "  Total Trades: "; Num (total_trades succ) ""];
           print [Txt "  Avg Trades/Test: "; Num per_test ".1f"] ]
  end.

(** The block under [for strategy in STRATEGIES] of the period
    breakdown. *)
Definition period_results (period_name : string) (rs : list row) : list row :=
  List.filter (fun r => String.eqb (period r) period_name && is_success r) rs.

Definition breakdown (period_name strat : string) (rs : list row) : res (list printed) :=
  let pr := period_results period_name rs in
  match pr with
  | [] => Ok []
  | _ :: _ =>
      avg ← truediv (sum (map (fun r => return_ (result r)) pr)) (len pr);
      Ok [ print [Txt "  "; Str strat "20s"; Txt ": $";
                  Num (sum (map (fun r => net (result r)) pr)) "+8.2f";
                  Txt " ("; Num avg "+.2f"; Txt "% avg)"] ]
  end.

(** [for x in xs: body] over a block that may raise. *)
Fixpoint for_each {A} (xs : list A) (body : A -> res (list printed)) : res (list printed) :=
  match xs with
  | [] => Ok []
  | x :: xs' =>
      out ← body x;
      rest ← for_each xs' body;
      Ok (out ++ rest)
  end.

Section Main.
Context {World : Type}.
Variable subprocess_run : list string -> Z -> World -> res completed * World.
(** The three configuration constants, as the loops read them. *)
Variable periods : list (string * string * string).
Variable symbols : list string.
Variable strategies : list string.

(** What the trial loops update. *)
Record state : Type := State {
  world : World;
  console : list printed;
  results : gmap string (list row);
  current : Z
}.

(** The body of the innermost loop. *)
Definition trial (strat : string) (total_tests : Z)
           (p : string * string * string) (st : state) (sym : string) : state :=
  let '(period_name, start_date, end_date) := p in
  let cur := (current st + 1)%Z in
  let progress :=
    Print [Txt "["; Int cur; Txt "/"; Int total_tests; Txt "] ";
           Str sym ""; Txt " ("; Str period_name ""; Txt ")..."] " " in
  let (res, w) := run_benchmark subprocess_run sym start_date end_date strat (world st) in
  let line :=
    if String.eqb (status res) SUCCESS
    then print [Txt "✓ "; Num (return_ res) "+.2f"; Txt "% ($";
                Num (net res) "+.2f"; Txt ", "; Int (trades res); Txt " trades)"]
    else print [Txt "✗ "; Str (status res) ""] in
  State w (console st ++ [progress; line])
        (alter (fun l => l ++ [Row strat period_name sym res]) strat (results st))
        cur.

Definition per_period (strat : string) (total_tests : Z)
           (st : state) (p : string * string * string) : state :=
  fold_left (trial strat total_tests p) symbols st.

Definition per_strategy (st : state) (strat : string) : state :=
  let banner :=
    [ print [Txt newline; Txt (rule 60)];
      print [Txt "Testing "; Upper strat; Txt " Strategy"];
      print [Txt (rule 60); Txt newline] ] in
  let total_tests := (Z.of_nat (length periods) * Z.of_nat (length symbols))%Z in
  fold_left (per_period strat total_tests) periods
            (State (world st) (console st ++ banner) (results st) 0).

(** [results[strategy]] *)
Definition results_of (rs : gmap string (list row)) (strat : string) : list row :=
  default [] (rs !! strat).

(** [all_results]: [results[strategy]] for each strategy in turn. *)
Definition all_results (rs : gmap string (list row)) : list row :=
  flat_map (results_of rs) strategies.

Definition results_file (timestamp : string) : string * string :=
  (RESULTS_DIR, "strategy_comparison_" +:+ timestamp +:+ ".csv").

Definition path_str (path : string * string) : string :=
  fst path +:+ "/" +:+ snd path.

Definition heading (title : string) : list printed :=
  [ print [Txt newline; Txt (rule 60)];
    print [Txt title];
    print [Txt (rule 60)] ].

(** What a run leaves behind. *)
Record run : Type := Run {
  final_world : World;
  final_fs : fs;
  output : list printed;
  records : list row
}.

(** The state after the trial loops. *)
Definition trials (w : World) : state :=
  let intro :=
    [ print [Txt (rule 60)];
      print [Txt "Strategy Comparison: Advanced vs RegimeAdaptive"];
      print [Txt (rule 60)];
      print [] ] in
  let init := list_to_map (map (fun s => (s, [])) strategies) in
  fold_left per_strategy strategies (State w intro init 0).

Definition main (timestamp : string) (w : World) (f : fs) : res run :=
  let st := trials w in
  let all := all_results (results st) in
  t ← DictWriter fieldnames (map items all);
  f' ← write_file (results_file timestamp) t f;
  comparison ← for_each strategies
                 (fun strat => summary strat (results_of (results st) strat));
  periods_out ← for_each periods
                 (fun '(period_name, _, _) =>
                    body ← for_each strategies
                             (fun strat => breakdown period_name strat
                                             (results_of (results st) strat));
                    Ok (print [Txt newline; Str period_name ""; Txt ":"] :: body));
  Ok (Run (world st) f'
          (console st
             ++ heading "COMPARISON SUMMARY" ++ comparison
             ++ heading "PERIOD BREAKDOWN" ++ periods_out
             ++ [print [Txt newline; Txt "Full results: ";
                        Str (path_str (results_file timestamp)) ""]])
          all).

(** The script: the module-level statements, then [main()]. *)
Definition script (timestamp : string) (w : World) (f : fs) : res run :=
  main timestamp w (mkdir_exist_ok RESULTS_DIR f).
End Main.
End CompareStrategies.

(** ** [scripts/validate_risk_filter.py] *)

Module ValidateRiskFilter.
Import Py Trial Io.

Definition RESULTS_DIR : string := "benchmark_results".

Definition PERIODS : list (string * string * string) :=
  [ ("Election_Rally", "2024-11-06", "2024-12-06");
    ("Oct_2024", "2024-10-01", "2024-10-31");
    ("Sep_2024", "2024-09-01", "2024-09-30");
    ("Aug_2024", "2024-08-01", "2024-08-31") ].
Definition SYMBOLS : list string :=
  ["AAPL"; "NVDA"; "TSLA"; "MSFT"; "JPM"; "GOOGL"; "AMZN"; "META"].

(** [{'period': .., 'symbol': .., 'start_date': .., 'end_date': .., **result}] *)
Record row : Type := Row {
  period : string;
  symbol : string;
  start_date : string;
  end_date : string;
  result : outcome
}.

Definition items (r : row) : dict :=
  [ ("period", CStr (period r));
    ("symbol", CStr (symbol r));
    ("start_date", CStr (start_date r));
    ("end_date", CStr (end_date r));
    ("status", CStr (status (result r)));
    ("return", CNum (return_ (result r)));
    ("net", CNum (net (result r)));
    ("trades", CInt (trades (result r))) ].

Definition fieldnames : list string :=
  ["period"; "symbol"; "start_date"; "end_date"; "return"; "net"; "trades"; "status"].

Definition is_success (r : row) : bool := String.eqb (status (result r)) SUCCESS.

Definition successful (rs : list row) : list row := List.filter is_success rs.

Definition winners (succ : list row) : num :=
  sum (map (fun _ => PyInt 1) (List.filter (fun r => gt0 (return_ (result r))) succ)).

Definition total_trades (succ : list row) : num :=
  sum (map (fun r => PyInt (trades (result r))) succ).

Definition total_profit (succ : list row) : num :=
  sum (map (fun r => net (result r)) succ).

Definition total_return (succ : list row) : num :=
  sum (map (fun r => return_ (result r)) succ).

(** [winners/len(successful)] *)
Definition win_rate (succ : list row) : res num :=
  truediv (winners succ) (len succ).

Definition no_successful_tests : printed := print [Txt "⚠ No successful tests!"].

(** The [if successful: ... else: ...] block. *)
Definition summary (total_tests : Z) (rs : list row) : res (list printed) :=
  let succ := successful rs in
  match succ with
  | [] => Ok [no_successful_tests]
  | _ :: _ =>
      avg ← truediv (total_return succ) (len succ);
      ratio ← win_rate succ;
      per_test ← truediv (total_trades succ) (len succ);
      Ok [ print [Txt "Summary Statistics:"];
           print [Txt "  Tests Completed: "; Num (len succ) ""; Txt "/"; Int total_tests];
           print [Txt "  Average Return: "; Num avg ".2f"; Txt "%"];
           print [Txt "  Total Net Profit: $"; Num (total_profit succ) ".2f"];
           print [Txt "  Win Rate: "; Num (mul ratio (PyInt 100)) ".1f"; Txt "%"];
           print [Txt "  Total Trades: "; Num (total_trades succ) ""];
           print [Txt "  Avg Trades per Test: "; Num per_test ".1f"] ]
  end.

Section Main.
Context {World : Type}.
Variable subprocess_run : list string -> Z -> World -> res completed * World.
Variable periods : list (string * string * string).
Variable symbols : list string.

Record state : Type := State {
  world : World;
  console : list printed;
  results : list row;
  current : Z
}.

Definition run_benchmark (sym start_d end_d : string) (w : World) : outcome * World :=
  Trial.run_benchmark subprocess_run sym start_d end_d "advanced" w.

Definition trial (total_tests : Z) (p : string * string * string)
           (st : state) (sym : string) : state :=
  let '(period_name, start_d, end_d) := p in
  let cur := (current st + 1)%Z in
  let progress :=
    Print [Txt "["; Int cur; Txt "/"; Int total_tests; Txt "] Testing ";
           Str sym ""; Txt " ("; Str period_name ""; Txt ": "; Str start_d "";
           Txt " to "; Str end_d ""; Txt ")..."] " " in
  let (res, w) := run_benchmark sym start_d end_d (world st) in
  let line :=
    if String.eqb (status res) SUCCESS
    then print [Txt "✓ Return: "; Num (return_ res) ".2f"; Txt "%, Net: $";
                Num (net res) ".2f"; Txt ", Trades: "; Int (trades res)]
    else print [Txt "✗ "; Str (status res) ""] in
  State w (console st ++ [progress; line])
        (results st ++ [Row period_name sym start_d end_d res])
        cur.

Definition per_period (total_tests : Z) (st : state)
           (p : string * string * string) : state :=
  let st' := fold_left (trial total_tests p) symbols st in
  State (world st') (console st' ++ [print []]) (results st') (current st').

Definition results_file (timestamp : string) : string * string :=
  (RESULTS_DIR, "risk_filter_validation_" +:+ timestamp +:+ ".csv").

Definition path_str (path : string * string) : string :=
  fst path +:+ "/" +:+ snd path.

Record run : Type := Run {
  final_world : World;
  final_fs : fs;
  output : list printed;
  records : list row
}.

Definition total_tests : Z :=
  (Z.of_nat (length periods) * Z.of_nat (length symbols))%Z.

(** The state after the trial loops. *)
Definition trials (timestamp : string) (w : World) : state :=
  let file := path_str (results_file timestamp) in
  let intro :=
    [ print [Txt (rule 50)];
      print [Txt "Risk-Based Filter Validation Benchmark"];
      print [Txt (rule 50)];
      print [Txt "Results will be saved to: "; Str file ""];
      print [] ] in
  fold_left (per_period total_tests) periods (State w intro [] 0).

Definition main (timestamp : string) (w : World) (f : fs) : res run :=
  let file := path_str (results_file timestamp) in
  let st := trials timestamp w in
  t ← DictWriter fieldnames (map items (results st));
  f' ← write_file (results_file timestamp) t f;
  let done :=
    [ print [Txt (rule 50)];
      print [Txt "Benchmark Complete!"];
      print [Txt (rule 50)];
      print [Txt newline; Txt "Results saved to: "; Str file ""; Txt newline] ] in
  stats ← summary total_tests (results st);
  Ok (Run (world st) f'
          (console st ++ done ++ stats
             ++ [print [Txt newline; Txt "Full results in: "; Str file ""]])
          (results st)).

Definition script (timestamp : string) (w : World) (f : fs) : res run :=
  main timestamp w (mkdir_exist_ok RESULTS_DIR f).
End Main.
End ValidateRiskFilter.

(** ** A scripted evaluator, for running the model

    The world is the list of the results still to come; each call of
    [subprocess.run] takes the next one (and raises once none is left). *)

Module Stub.
Import Py Trial.

Definition World : Type := list (res completed).

Definition subprocess_run (_ : list string) (_ : Z) (w : World) : res completed * World :=
  match w with
  | r :: w' => (r, w')
  | [] => (Raise (Exception "FileNotFoundError" "No such file or directory: 'cargo'"), [])
  end.

Definition reports (text : string) : res completed := Ok (CompletedProcess 0 text "").
Definition times_out : res completed := Raise TimeoutExpired.

Definition empty_fs : Io.fs := Io.Fs ∅ ∅.
End Stub.

(** ** What it means for the pattern to occur in a text

    The declarative reading of a pattern, independent of the order in which
    the engine explores the alternatives: [matches p m gs] says that the
    text [m] as a whole is an instance of [p] with groups [gs]. *)

Module ReSpec.
Import Re.

Inductive item_matches : item -> string -> list string -> Prop :=
| im_literal c :
    item_matches (LITERAL c) (String c "") []
| im_max min cls w :
    Str.all_chars cls w = true -> min <= String.length w ->
    item_matches (MAX_REPEAT min cls) w []
| im_min min cls w :
    Str.all_chars cls w = true -> min <= String.length w ->
    item_matches (MIN_REPEAT min cls) w []
| im_sub body w gs :
    item_matches body w gs ->
    item_matches (SUBPATTERN body) w (w :: gs).

Inductive matches : regex -> string -> list string -> Prop :=
| m_nil : matches [] "" []
| m_cons it p w m g1 g2 :
    item_matches it w g1 -> matches p m g2 ->
    matches (it :: p) (w +:+ m) (g1 ++ g2).

(** An instance of [p] starts at offset [i] of [text]. *)
Definition occurs_at (p : regex) (text : string) (i : nat) : Prop :=
  exists pre m post gs,
    text = pre +:+ m +:+ post /\ String.length pre = i /\ matches p m gs.

Definition occurs (p : regex) (text : string) : Prop :=
  exists i, occurs_at p text i.

(** What every text matched by an item satisfies: the class of its
    characters and its least length. *)
Fixpoint whole (it : item) : charset * nat :=
  match it with
  | LITERAL c => (literal c, 1)
  | MAX_REPEAT min cls => (cls, min)
  | MIN_REPEAT min cls => (cls, min)
  | SUBPATTERN body => whole body
  end.

(** The groups an item opens, in order, each with that constraint. *)
Fixpoint item_groups (it : item) : list (charset * nat) :=
  match it with
  | SUBPATTERN body => whole body :: item_groups body
  | _ => []
  end.

Definition groups_of (p : regex) : list (charset * nat) :=
  flat_map item_groups p.

Definition fits (g : string) (spec : charset * nat) : Prop :=
  Str.all_chars (fst spec) g = true /\ snd spec <= String.length g.

End ReSpec.

(** ** The report pattern by its tails

    What remains of [PATTERN] after ["Return:"], after ["Net:"] and after
    ["Trades:"]. *)

Module PatternTails.
Import Re Trial.

Definition tail3 : regex :=
  [ MAX_REPEAT 0 category_space; SUBPATTERN (MAX_REPEAT 1 category_digit) ].
Definition tail2 : regex :=
  [ MAX_REPEAT 0 category_space; LITERAL "$";
    SUBPATTERN (MAX_REPEAT 1 signed_decimal);
    MIN_REPEAT 0 any_char ] ++ literals "Trades:" ++ tail3.
Definition tail1 : regex :=
  [ MAX_REPEAT 0 category_space;
    SUBPATTERN (MAX_REPEAT 1 signed_decimal);
    LITERAL "%";
    MIN_REPEAT 0 any_char ] ++ literals "Net:" ++ tail2.

End PatternTails.

(** ** The report the parser reads

    A cut of a text along the report pattern, and what singles out the
    cut that [re.search] makes: the report starts at the leftmost offset
    at which an instance of the pattern starts, each lazy [.*?] stops at
    the first point from which the rest of the pattern can be matched, and
    each greedy repetition takes the whole of its run. *)

Module Reading.
Import Re Trial PatternTails.

Record cut : Type := Cut {
  pre : string;
  ws1 : string; g1 : string; mid1 : string;
  ws2 : string; g2 : string; mid2 : string;
  ws3 : string; g3 : string;
  post : string
}.

(** The text from ["Trades:"] on, from ["Net:"] on, and as a whole. *)
Definition from_trades (d : cut) : string :=
  "Trades:" +:+ ws3 d +:+ g3 d +:+ post d.

Definition from_net (d : cut) : string :=
  "Net:" +:+ ws2 d +:+ "$" +:+ g2 d +:+ mid2 d +:+ from_trades d.

Definition text (d : cut) : string :=
  pre d +:+ "Return:" +:+ ws1 d +:+ g1 d +:+ "%" +:+ mid1 d +:+ from_net d.

(** Each part is over the class the pattern gives it, the groups are not
    empty.  A run of white space is then followed by a character that is
    not white space, and the first group by ["%"]: they are whole runs. *)
Definition instance (d : cut) : Prop :=
  Str.all_chars category_space (ws1 d) = true
  /\ Str.all_chars signed_decimal (g1 d) = true /\ g1 d <> ""
  /\ Str.all_chars any_char (mid1 d) = true
  /\ Str.all_chars category_space (ws2 d) = true
  /\ Str.all_chars signed_decimal (g2 d) = true /\ g2 d <> ""
  /\ Str.all_chars any_char (mid2 d) = true
  /\ Str.all_chars category_space (ws3 d) = true
  /\ Str.all_chars category_digit (g3 d) = true /\ g3 d <> "".

(** [mid] is what a lazy repetition followed by [p] takes in front of
    [rest]: [p] can be matched at no earlier point of [mid]. *)
Definition laziest (p : regex) (mid rest : string) : Prop :=
  forall u c v,
    mid = u +:+ String c v -> ~ ReSpec.occurs_at p (String c v +:+ rest) 0.

(** The cut of the first match: leftmost start, shortest [mid1], whole
    run for the second group, shortest [mid2], whole run for the third. *)
Definition first (d : cut) : Prop :=
  instance d
  /\ (forall j, j < String.length (pre d) -> ~ ReSpec.occurs_at PATTERN (text d) j)
  /\ laziest (literals "Net:" ++ tail2) (mid1 d) (from_net d)
  /\ Str.head_in signed_decimal (mid2 d) = false
  /\ laziest (literals "Trades:" ++ tail3) (mid2 d) (from_trades d)
  /\ Str.head_in category_digit (post d) = false.

End Reading.

(** ** The trial matrix and the table, as the specification words them *)

Module Matrix.
Import Py.

(** A trial: strategy identifier, period label, symbol. *)
Definition coords : Type := string * string * string.

(** Periods outer, symbols inner, for one strategy. *)
Definition for_strategy (periods : list (string * string * string))
           (symbols : list string) (strat : string) : list coords :=
  flat_map (fun p => map (fun sym => (strat, fst (fst p), sym)) symbols) periods.


(** The outcomes [run_benchmark] can return: the handlers applied to
    what the [try] block made of an answer of the evaluator. *)
Definition from_trial (o : Trial.outcome) : Prop :=
  exists answer : res Trial.completed,
    o = Trial.handlers (p ← answer; Trial.parse_output p).

End Matrix.

Module CompareTable.
Import Py Trial Io CompareStrategies Matrix.

(** The cells of the row written for a record, in the order of
    [fieldnames]. *)
Definition cells (r : row) : list cell :=
  [ CStr (strategy r); CStr (period r); CStr (symbol r);
    CNum (return_ (result r)); CNum (net (result r));
    CInt (trades (result r)); CStr (status (result r)) ].

Definition trial_of (r : row) : coords := (strategy r, period r, symbol r).

(** [m'] is [m] with [new] appended to the list under [strat]. *)
Definition grows (strat : string) (new : list row)
           (m m' : gmap string (list row)) : Prop :=
  forall s, m' !! s
            = if decide (strat = s) then (fun l => l ++ new) <$> (m !! s) else m !! s.

(** What one pass of a loop appended under [strat]: rows for the trials
    [ts], in order, each holding an outcome of [run_benchmark]. *)
Definition appended {World : Type} (strat : string) (ts : list coords)
           (st st' : @state World) : Prop :=
  exists new,
    grows strat new (results st) (results st')
    /\ map trial_of new = ts
    /\ Forall (fun r => from_trial (result r)) new.

End CompareTable.

Module ValidateTable.
Import Py Trial Io ValidateRiskFilter Matrix.

Definition cells (r : row) : list cell :=
  [ CStr (period r); CStr (symbol r); CStr (start_date r); CStr (end_date r);
    CNum (return_ (result r)); CNum (net (result r));
    CInt (trades (result r)); CStr (status (result r)) ].

(** The strategy of this script is the constant ["advanced"]. *)
Definition trial_of (r : row) : coords := ("advanced", period r, symbol r).

(** What one pass of a loop appended to [results]. *)
Definition appended {World : Type} (ts : list coords)
           (st st' : @state World) : Prop :=
  exists new,
    results st' = results st ++ new
    /\ map trial_of new = ts
    /\ Forall (fun r => from_trial (result r)) new.

End ValidateTable.

(** ** The calls made to the evaluator

    An evaluator that, besides answering, records the command line and
    the deadline of each call. *)

Module CallLog.
Import Py Trial.




End CallLog.

(** ** [scripts/ml/train_lstm.py]: [create_sequences]

    A two-dimensional array is the list of its rows, all of one width; its
    elements are of any type, since the function only moves them.  Indices
    and slice bounds are integers with Python's reading of negative
    values. *)

Module TrainLstm.
Import Py.

(** [range(n)] *)
Definition range (n : Z) : list Z := map Z.of_nat (seq 0 (Z.to_nat n)).

(** A slice bound brought into [0..n]: a negative one counts from the
    end. *)
Definition clamp (n i : Z) : Z :=
  if (i <? 0)%Z then Z.max (i + n) 0 else Z.min i n.

(** [l[start:stop]] *)
Definition slice {A : Type} (start stop : Z) (l : list A) : list A :=
  let n := Z.of_nat (length l) in
  let lo := clamp n start in
  let hi := clamp n stop in
  firstn (Z.to_nat (hi - lo)) (skipn (Z.to_nat lo) l).

(** The [IndexError] of an index outside its axis; the message, which
    names the index, the axis and its size, is not modelled. *)
Definition IndexError : exn := Exception "IndexError" "index is out of bounds".

(** [l[i]] along one axis: a negative index counts from the end, an index
    outside the axis raises. *)
Definition item {A : Type} (i : Z) (l : list A) : res A :=
  let n := Z.of_nat (length l) in
  let j := if (i <? 0)%Z then (i + n)%Z else i in
  if (0 <=? j)%Z && (j <? n)%Z then
    match nth_error l (Z.to_nat j) with
    | Some x => Ok x
    | None => Raise IndexError
    end
  else Raise IndexError.

(** [data[r, c]] *)
Definition item2 {A : Type} (r c : Z) (data : list (list A)) : res A :=
  row ← item r data; item c row.

(** [np.array(xs)] for a list of two-dimensional arrays of one width:
    they are stacked when they have the same number of rows, and the
    conversion raises otherwise. *)
Definition np_array {A : Type} (xs : list (list (list A))) : res (list (list (list A))) :=
  match xs with
  | [] => Ok []
  | x :: rest =>
      if forallb (fun y => Nat.eqb (length y) (length x)) rest then Ok xs
      else Raise (Exception "ValueError"
                    "setting an array element with a sequence. The requested array has an inhomogeneous shape")
  end.

(** The body of the loop of [create_sequences]. *)
Definition step {A : Type} (data : list (list A)) (seq_length target_col_idx : Z)
           (acc : res (list (list (list A)) * list A)) (i : Z)
  : res (list (list (list A)) * list A) :=
  '(xs, ys) ← acc;
  let x := slice i (i + seq_length) data in
  y ← item2 (i + seq_length - 1) target_col_idx data;
  Ok (xs ++ [x], ys ++ [y]).

Definition create_sequences {A : Type} (data : list (list A))
           (seq_length target_col_idx : Z)
  : res (list (list (list A)) * list A) :=
  '(xs, ys) ← fold_left (step data seq_length target_col_idx)
                        (range (Z.of_nat (length data) - seq_length))
                        (Ok ([], []));
  X ← np_array xs;
  Ok (X, ys).

(** All the rows have [width] elements. *)
Definition rectangular {A : Type} (width : nat) (data : list (list A)) : Prop :=
  Forall (fun row => length row = width) data.

End TrainLstm.

(** ** [test_crypto_ws.py]

    The peer (network and server) is an oracle: connecting and sending
    complete or raise; a receive yields a message, raises, or stays
    silent, which under a deadline is [asyncio.TimeoutError] and without
    one never completes.  A message is the [str] of a text frame or the
    [bytes] of a binary frame, a byte being the character of the same
    number.  [json.dumps] is left to its library: what is sent is the
    dictionary handed to it. *)

Module CryptoWs.
Import Py Io.

Inductive data : Type :=
| Text (s : string)
| Bytes (b : string).

Inductive received : Type :=
| Message (m : data)
| Lost (e : exn)
| Silent.

(** [Py_hexdigits[n]] *)
Definition hex_digit (n : N) : ascii :=
  ascii_of_N (if (n <? 10)%N then 48 + n else 87 + n).

(** One byte as [repr] writes it between the quotes [quote]. *)
Definition escape (quote c : ascii) : string :=
  if Ascii.eqb c quote || Ascii.eqb c "\" then String "\" (String c "")
  else if Ascii.eqb c "009" then "\t"
  else if Ascii.eqb c "010" then "\n"
  else if Ascii.eqb c "013" then "\r"
  else if (N_of_ascii c <? 32)%N || (127 <=? N_of_ascii c)%N then
    String "\" (String "x" (String (hex_digit (N_of_ascii c / 16))
                               (String (hex_digit (N_of_ascii c mod 16)) "")))
  else String c "".

Fixpoint escaped (quote : ascii) (b : string) : string :=
  match b with
  | EmptyString => ""
  | String c b' => escape quote c +:+ escaped quote b'
  end.

(** [repr(b)] for [bytes]: between single quotes, unless [b] holds a
    single quote and no double quote. *)
Definition repr (b : string) : string :=
  let quote :=
    if Str.contains "'" b && negb (Str.contains (String "034" "") b)
    then "034"%char else "'"%char in
  String "b" (String quote (escaped quote b +:+ String quote "")).

(** [str(m)], which is what an f-string writes for [{m}]. *)
Definition str (m : data) : string :=
  match m with
  | Text s => s
  | Bytes b => repr b
  end.

(** A value of the two dictionaries that are sent. *)
Inductive json : Type :=
| JStr (s : string)
| JList (l : list string).

Definition TimeoutError : exn := Exception "TimeoutError" "".

(** How an awaited step ends: with a value, with an exception, or not at
    all. *)
Inductive result (A : Type) : Type :=
| Val (a : A)
| Exc (e : exn)
| Blk.
Arguments Val {A} a.
Arguments Exc {A} e.
Arguments Blk {A}.

Section Peer.
Context {Peer : Type}.
Variable connect : string -> Peer -> res unit * Peer.
Variable recv : option Q -> Peer -> received * Peer.
Variable send : list (string * json) -> Peer -> res unit * Peer.

Record state : Type := State {
  peer : Peer;
  out : list printed;
  sent : list (list (string * json))
}.

Definition io (A : Type) : Type := state -> result A * state.

Definition ret {A} (a : A) : io A := fun s => (Val a, s).

Definition bind {A B} (m : io A) (k : A -> io B) : io B :=
  fun s =>
    match m s with
    | (Val a, s') => k a s'
    | (Exc e, s') => (Exc e, s')
    | (Blk, s') => (Blk, s')
    end.

(** [print(...)] *)
Definition say (t : list seg) : io unit :=
  fun s => (Val tt, State (peer s) (out s ++ [print t]) (sent s)).

(** [websockets.connect(url)] *)
Definition do_connect (url : string) : io unit :=
  fun s =>
    match connect url (peer s) with
    | (Ok _, p) => (Val tt, State p (out s) (sent s))
    | (Raise e, p) => (Exc e, State p (out s) (sent s))
    end.

(** [await websocket.recv()], or [await asyncio.wait_for(websocket.recv(),
    timeout=...)] when a deadline is given. *)
Definition do_recv (deadline : option Q) : io data :=
  fun s =>
    match recv deadline (peer s) with
    | (Message m, p) => (Val m, State p (out s) (sent s))
    | (Lost e, p) => (Exc e, State p (out s) (sent s))
    | (Silent, p) =>
        (match deadline with Some _ => Exc TimeoutError | None => Blk end,
         State p (out s) (sent s))
    end.

(** [await websocket.send(json.dumps(msg))] *)
Definition do_send (msg : list (string * json)) : io unit :=
  fun s =>
    match send msg (peer s) with
    | (Ok _, p) => (Val tt, State p (out s) (sent s ++ [msg]))
    | (Raise e, p) => (Exc e, State p (out s) (sent s ++ [msg]))
    end.

(** [message[:200]]: the first 200 characters of a text, the first 200
    bytes of a binary message. *)
Definition excerpt (message : data) : data :=
  match message with
  | Text s => Text (String.substring 0 200 s)
  | Bytes b => Bytes (String.substring 0 200 b)
  end.

Definition data_line (i : Z) (message : data) : list seg :=
  [Txt "["; Int (i + 1); Txt "s] 📊 "; Str (str (excerpt message)) ""; Txt "..."].

(** [for i in range(30)], from [i] on, with [n] rounds left. *)
Fixpoint listen (n : nat) (i : Z) : io unit :=
  match n with
  | O => ret tt
  | S n' =>
      bind (do_recv (Some 1%Q)) (fun message =>
      bind (say (data_line i message)) (fun _ =>
      listen n' (i + 1)%Z))
  end.

(** The lines the loop prints for the messages [ms], the first of them
    in round [i]. *)
Fixpoint data_lines (i : Z) (ms : list data) : list printed :=
  match ms with
  | [] => []
  | m :: ms' => print (data_line i m) :: data_lines (i + 1) ms'
  end.

Definition no_data : list seg := [Txt "⏱️  No data received in the last second"].

(** The messages that receives under the deadline of one second yield
    one after the other, at most [n] of them, up to the first receive that
    yields none. *)
Fixpoint heard (n : nat) (p : Peer) : list data :=
  match n with
  | O => []
  | S n' =>
      match recv (Some 1%Q) p with
      | (Message m, p') => m :: heard n' p'
      | _ => []
      end
  end.

(** The first of these [n] receives that yields no message, if there is
    one. *)
Fixpoint stopped (n : nat) (p : Peer) : option received :=
  match n with
  | O => None
  | S n' =>
      match recv (Some 1%Q) p with
      | (Message _, p') => stopped n' p'
      | (other, _) => Some other
      end
  end.

(** The [try] around the loop: [asyncio.TimeoutError] ends the listening,
    anything else goes on up. *)
(** [except asyncio.TimeoutError] *)
Definition is_timeout (e : exn) : bool :=
  match e with
  | Exception class_name _ => String.eqb class_name "TimeoutError"
  | TimeoutExpired => false
  end.

Definition try_listen : io unit :=
  fun s =>
    match listen 30 0 s with
    | (Exc e, s') => if is_timeout e then say no_data s' else (Exc e, s')
    | other => other
    end.

Definition url : string := "wss://stream.data.alpaca.markets/v1beta3/crypto/us".

Definition auth_msg (api_key api_secret : string) : list (string * json) :=
  [("action", JStr "auth"); ("key", JStr api_key); ("secret", JStr api_secret)].

Definition subscribe_msg : list (string * json) :=
  [("action", JStr "subscribe");
   ("trades", JList ["BTC/USD"; "ETH/USD"]);
   ("quotes", JList ["BTC/USD"; "ETH/USD"])].

Definition test_alpaca_crypto (environ : gmap string string) : io unit :=
  let api_key := default "YOUR_KEY_HERE" (environ !! "ALPACA_API_KEY") in
  let api_secret := default "YOUR_SECRET_HERE" (environ !! "ALPACA_SECRET_KEY") in
  bind (say [Txt "Connecting to "; Str url ""; Txt "..."]) (fun _ =>
  bind (do_connect url) (fun _ =>
  bind (say [Txt "✅ Connected!"]) (fun _ =>
  bind (do_recv None) (fun welcome =>
  bind (say [Txt "📨 Received: "; Str (str welcome) ""]) (fun _ =>
  bind (do_send (auth_msg api_key api_secret)) (fun _ =>
  bind (say [Txt "🔐 Auth sent"]) (fun _ =>
  bind (do_recv None) (fun auth_response =>
  bind (say [Txt "📨 Auth response: "; Str (str auth_response) ""]) (fun _ =>
  bind (do_send subscribe_msg) (fun _ =>
  bind (say [Txt "📡 Subscription sent for BTC/USD, ETH/USD"]) (fun _ =>
  bind (say [Txt newline; Txt "⏳ Listening for 30 seconds..."; Txt newline]) (fun _ =>
  bind try_listen (fun _ =>
  say [Txt newline; Txt "✅ Test complete!"]))))))))))))).

End Peer.

(** A peer that plays a script of answers to [recv], then stays silent. *)
Definition scripted (deadline : option Q) (p : list received)
  : received * list received :=
  match p with
  | [] => (Silent, [])
  | answer :: p' => (answer, p')
  end.

End CryptoWs.

(** * Properties *)

(** ** Strings *)

Module StrFacts.
Import Str.

Lemma app_cons c s t : String c s +:+ t = String c (s +:+ t).
Proof. reflexivity. Qed.

Lemma app_nil_l s : "" +:+ s = s.
Proof. reflexivity. Qed.

Lemma app_nil_r s : s +:+ "" = s.
Proof. induction s as [|c s IH]; [reflexivity|]. now rewrite app_cons, IH. Qed.

Lemma app_assoc s t u : (s +:+ t) +:+ u = s +:+ t +:+ u.
Proof. induction s as [|c s IH]; [reflexivity|]. now rewrite !app_cons, IH. Qed.

Lemma length_app s t : String.length (s +:+ t) = String.length s + String.length t.
Proof. induction s as [|c s IH]; [reflexivity|]. rewrite app_cons. simpl. now rewrite IH. Qed.

Lemma all_chars_app p s t :
  all_chars p (s +:+ t) = all_chars p s && all_chars p t.
Proof.
  induction s as [|c s IH]; [reflexivity|].
  rewrite app_cons. simpl. now rewrite IH, andb_assoc.
Qed.

End StrFacts.

(** ** The engine against the declarative reading *)

Module ReFacts.
Import Re ReSpec StrFacts.

Section Repeat.
Variable cls : charset.
Variable k : continuation.

Lemma rep_max_sound s : forall min w r,
  rep_max cls k min s = Some (w, r) ->
  Str.all_chars cls w = true /\ min <= String.length w
  /\ exists s', s = w +:+ s' /\ k s' = Some r.
Proof.
  induction s as [|c s IH]; intros min w r H; simpl in H.
  - destruct min; simpl in H; [|discriminate].
    destruct (k "") eqn:Hk; simpl in H; [|discriminate].
    injection H as <- <-. repeat split; [lia|]. now exists "".
  - assert (Hstop : (if Nat.eqb min 0 then option_map (pair "") (k (String c s)) else None)
                    = Some (w, r) ->
                    Str.all_chars cls w = true /\ min <= String.length w
                    /\ exists s', String c s = w +:+ s' /\ k s' = Some r).
    { destruct min; simpl; [|discriminate].
      destruct (k (String c s)) eqn:Hk; simpl; [|discriminate].
      intros [= <- <-]. repeat split; [lia|]. now exists (String c s). }
    destruct (cls c) eqn:Hc; [|auto].
    destruct (rep_max cls k (Nat.pred min) s) as [[w' r']|] eqn:Hrec; [|auto].
    injection H as <- <-.
    destruct (IH _ _ _ Hrec) as (Hall & Hlen & s' & -> & Hk).
    simpl. rewrite Hc, Hall. repeat split; [lia|].
    exists s'. now rewrite app_cons.
Qed.

Lemma rep_min_sound s : forall min w r,
  rep_min cls k min s = Some (w, r) ->
  Str.all_chars cls w = true /\ min <= String.length w
  /\ exists s', s = w +:+ s' /\ k s' = Some r.
Proof.
  induction s as [|c s IH]; intros min w r H; simpl in H.
  - destruct min; simpl in H; [|discriminate].
    destruct (k "") eqn:Hk; simpl in H; [|discriminate].
    injection H as <- <-. repeat split; [lia|]. now exists "".
  - destruct (if Nat.eqb min 0 then option_map (pair "") (k (String c s)) else None)
      as [[w0 r0]|] eqn:Hstop.
    + injection H as <- <-.
      destruct min; simpl in Hstop; [|discriminate].
      destruct (k (String c s)) eqn:Hk; simpl in Hstop; [|discriminate].
      injection Hstop as <- <-. repeat split; [lia|]. now exists (String c s).
    + destruct (cls c) eqn:Hc; [|discriminate].
      destruct (rep_min cls k (Nat.pred min) s) as [[w' r']|] eqn:Hrec; [|discriminate].
      injection H as <- <-.
      destruct (IH _ _ _ Hrec) as (Hall & Hlen & s' & -> & Hk).
      simpl. rewrite Hc, Hall. repeat split; [lia|].
      exists s'. now rewrite app_cons.
Qed.

Lemma rep_max_complete w : forall min s' r,
  Str.all_chars cls w = true -> min <= String.length w -> k s' = Some r ->
  exists x, rep_max cls k min (w +:+ s') = Some x.
Proof.
  induction w as [|c w IH]; intros min s' r Hall Hlen Hk.
  - rewrite app_nil_l. simpl in Hlen. assert (min = 0) as -> by lia.
    destruct s' as [|d s']; simpl; rewrite ?Hk; simpl; [eauto|].
    destruct (cls d); [|eauto].
    destruct (rep_max cls k 0 s') as [[? ?]|]; eauto.
  - rewrite app_cons. simpl in Hall, Hlen |- *.
    apply andb_true_iff in Hall as [Hc Hall]. rewrite Hc.
    destruct (IH (Nat.pred min) s' r Hall ltac:(lia) Hk) as [[w' r'] ->]. eauto.
Qed.

Lemma rep_min_complete w : forall min s' r,
  Str.all_chars cls w = true -> min <= String.length w -> k s' = Some r ->
  exists x, rep_min cls k min (w +:+ s') = Some x.
Proof.
  induction w as [|c w IH]; intros min s' r Hall Hlen Hk.
  - rewrite app_nil_l. simpl in Hlen. assert (min = 0) as -> by lia.
    destruct s' as [|d s']; simpl; rewrite Hk; simpl; eauto.
  - rewrite app_cons. simpl in Hall, Hlen |- *.
    apply andb_true_iff in Hall as [Hc Hall]. rewrite Hc.
    destruct (IH (Nat.pred min) s' r Hall ltac:(lia) Hk) as [[w' r'] ->].
    destruct (if Nat.eqb min 0 then _ else _) as [[? ?]|]; eauto.
Qed.
End Repeat.

Lemma match_item_sound it : forall k s w gs rest,
  match_item it k s = Some (w, (gs, rest)) ->
  exists g1 g2 s',
    s = w +:+ s' /\ item_matches it w g1 /\ k s' = Some (g2, rest) /\ gs = g1 ++ g2.
Proof.
  induction it as [c|min cls|min cls|body IH]; intros k s w gs rest H; simpl in H.
  - destruct s as [|d s]; [discriminate|].
    destruct (Ascii.eqb_spec d c) as [->|]; [|discriminate].
    destruct (k s) as [[g2 rest']|] eqn:Hk; [|discriminate].
    injection H as <- <- <-.
    exists [], g2, s. repeat split; [constructor | assumption].
  - apply rep_max_sound in H as (Hall & Hlen & s' & -> & Hk).
    exists [], gs, s'. repeat split; [now constructor | assumption].
  - apply rep_min_sound in H as (Hall & Hlen & s' & -> & Hk).
    exists [], gs, s'. repeat split; [now constructor | assumption].
  - destruct (match_item body k s) as [[w' [gs' rest']]|] eqn:Hb; [|discriminate].
    injection H as <- <- <-.
    destruct (IH _ _ _ _ _ Hb) as (g1 & g2 & s' & -> & Hm & Hk & ->).
    exists (w' :: g1), g2, s'. repeat split; [now constructor | assumption].
Qed.

Lemma match_item_complete it : forall k w g1 s' r,
  item_matches it w g1 -> k s' = Some r ->
  exists x, match_item it k (w +:+ s') = Some x.
Proof.
  induction it as [c|min cls|min cls|body IH]; intros k w g1 s' r Hm Hk;
    inversion Hm; subst; simpl.
  - rewrite app_nil_l, Ascii.eqb_refl, Hk. simpl. eauto.
  - eapply rep_max_complete; eauto.
  - eapply rep_min_complete; eauto.
  - destruct (IH k w _ s' r ltac:(eassumption) Hk) as [[w' [gs' rest']] ->]. eauto.
Qed.

Lemma match_here_sound p : forall s gs rest,
  match_here p s = Some (gs, rest) ->
  exists m, s = m +:+ rest /\ matches p m gs.
Proof.
  induction p as [|it p IH]; intros s gs rest H; simpl in H.
  - injection H as <- <-. exists "". split; [reflexivity | constructor].
  - destruct (match_item it (match_here p) s) as [[w [gs' rest']]|] eqn:Hi; [|discriminate].
    simpl in H. injection H as <- <-.
    apply match_item_sound in Hi as (g1 & g2 & s' & -> & Hm & Hk & ->).
    destruct (IH _ _ _ Hk) as (m & -> & Hp).
    exists (w +:+ m). split; [now rewrite app_assoc | now constructor].
Qed.

Lemma match_here_complete p : forall m gs rest,
  matches p m gs -> exists x, match_here p (m +:+ rest) = Some x.
Proof.
  induction p as [|it p IH]; intros m gs rest Hm; inversion Hm; subst; simpl.
  - eauto.
  - destruct (IH _ _ rest ltac:(eassumption)) as [r Hr].
    rewrite app_assoc.
    destruct (match_item_complete it (match_here p) w g1 _ r ltac:(eassumption) Hr)
      as [[w' r'] ->].
    simpl. eauto.
Qed.

(** The engine finds an instance at the head of [s] exactly when one
    starts there. *)
Lemma match_here_None p s :
  match_here p s = None <-> ~ occurs_at p s 0.
Proof.
  split.
  - intros H (pre & m & post & gs & -> & Hlen & Hm).
    destruct pre; [|discriminate]. rewrite app_nil_l in H.
    destruct (match_here_complete p m gs post Hm) as [x Hx]. congruence.
  - intros H. destruct (match_here p s) as [[gs rest]|] eqn:E; [|reflexivity].
    exfalso. apply H. apply match_here_sound in E as (m & -> & Hm).
    exists "", m, rest, gs. now rewrite app_nil_l.
Qed.

Lemma occurs_at_S p c s i :
  occurs_at p (String c s) (S i) <-> occurs_at p s i.
Proof.
  split.
  - intros (pre & m & post & gs & Heq & Hlen & Hm).
    destruct pre as [|d pre]; [discriminate|].
    rewrite app_cons in Heq. injection Heq as -> ->. injection Hlen as Hlen.
    now exists pre, m, post, gs.
  - intros (pre & m & post & gs & -> & <- & Hm).
    now exists (String c pre), m, post, gs.
Qed.

(** [search_from] returns the leftmost offset where an instance starts,
    with the groups of an instance starting there. *)
Lemma search_from_Some p s : forall n i gs,
  search_from p n s = Some (i, gs) ->
  exists pre m post,
    s = pre +:+ m +:+ post /\ i = n + String.length pre /\ matches p m gs
    /\ match_here p (m +:+ post) = Some (gs, post)
    /\ forall j, j < String.length pre -> ~ occurs_at p s j.
Proof.
  induction s as [|c s IH]; intros n i gs H; simpl in H.
  - destruct (match_here p "") as [[gs' rest]|] eqn:E; [|discriminate].
    injection H as <- <-.
    destruct (match_here_sound _ _ _ _ E) as (m & Heq & Hm).
    exists "", m, rest. rewrite app_nil_l, <- Heq. simpl.
    repeat split; [lia | assumption | assumption | intros; lia].
  - destruct (match_here p (String c s)) as [[gs' rest]|] eqn:E.
    + injection H as <- <-.
      destruct (match_here_sound _ _ _ _ E) as (m & Heq & Hm).
      exists "", m, rest. rewrite app_nil_l, <- Heq. simpl.
      repeat split; [lia | assumption | assumption | intros; lia].
    + destruct (IH _ _ _ H) as (pre & m & post & -> & -> & Hm & Hh & Hleft).
      exists (String c pre), m, post. rewrite app_cons. simpl.
      repeat split; [lia | assumption | assumption |].
      intros [|j] Hj.
      * now apply match_here_None.
      * rewrite occurs_at_S. apply Hleft. lia.
Qed.

Lemma search_from_None p s : forall n,
  search_from p n s = None <-> ~ occurs p s.
Proof.
  induction s as [|c s IH]; intros n; simpl.
  - destruct (match_here p "") as [[gs rest]|] eqn:E.
    + split; [discriminate|]. intros H. exfalso. apply H.
      apply match_here_sound in E as (m & Heq & Hm).
      exists 0, "", m, rest, gs. now rewrite app_nil_l.
    + split; [|reflexivity]. intros _ (i & pre & m & post & gs & Heq & Hlen & Hm).
      apply match_here_None in E. apply E.
      destruct pre; [|discriminate]. subst i. now exists "", m, post, gs.
  - destruct (match_here p (String c s)) as [[gs rest]|] eqn:E.
    + split; [discriminate|]. intros H. exfalso. apply H.
      apply match_here_sound in E as (m & Heq & Hm).
      exists 0, "", m, rest, gs. now rewrite app_nil_l.
    + rewrite (IH (S n)). apply match_here_None in E. split.
      * intros H [[|i] Hi]; [now apply E|].
        apply H. exists i. now apply occurs_at_S in Hi.
      * intros H [i Hi]. apply H. exists (S i). now apply occurs_at_S.
Qed.

Lemma search_None p s : search p s = None <-> ~ occurs p s.
Proof. apply search_from_None. Qed.

(** A successful search exhibits an occurrence. *)
Lemma search_Some_occurs p s x : search p s = Some x -> occurs p s.
Proof.
  destruct x as [i gs]. intros E.
  apply search_from_Some in E as (pre & m & post & -> & _ & Hm & _).
  now exists (String.length pre), pre, m, post, gs.
Qed.

Lemma item_matches_whole it w gs :
  item_matches it w gs -> fits w (whole it).
Proof.
  induction 1; simpl; try (split; assumption); [|assumption].
  split; simpl; [|lia]. unfold literal. now rewrite Ascii.eqb_refl.
Qed.

Lemma item_matches_groups it w gs :
  item_matches it w gs -> Forall2 fits gs (item_groups it).
Proof.
  induction 1; simpl; try constructor; [|assumption].
  eapply item_matches_whole; eassumption.
Qed.

(** The groups of an instance are as many as the pattern has
    parentheses, each over the class and of the length its group asks. *)
Lemma matches_groups p m gs :
  matches p m gs -> Forall2 fits gs (groups_of p).
Proof.
  induction 1; simpl; [constructor|].
  apply Forall2_app; [eapply item_matches_groups; eassumption | assumption].
Qed.

End ReFacts.

(** ** One trial *)

Module TrialFacts.
Import Py Trial Re ReSpec ReFacts StrFacts.

Lemma search_found text i gs :
  search PATTERN text = Some (i, gs) ->
  occurs_at PATTERN text i
  /\ (forall j, j < i -> ~ occurs_at PATTERN text j)
  /\ exists g1 g2 g3,
       gs = [g1; g2; g3]
       /\ fits g1 (signed_decimal, 1) /\ fits g2 (signed_decimal, 1)
       /\ fits g3 (category_digit, 1).
Proof.
  intros H. apply search_from_Some in H as (pre & m & post & -> & -> & Hm & _ & Hleft).
  split; [now exists pre, m, post, gs|]. split; [exact Hleft|].
  apply matches_groups in Hm. change (groups_of PATTERN)
    with [(signed_decimal, 1); (signed_decimal, 1); (category_digit, 1)] in Hm.
  inversion Hm as [|g1 ? l1 ? H1 Hm1]; subst.
  inversion Hm1 as [|g2 ? l2 ? H2 Hm2]; subst.
  inversion Hm2 as [|g3 ? l3 ? H3 Hm3]; subst.
  inversion Hm3; subst. now exists g1, g2, g3.
Qed.

Lemma int_digits g :
  fits g (category_digit, 1) ->
  int g = if (N.of_nat (String.length g) <=? MAX_STR_DIGITS)%N
          then Ok (digits_value 0 g) else Raise (exceeds_the_limit g).
Proof.
  intros [Hall Hlen]. simpl in Hall, Hlen. unfold int. rewrite Hall.
  destruct g; [simpl in Hlen; lia | reflexivity].
Qed.

Lemma float_raise s e : float s = Raise e -> e = could_not_convert s.
Proof.
  unfold float.
  destruct (match s with String "-" t => (true, t) | _ => (false, s) end) as [neg body].
  destruct (span_digits body) as [ip rest].
  destruct rest as [|c fp].
  - destruct (String.eqb ip ""); congruence.
  - destruct (Ascii.eqb_spec c "."%char) as [->|Hc].
    + destruct (_ && _); congruence.
    + destruct c as [[] [] [] [] [] [] [] []]; congruence.
Qed.

(** The three ways the [try] block ends once the evaluator completed. *)
Lemma parse_output_cases p :
  let text := stdout p +:+ stderr p in
  (search PATTERN text = None /\ parse_output p = Ok (failed PARSE_ERROR))
  \/ (exists m g1 g2 g3,
        search PATTERN text = Some (m, [g1; g2; g3])
        /\ ((exists r n,
               float g1 = Ok r /\ float g2 = Ok n
               /\ parse_output p
                  = Ok (Outcome SUCCESS (PyFloat r) (PyFloat n) (digits_value 0 g3)))
            \/ (float g1 = Raise (could_not_convert g1)
                /\ parse_output p = Raise (could_not_convert g1))
            \/ ((exists r, float g1 = Ok r)
                /\ float g2 = Raise (could_not_convert g2)
                /\ parse_output p = Raise (could_not_convert g2))
            \/ ((exists r, float g1 = Ok r) /\ (exists n, float g2 = Ok n)
                /\ (MAX_STR_DIGITS < N.of_nat (String.length g3))%N
                /\ parse_output p = Raise (exceeds_the_limit g3)))).
Proof.
  intros text. unfold parse_output. fold text.
  destruct (search PATTERN text) as [[i gs]|] eqn:Hs; [right | left; now split].
  destruct (search_found _ _ _ Hs) as (_ & _ & g1 & g2 & g3 & -> & _ & _ & H3).
  exists i, g1, g2, g3. split; [reflexivity|].
  unfold group, Re.group. simpl.
  destruct (float g1) as [r|e1] eqn:E1; simpl.
  - destruct (float g2) as [n|e2] eqn:E2; simpl.
    + rewrite (int_digits _ H3).
      destruct (N.leb_spec (N.of_nat (String.length g3)) MAX_STR_DIGITS).
      * left. exists r, n. now repeat split.
      * right; right; right. split; [now exists r|]. split; [now exists n|]. now split.
    + right; right; left. apply float_raise in E2 as ->. split; [now exists r|]. now split.
  - right; left. apply float_raise in E1 as ->. now split.
Qed.

Lemma error_status_neq msg :
  "ERROR: " +:+ msg <> PARSE_ERROR /\ "ERROR: " +:+ msg <> SUCCESS
  /\ "ERROR: " +:+ msg <> TIMEOUT.
Proof. repeat split; discriminate. Qed.

End TrialFacts.

(** ** The claims about the parser and the executor *)

Import Py Trial.

(** C5. When the three-field pattern occurs nowhere in the captured text,
    the [try] block raises nothing and returns the PARSE_ERROR record with
    zero in the three numeric fields, which [run_benchmark] hands back;
    and whatever the evaluator does (complete, time out, raise),
    [run_benchmark] returns a record whose status is SUCCESS, PARSE_ERROR,
    TIMEOUT or an ERROR text. *)
Theorem C5_no_match_is_parse_error :
  forall (World : Type)
         (subprocess_run : list string -> Z -> World -> res completed * World)
         (symbol start_date end_date strategy : string) (w w' : World)
         (p : completed),
    subprocess_run (cmd symbol start_date end_date strategy) 60%Z w = (Ok p, w') ->
    ~ ReSpec.occurs PATTERN (stdout p +:+ stderr p) ->
    parse_output p
      = Ok {| status := "PARSE_ERROR"; return_ := PyInt 0; net := PyInt 0; trades := 0 |}
    /\ run_benchmark subprocess_run symbol start_date end_date strategy w
       = ({| status := "PARSE_ERROR"; return_ := PyInt 0; net := PyInt 0; trades := 0 |}, w')
    /\ forall result : res completed,
         let o := handlers (p ← result; parse_output p) in
         status o = "SUCCESS" \/ status o = "PARSE_ERROR" \/ status o = "TIMEOUT"
         \/ exists e, status o = "ERROR: " +:+ e.
Proof.
  intros World run sym sd ed strat w w' p Hrun Hno.
  apply ReFacts.search_None in Hno.
  assert (Hp : parse_output p = Ok (failed PARSE_ERROR)).
  { unfold parse_output. now rewrite Hno. }
  split; [exact Hp|]. split.
  - unfold run_benchmark. rewrite Hrun. simpl. now rewrite Hp.
  - intros [q|[|cl msg]]; simpl; [|now right; right; left | right; right; right; now exists msg].
    destruct (TrialFacts.parse_output_cases q)
      as [[_ ->]|(m & g1 & g2 & g3 & _
                  & [(r & n & _ & _ & ->)|[[_ ->]|[(_ & _ & ->)|(_ & _ & _ & ->)]]])];
      simpl; eauto 6.
Qed.

Lemma C5_witness :
  ~ ReSpec.occurs PATTERN ("error: could not compile `rustrade`" +:+ "")
  /\ parse_output (CompletedProcess 101 "error: could not compile `rustrade`" "")
     = Ok (failed PARSE_ERROR).
Proof.
  assert (Hno : ~ ReSpec.occurs PATTERN ("error: could not compile `rustrade`" +:+ "")).
  { apply ReFacts.search_None. vm_compute. reflexivity. }
  split; [exact Hno|].
  refine (proj1 (C5_no_match_is_parse_error Stub.World Stub.subprocess_run
           "AAPL" "2024-10-01" "2024-10-31" "advanced"
           [Ok (CompletedProcess 101 "error: could not compile `rustrade`" "")] []
           (CompletedProcess 101 "error: could not compile `rustrade`" "") _ Hno)).
  reflexivity.
Defined.

(** C6. Once [subprocess.run] has returned, the exit code plays no part:
    the outcome of the trial is the parser's outcome on the standard
    output followed by the standard error, whatever the exit code. *)
Theorem C6_exit_code_ignored :
  forall (World : Type)
         (subprocess_run : list string -> Z -> World -> res completed * World)
         (symbol start_date end_date strategy : string) (w w' : World)
         (rc : Z) (out err : string),
    subprocess_run (cmd symbol start_date end_date strategy) 60%Z w
      = (Ok (CompletedProcess rc out err), w') ->
    run_benchmark subprocess_run symbol start_date end_date strategy w
      = (handlers (parse_output (CompletedProcess 0 (out +:+ err) "")), w')
    /\ forall rc', parse_output (CompletedProcess rc' out err)
                   = parse_output (CompletedProcess rc out err).
Proof.
  intros World run sym sd ed strat w w' rc out err Hrun. split.
  - unfold run_benchmark. rewrite Hrun. simpl.
    unfold parse_output. simpl. now rewrite StrFacts.app_nil_r.
  - reflexivity.
Qed.

Lemma C6_witness :
  run_benchmark Stub.subprocess_run "AAPL" "2024-10-01" "2024-10-31" "advanced"
    [Ok (CompletedProcess 1 "Return: 3.21% | Net: $42.10 | " "Trades: 7")]
  = (Outcome "SUCCESS" (PyFloat 3.21) (PyFloat 42.1) 7, []).
Proof.
  refine (eq_trans (proj1 (C6_exit_code_ignored Stub.World Stub.subprocess_run
            "AAPL" "2024-10-01" "2024-10-31" "advanced"
            [Ok (CompletedProcess 1 "Return: 3.21% | Net: $42.10 | " "Trades: 7")] []
            1 "Return: 3.21% | Net: $42.10 | " "Trades: 7" _)) _).
  - reflexivity.
  - vm_compute. reflexivity.
Defined.

(** The first of two reports is the one that is read. *)
Example two_reports :
  parse_output
    (CompletedProcess 0 "Return: 1% Net: $2 Trades: 3 Return: 4% Net: $5 Trades: 6" "")
  = Ok (Outcome "SUCCESS" (PyFloat 1) (PyFloat 2) 3).
Proof. vm_compute. reflexivity. Qed.

(** C10. When the pattern is found but the first or the second group is
    not a number [float] accepts, the [ValueError] of the conversion is
    caught by the catch-all handler: [run_benchmark] returns, with zero in
    the numeric fields, the status ["ERROR: "] followed by the message of
    the exception, which names the first offending group; the status is
    neither PARSE_ERROR nor SUCCESS. *)
Theorem C10_invalid_number_is_error_status :
  forall (World : Type)
         (subprocess_run : list string -> Z -> World -> res completed * World)
         (symbol start_date end_date strategy : string) (w w' : World)
         (p : completed) (m : nat * list string),
    subprocess_run (cmd symbol start_date end_date strategy) 60%Z w = (Ok p, w') ->
    Re.search PATTERN (stdout p +:+ stderr p) = Some m ->
    (exists g e, (Re.group m 1 = Some g \/ Re.group m 2 = Some g) /\ float g = Raise e) ->
    exists g,
      (Re.group m 1 = Some g \/ Re.group m 2 = Some g)
      /\ parse_output p
         = Raise (Exception "ValueError"
                    ("could not convert string to float: '" +:+ g +:+ "'"))
      /\ run_benchmark subprocess_run symbol start_date end_date strategy w
         = ({| status := "ERROR: could not convert string to float: '" +:+ g +:+ "'";
               return_ := PyInt 0; net := PyInt 0; trades := 0 |}, w')
      /\ status (fst (run_benchmark subprocess_run symbol start_date end_date strategy w))
         <> "PARSE_ERROR"
      /\ status (fst (run_benchmark subprocess_run symbol start_date end_date strategy w))
         <> "SUCCESS".
Proof.
  intros World run sym sd ed strat w w' p m Hrun Hs (g & e & Hg & He).
  unfold run_benchmark. rewrite Hrun. simpl.
  destruct (TrialFacts.parse_output_cases p)
    as [[Hn _]|(i & g1 & g2 & g3 & Hs' & Hcase)]; [congruence|].
  rewrite Hs in Hs'. injection Hs' as ->.
  unfold Re.group in Hg. simpl in Hg.
  destruct Hcase as [(r & n & H1 & H2 & _)|[[H1 Hp]|[(_ & H2 & Hp)|([r H1] & [n H2] & _)]]].
  - destruct Hg as [[= <-]|[= <-]]; congruence.
  - exists g1. rewrite Hp. simpl. repeat split; [now left | discriminate | discriminate].
  - exists g2. rewrite Hp. simpl. repeat split; [now right | discriminate | discriminate].
  - destruct Hg as [[= <-]|[= <-]]; congruence.
Qed.

Lemma C10_witness :
  exists g,
    (Re.group (0, ["-"; "1"; "1"]) 1 = Some g \/ Re.group (0, ["-"; "1"; "1"]) 2 = Some g)
    /\ parse_output (CompletedProcess 0 "Return: -% Net: $1 Trades: 1" "")
       = Raise (Exception "ValueError"
                  ("could not convert string to float: '" +:+ g +:+ "'"))
    /\ run_benchmark Stub.subprocess_run "AAPL" "2024-10-01" "2024-10-31" "advanced"
         [Stub.reports "Return: -% Net: $1 Trades: 1"]
       = ({| status := "ERROR: could not convert string to float: '" +:+ g +:+ "'";
             return_ := PyInt 0; net := PyInt 0; trades := 0 |}, [])
    /\ status (fst (run_benchmark Stub.subprocess_run
                      "AAPL" "2024-10-01" "2024-10-31" "advanced"
                      [Stub.reports "Return: -% Net: $1 Trades: 1"]))
       <> "PARSE_ERROR"
    /\ status (fst (run_benchmark Stub.subprocess_run
                      "AAPL" "2024-10-01" "2024-10-31" "advanced"
                      [Stub.reports "Return: -% Net: $1 Trades: 1"]))
       <> "SUCCESS".
Proof.
  refine (C10_invalid_number_is_error_status Stub.World Stub.subprocess_run
            "AAPL" "2024-10-01" "2024-10-31" "advanced"
            [Stub.reports "Return: -% Net: $1 Trades: 1"] []
            (CompletedProcess 0 "Return: -% Net: $1 Trades: 1" "")
            (0, ["-"; "1"; "1"]) _ _ _).
  - reflexivity.
  - vm_compute. reflexivity.
  - exists "-", (could_not_convert "-"). split; [left; reflexivity | reflexivity].
Defined.

(** A return made of dots only, and a bare minus sign as net amount. *)
Example dots_only :
  run_benchmark Stub.subprocess_run "AAPL" "2024-10-01" "2024-10-31" "advanced"
    [Stub.reports "Return: ...% Net: $5 Trades: 2"]
  = (failed "ERROR: could not convert string to float: '...'", []).
Proof. vm_compute. reflexivity. Qed.

Example bare_minus_net :
  run_benchmark Stub.subprocess_run "AAPL" "2024-10-01" "2024-10-31" "advanced"
    [Stub.reports "Return: 1.5% Net: $- Trades: 2"]
  = (failed "ERROR: could not convert string to float: '-'", []).
Proof. vm_compute. reflexivity. Qed.

(** ** Following the engine along a report line *)

Module ReRun.
Import Re StrFacts.

Lemma prefix_app lit s : String.prefix lit (lit +:+ s) = true.
Proof.
  induction lit as [|c lit IH]; [now destruct s|].
  rewrite app_cons. simpl. destruct (ascii_dec c c); [assumption | contradiction].
Qed.

(** A needle that is not in [w1 +:+ w2] does not start [w2]. *)
Lemma contains_suffix lit w1 : forall w2,
  Str.contains lit (w1 +:+ w2) = false -> String.prefix lit w2 = false.
Proof.
  induction w1 as [|c w1 IH]; intros w2 H.
  - rewrite app_nil_l in H. destruct w2; simpl in H; now apply orb_false_iff in H.
  - rewrite app_cons in H. simpl in H. apply orb_false_iff in H as [_ H]. now apply IH.
Qed.

(** If [a] is not among the characters of [l], an occurrence of [l] in
    front of [a] lies before it. *)
Lemma prefix_before a l : forall w t,
  Str.all_chars (fun c => negb (Ascii.eqb c a)) l = true ->
  String.prefix l (w +:+ String a t) = true -> String.prefix l w = true.
Proof.
  induction l as [|b l IH]; intros w t Hl H; [now destruct w|].
  simpl in Hl. apply andb_true_iff in Hl as [Hb Hl].
  destruct w as [|c w].
  - rewrite app_nil_l in H. simpl in H.
    destruct (ascii_dec b a) as [->|]; [|discriminate].
    now rewrite Ascii.eqb_refl in Hb.
  - rewrite app_cons in H. simpl in H |- *.
    destruct (ascii_dec b c); [|discriminate]. eauto.
Qed.

(** A needle whose first character occurs nowhere else in it cannot
    straddle the end of [w] and a following copy of itself. *)
Lemma no_straddle a l w1 c w2 t :
  Str.all_chars (fun c => negb (Ascii.eqb c a)) l = true ->
  Str.contains (String a l) (w1 +:+ String c w2) = false ->
  String.prefix (String a l) (String c w2 +:+ String a l +:+ t) = false.
Proof.
  intros Hl Hc. apply contains_suffix in Hc.
  destruct (String.prefix (String a l) (String c w2 +:+ String a l +:+ t)) eqn:E;
    [|reflexivity].
  rewrite app_cons in E. simpl in E, Hc.
  destruct (ascii_dec a c); [|discriminate].
  rewrite app_cons in E. apply prefix_before in E; [congruence | assumption].
Qed.

Lemma match_here_lit c p s :
  match_here (LITERAL c :: p) (String c s) = match_here p s.
Proof.
  simpl. rewrite Ascii.eqb_refl. now destruct (match_here p s) as [[? ?]|].
Qed.

Lemma match_here_lits lit p s :
  match_here (literals lit ++ p) (lit +:+ s) = match_here p s.
Proof.
  induction lit as [|c lit IH]; [reflexivity|].
  rewrite app_cons. unfold literals in *. simpl list_ascii_of_string.
  simpl map. rewrite <- app_comm_cons, match_here_lit. exact IH.
Qed.

Lemma match_here_lits_fail lit p s :
  String.prefix lit s = false -> match_here (literals lit ++ p) s = None.
Proof.
  revert s. induction lit as [|c lit IH]; intros s H; [now destruct s|].
  destruct s as [|d s]; [reflexivity|]. simpl in H.
  unfold literals in *. simpl list_ascii_of_string. simpl map.
  rewrite <- app_comm_cons. simpl.
  destruct (ascii_dec c d) as [->|Hne].
  - rewrite Ascii.eqb_refl. now rewrite IH.
  - destruct (Ascii.eqb_spec d c); [congruence | reflexivity].
Qed.

Section Repeat.
Variable cls : charset.
Variable k : continuation.

(** A greedy repetition takes a whole run of the class when the rest
    of the pattern matches after it. *)
Lemma rep_max_run w : forall min s r,
  Str.all_chars cls w = true -> Str.head_in cls s = false ->
  min <= String.length w -> k s = Some r ->
  rep_max cls k min (w +:+ s) = Some (w, r).
Proof.
  induction w as [|c w IH]; intros min s r Hall Hhead Hlen Hk.
  - rewrite app_nil_l. simpl in Hlen. assert (min = 0) as -> by lia.
    destruct s as [|d s]; simpl in *; [now rewrite Hk|]. now rewrite Hhead, Hk.
  - rewrite app_cons. simpl in Hall, Hlen |- *.
    apply andb_true_iff in Hall as [-> Hall].
    now rewrite (IH (Nat.pred min) s r Hall Hhead ltac:(lia) Hk).
Qed.

(** A lazy repetition skips a run of the class at no point of which
    the rest of the pattern matches, and stops where it does. *)
Lemma rep_min_skip w : forall s r,
  Str.all_chars cls w = true ->
  (forall w1 c w2, w = w1 +:+ String c w2 -> k (String c w2 +:+ s) = None) ->
  k s = Some r ->
  rep_min cls k 0 (w +:+ s) = Some (w, r).
Proof.
  induction w as [|c w IH]; intros s r Hall Hfail Hk.
  - rewrite app_nil_l. destruct s; simpl; now rewrite Hk.
  - rewrite app_cons. simpl in Hall |- *.
    apply andb_true_iff in Hall as [-> Hall].
    rewrite <- app_cons, (Hfail "" c w eq_refl). simpl.
    rewrite (IH s r Hall); [reflexivity | | assumption].
    intros w1 d w2 ->. apply (Hfail (String c w1) d w2). now rewrite app_cons.
Qed.
End Repeat.

Lemma match_here_max_run cls min p w s r :
  Str.all_chars cls w = true -> Str.head_in cls s = false ->
  min <= String.length w -> match_here p s = Some r ->
  match_here (MAX_REPEAT min cls :: p) (w +:+ s) = Some r.
Proof.
  intros Hall Hhead Hlen Hk. simpl.
  now rewrite (rep_max_run cls (match_here p) w min s r).
Qed.

Lemma match_here_group_run cls min p w s gs rest :
  Str.all_chars cls w = true -> Str.head_in cls s = false ->
  min <= String.length w -> match_here p s = Some (gs, rest) ->
  match_here (SUBPATTERN (MAX_REPEAT min cls) :: p) (w +:+ s) = Some (w :: gs, rest).
Proof.
  intros Hall Hhead Hlen Hk. simpl.
  now rewrite (rep_max_run cls (match_here p) w min s (gs, rest)).
Qed.

Lemma match_here_min_skip cls p w s r :
  Str.all_chars cls w = true ->
  (forall w1 c w2, w = w1 +:+ String c w2 -> match_here p (String c w2 +:+ s) = None) ->
  match_here p s = Some r ->
  match_here (MIN_REPEAT 0 cls :: p) (w +:+ s) = Some r.
Proof.
  intros Hall Hfail Hk. simpl.
  now rewrite (rep_min_skip cls (match_here p) w s r).
Qed.

(** The search passes over a prefix at no point of which the pattern
    matches. *)
Lemma search_from_skip p pre : forall n s,
  (forall w1 c w2, pre = w1 +:+ String c w2 -> match_here p (String c w2 +:+ s) = None) ->
  search_from p n (pre +:+ s) = search_from p (n + String.length pre) s.
Proof.
  induction pre as [|c pre IH]; intros n s Hfail.
  - rewrite app_nil_l. simpl. now rewrite Nat.add_0_r.
  - rewrite app_cons. simpl.
    rewrite <- app_cons, (Hfail "" c pre eq_refl).
    rewrite IH; [f_equal; lia|].
    intros w1 d w2 ->. apply (Hfail (String c w1) d w2). now rewrite app_cons.
Qed.

End ReRun.

Module ReportLine.
Import Re ReRun StrFacts PatternTails.

Lemma PATTERN_tails : PATTERN = literals "Return:" ++ tail1.
Proof. reflexivity. Qed.

Lemma head_in_app cls w c t :
  Str.head_in cls w = false -> cls c = false ->
  Str.head_in cls (w +:+ String c t) = false.
Proof. destruct w; intros Hw Hc; [exact Hc | exact Hw]. Qed.

Lemma search_from_head p n s gs rest :
  match_here p s = Some (gs, rest) -> search_from p n s = Some (n, gs).
Proof. intros H. destruct s; simpl; now rewrite H. Qed.

Section Line.
Variables mid1 mid2 post : string.
Hypothesis mid1_line : Str.all_chars any_char mid1 = true.
Hypothesis mid1_net : Str.contains "Net:" mid1 = false.
Hypothesis mid2_line : Str.all_chars any_char mid2 = true.
Hypothesis mid2_trades : Str.contains "Trades:" mid2 = false.
Hypothesis mid2_head : Str.head_in signed_decimal mid2 = false.
Hypothesis post_head : Str.head_in category_digit post = false.

Lemma trades_part :
  match_here (literals "Trades:" ++ tail3) ("Trades: 7" +:+ post)
  = Some (["7"], post).
Proof.
  change ("Trades: 7" +:+ post) with ("Trades:" +:+ " " +:+ "7" +:+ post).
  rewrite match_here_lits. unfold tail3.
  apply match_here_max_run; [reflexivity | reflexivity | simpl; lia |].
  now apply match_here_group_run.
Qed.


Lemma net_part :
  match_here (literals "Net:" ++ tail2)
    ("Net: $42.10" +:+ mid2 +:+ "Trades: 7" +:+ post)
  = Some (["42.10"; "7"], post).
Proof.
  change ("Net: $42.10" +:+ mid2 +:+ "Trades: 7" +:+ post)
    with ("Net:" +:+ " " +:+ String "$" ("42.10" +:+ mid2 +:+ "Trades: 7" +:+ post)).
  rewrite match_here_lits. unfold tail2.
  (apply match_here_max_run; [reflexivity | reflexivity | simpl; lia |]).
  rewrite match_here_lit.
  apply match_here_group_run.
  - reflexivity.
  - apply head_in_app. assumption. reflexivity.
  - simpl; lia.
  - apply match_here_min_skip.
    + assumption.
    + intros w1 c w2 ->. apply match_here_lits_fail.
      apply (no_straddle "T" "rades:" w1 c w2 (" 7" +:+ post)).
      reflexivity. assumption.
    + apply trades_part.
Qed.

Lemma return_part :
  match_here PATTERN
    ("Return: 3.21%" +:+ mid1 +:+ "Net: $42.10" +:+ mid2 +:+ "Trades: 7" +:+ post)
  = Some (["3.21"; "42.10"; "7"], post).
Proof.
  rewrite PATTERN_tails.
  change ("Return: 3.21%" +:+ mid1 +:+ "Net: $42.10" +:+ mid2 +:+ "Trades: 7" +:+ post)
    with ("Return:" +:+ " " +:+ "3.21"
            +:+ String "%" (mid1 +:+ "Net: $42.10" +:+ mid2 +:+ "Trades: 7" +:+ post)).
  rewrite match_here_lits. unfold tail1.
  (apply match_here_max_run; [reflexivity | reflexivity | simpl; lia |]).
  (apply match_here_group_run; [reflexivity | reflexivity | simpl; lia |]).
  rewrite match_here_lit.
  apply match_here_min_skip.
  - assumption.
  - intros w1 c w2 ->. apply match_here_lits_fail.
    apply (no_straddle "N" "et:" w1 c w2
               (" $42.10" +:+ mid2 +:+ "Trades: 7" +:+ post)).
    + reflexivity.
    + assumption.
  - apply net_part.
Qed.

Lemma search_report pre :
  Str.contains "Return:" pre = false ->
  search PATTERN
    (pre +:+ "Return: 3.21%" +:+ mid1 +:+ "Net: $42.10" +:+ mid2 +:+ "Trades: 7" +:+ post)
  = Some (String.length pre, ["3.21"; "42.10"; "7"]).
Proof.
  intros Hpre. unfold search. rewrite search_from_skip.
  - rewrite (search_from_head _ _ _ _ _ return_part). reflexivity.
  - intros w1 c w2 ->. rewrite PATTERN_tails. apply match_here_lits_fail.
    apply (no_straddle "R" "eturn:" w1 c w2
                 (" 3.21%" +:+ mid1 +:+ "Net: $42.10" +:+ mid2 +:+ "Trades: 7" +:+ post)).
    + reflexivity.
    + assumption.
Qed.
End Line.
End ReportLine.

(** C2 as stated fails: with a line feed between the fields the pattern
    does not match, since [.] stops at the end of a line. *)
Lemma C2_counterexample :
  parse_output
    (CompletedProcess 0
       ("Return: 3.21%" +:+ Io.newline +:+ "Net: $42.10" +:+ Io.newline +:+ "Trades: 7") "")
  = Ok (failed "PARSE_ERROR")
  /\ parse_output
       (CompletedProcess 0
          ("Return: 3.21%" +:+ Io.newline +:+ "Net: $42.10" +:+ Io.newline +:+ "Trades: 7") "")
     <> Ok (Outcome "SUCCESS" (PyFloat 3.21) (PyFloat 42.1) 7).
Proof. split; [vm_compute; reflexivity | vm_compute; discriminate]. Qed.

(** C2, amended.  Let the captured text be [pre], then ["Return: 3.21%"],
    then [mid1], then ["Net: $42.10"], then [mid2], then ["Trades: 7"],
    then [post], where [pre] does not contain ["Return:"], [mid1] and
    [mid2] hold no line feed, [mid1] does not contain ["Net:"], [mid2] does
    not contain ["Trades:"] and does not begin with a digit, a dot or a
    minus sign, and [post] does not begin with a digit.  Then the parser
    returns SUCCESS with return 3.21, net 42.10 (the rational 421/10) and
    7 trades. *)
Theorem C2_report_line_parsed :
  forall (p : completed) (pre mid1 mid2 post : string),
    stdout p +:+ stderr p
      = pre +:+ "Return: 3.21%" +:+ mid1 +:+ "Net: $42.10" +:+ mid2 +:+ "Trades: 7" +:+ post ->
    Str.contains "Return:" pre = false ->
    Str.all_chars Re.any_char mid1 = true ->
    Str.contains "Net:" mid1 = false ->
    Str.all_chars Re.any_char mid2 = true ->
    Str.contains "Trades:" mid2 = false ->
    Str.head_in signed_decimal mid2 = false ->
    Str.head_in Re.category_digit post = false ->
    parse_output p
    = Ok {| status := "SUCCESS"; return_ := PyFloat 3.21; net := PyFloat 42.1; trades := 7 |}.
Proof.
  intros p pre mid1 mid2 post Htext Hpre Hl1 Hn1 Hl2 Ht2 Hh2 Hpost.
  unfold parse_output. rewrite Htext.
  rewrite (ReportLine.search_report mid1 mid2 post Hl1 Hn1 Hl2 Ht2 Hh2 Hpost pre Hpre).
  vm_compute. reflexivity.
Qed.

Lemma C2_witness :
  parse_output
    (CompletedProcess 0
       "Backtest done. Return: 3.21% | Net: $42.10 | Trades: 7 (AAPL)"
       "    Finished release [optimized] target(s) in 0.08s")
  = Ok {| status := "SUCCESS"; return_ := PyFloat 3.21; net := PyFloat 42.1; trades := 7 |}.
Proof.
  apply (C2_report_line_parsed
           (CompletedProcess 0
              "Backtest done. Return: 3.21% | Net: $42.10 | Trades: 7 (AAPL)"
              "    Finished release [optimized] target(s) in 0.08s")
           "Backtest done. " " | " " | "
           " (AAPL)    Finished release [optimized] target(s) in 0.08s");
    reflexivity.
Defined.

(** ** The choices of the engine

    Which of the texts it could take a repetition settles on: a greedy
    one on the longest after which the rest of the pattern matches, a
    lazy one on the shortest. *)

Module ReFirst.
Import Re ReSpec ReFacts ReRun StrFacts.

Section Repeat.
Variable cls : charset.
Variable k : continuation.

Lemma rep_max_None w min s' :
  Str.all_chars cls w = true -> min <= String.length w ->
  rep_max cls k min (w +:+ s') = None -> k s' = None.
Proof.
  intros Hall Hlen H. destruct (k s') as [r|] eqn:Hk; [|reflexivity].
  destruct (rep_max_complete cls k w min s' r Hall Hlen Hk) as [x Hx]. congruence.
Qed.

Lemma rep_max_first s : forall min w r,
  rep_max cls k min s = Some (w, r) ->
  forall x s'',
    x <> "" -> Str.all_chars cls x = true -> s = (w +:+ x) +:+ s'' -> k s'' = None.
Proof.
  induction s as [|c s IH]; intros min w r H x s'' Hx Hall Heq.
  - destruct w; destruct x; try contradiction; discriminate.
  - assert (Hstop : (if Nat.eqb min 0 then option_map (pair "") (k (String c s)) else None)
                    = Some (w, r) -> w = "").
    { destruct min; simpl; [|discriminate].
      destruct (k (String c s)); simpl; [|discriminate]. now intros [= <- _]. }
    simpl in H. destruct (cls c) eqn:Hc.
    + destruct (rep_max cls k (Nat.pred min) s) as [[w' r']|] eqn:Hrec.
      * injection H as <- <-. rewrite !app_cons in Heq. injection Heq as Heq.
        eapply IH; eassumption.
      * pose proof (Hstop H) as ->. rewrite app_nil_l in Heq.
        destruct x as [|d x]; [contradiction|].
        rewrite app_cons in Heq. injection Heq as -> ->.
        simpl in Hall. apply andb_true_iff in Hall as [_ Hall].
        destruct min; simpl in H; [|discriminate].
        apply (rep_max_None x 0); [exact Hall | lia | exact Hrec].
    + pose proof (Hstop H) as ->. rewrite app_nil_l in Heq.
      destruct x as [|d x]; [contradiction|].
      rewrite app_cons in Heq. injection Heq as -> ->.
      simpl in Hall. rewrite Hc in Hall. discriminate.
Qed.

Lemma no_split w1 c w2 : "" <> w1 +:+ String c w2.
Proof. destruct w1; [rewrite app_nil_l | rewrite app_cons]; discriminate. Qed.

Lemma rep_min_first s : forall w r,
  rep_min cls k 0 s = Some (w, r) ->
  forall w1 c w2 s',
    s = w +:+ s' -> w = w1 +:+ String c w2 -> k (String c w2 +:+ s') = None.
Proof.
  induction s as [|d s IH]; intros w r H w1 c w2 s' Heq Hw; simpl in H.
  - destruct (k "") as [r0|]; simpl in H; [|discriminate].
    injection H as <- <-. now apply no_split in Hw.
  - destruct (k (String d s)) as [r0|] eqn:Hk; simpl in H.
    + injection H as <- <-. now apply no_split in Hw.
    + destruct (cls d); [|discriminate].
      destruct (rep_min cls k 0 s) as [[w' r']|] eqn:Hrec; [|discriminate].
      injection H as <- <-. rewrite app_cons in Heq. injection Heq as Heq.
      destruct w1 as [|e w1].
      * rewrite app_nil_l in Hw. injection Hw as <- <-.
        rewrite app_cons, <- Heq. exact Hk.
      * rewrite app_cons in Hw. injection Hw as <- Hw.
        eapply (IH _ _ eq_refl); eassumption.
Qed.
End Repeat.

Lemma match_here_lit_inv c p s r :
  match_here (LITERAL c :: p) s = Some r ->
  exists s', s = String c s' /\ match_here p s' = Some r.
Proof.
  simpl. destruct s as [|d s]; [discriminate|].
  destruct (Ascii.eqb_spec d c) as [->|]; [|discriminate].
  destruct (match_here p s) as [r'|] eqn:E; simpl; [|discriminate].
  intros [= <-]. now exists s.
Qed.

Lemma match_here_lits_inv lit p : forall s r,
  match_here (literals lit ++ p) s = Some r ->
  exists s', s = lit +:+ s' /\ match_here p s' = Some r.
Proof.
  induction lit as [|c lit IH]; intros s r H; [now exists s|].
  unfold literals in *. simpl list_ascii_of_string in H. simpl map in H.
  rewrite <- app_comm_cons in H.
  apply match_here_lit_inv in H as (s1 & -> & H).
  apply IH in H as (s' & -> & H). exists s'. now rewrite app_cons.
Qed.

Lemma match_here_max_inv cls min p s r :
  match_here (MAX_REPEAT min cls :: p) s = Some r ->
  exists w s',
    s = w +:+ s' /\ Str.all_chars cls w = true /\ min <= String.length w
    /\ match_here p s' = Some r
    /\ forall x s'',
         x <> "" -> Str.all_chars cls x = true -> s' = x +:+ s'' ->
         match_here p s'' = None.
Proof.
  simpl. destruct (rep_max cls (match_here p) min s) as [[w r']|] eqn:E; [|discriminate].
  simpl. intros [= <-].
  pose proof (rep_max_first cls (match_here p) s min w r' E) as Hfirst.
  apply rep_max_sound in E as (Hall & Hlen & s' & -> & Hk).
  exists w, s'. repeat split; try assumption.
  intros x s'' Hx Hax ->. apply (Hfirst x s'' Hx Hax). now rewrite app_assoc.
Qed.

Lemma match_here_group_inv cls min p s gs rest :
  match_here (SUBPATTERN (MAX_REPEAT min cls) :: p) s = Some (gs, rest) ->
  exists w gs' s',
    gs = w :: gs' /\ s = w +:+ s' /\ Str.all_chars cls w = true
    /\ min <= String.length w
    /\ match_here p s' = Some (gs', rest)
    /\ forall x s'',
         x <> "" -> Str.all_chars cls x = true -> s' = x +:+ s'' ->
         match_here p s'' = None.
Proof.
  simpl.
  destruct (rep_max cls (match_here p) min s) as [[w [gs' rest']]|] eqn:E; [|discriminate].
  simpl. intros [= <- <-].
  pose proof (rep_max_first cls (match_here p) s min w (gs', rest') E) as Hfirst.
  apply rep_max_sound in E as (Hall & Hlen & s' & -> & Hk).
  exists w, gs', s'. repeat split; try assumption.
  intros x s'' Hx Hax ->. apply (Hfirst x s'' Hx Hax). now rewrite app_assoc.
Qed.

Lemma match_here_min_inv cls p s r :
  match_here (MIN_REPEAT 0 cls :: p) s = Some r ->
  exists w s',
    s = w +:+ s' /\ Str.all_chars cls w = true
    /\ match_here p s' = Some r
    /\ forall w1 c w2,
         w = w1 +:+ String c w2 -> match_here p (String c w2 +:+ s') = None.
Proof.
  simpl. destruct (rep_min cls (match_here p) 0 s) as [[w r']|] eqn:E; [|discriminate].
  simpl. intros [= <-].
  pose proof (rep_min_first cls (match_here p) s w r' E) as Hfirst.
  apply rep_min_sound in E as (Hall & _ & s' & -> & Hk).
  exists w, s'. repeat split; try assumption.
  intros w1 c w2 Hw. now apply (Hfirst w1 c w2 s').
Qed.

Lemma occurs_at_skip p w s :
  occurs_at p s 0 -> occurs_at p (w +:+ s) (String.length w).
Proof.
  intros (pre & m & post & gs & -> & Hlen & Hm).
  destruct pre; [|discriminate]. rewrite app_nil_l.
  now exists w, m, post, gs.
Qed.

End ReFirst.

(** ** The cut of the first match *)

Module ReadingFacts.
Import Re ReSpec ReFacts ReRun ReFirst StrFacts PatternTails Reading.

Lemma signed_is_not_space c :
  signed_decimal c = true -> category_space c = false.
Proof. destruct c as [[] [] [] [] [] [] [] []]; vm_compute; congruence. Qed.

Lemma digit_is_not_space c :
  category_digit c = true -> category_space c = false.
Proof. destruct c as [[] [] [] [] [] [] [] []]; vm_compute; congruence. Qed.

(** A non-empty text over a class, followed by anything, begins outside
    every class that is disjoint from it. *)
Lemma head_of_run (cls other : charset) g t :
  (forall c, cls c = true -> other c = false) ->
  g <> "" -> Str.all_chars cls g = true ->
  Str.head_in other (g +:+ t) = false.
Proof.
  intros Hdisj Hne Hall. destruct g as [|c g]; [contradiction|].
  rewrite app_cons. simpl in *. apply andb_true_iff in Hall as [Hc _]. now apply Hdisj.
Qed.

Lemma length_nonempty g : g <> "" -> 1 <= String.length g.
Proof. destruct g; [contradiction | simpl; lia]. Qed.

Lemma nonempty_length g : 1 <= String.length g -> g <> "".
Proof. destruct g; simpl; [lia | discriminate]. Qed.

Lemma tail1_items :
  tail1 = MAX_REPEAT 0 category_space
          :: SUBPATTERN (MAX_REPEAT 1 signed_decimal)
          :: LITERAL "%"
          :: MIN_REPEAT 0 any_char :: (literals "Net:" ++ tail2).
Proof. reflexivity. Qed.

Lemma tail2_items :
  tail2 = MAX_REPEAT 0 category_space
          :: LITERAL "$"
          :: SUBPATTERN (MAX_REPEAT 1 signed_decimal)
          :: MIN_REPEAT 0 any_char :: (literals "Trades:" ++ tail3).
Proof. reflexivity. Qed.

(** The engine along a cut whose lazy parts are the shortest and whose
    greedy parts are whole runs. *)
Section Line.
Variables ws1 g1 mid1 ws2 g2 mid2 ws3 g3 post : string.
Hypothesis ws1_space : Str.all_chars category_space ws1 = true.
Hypothesis ws2_space : Str.all_chars category_space ws2 = true.
Hypothesis ws3_space : Str.all_chars category_space ws3 = true.
Hypothesis g1_some : g1 <> "".
Hypothesis g1_signed : Str.all_chars signed_decimal g1 = true.
Hypothesis g2_some : g2 <> "".
Hypothesis g2_signed : Str.all_chars signed_decimal g2 = true.
Hypothesis g3_some : g3 <> "".
Hypothesis g3_digits : Str.all_chars category_digit g3 = true.
Hypothesis mid1_line : Str.all_chars any_char mid1 = true.
Hypothesis mid2_line : Str.all_chars any_char mid2 = true.
Hypothesis mid1_first :
  forall w1 c w2,
    mid1 = w1 +:+ String c w2 ->
    match_here (literals "Net:" ++ tail2)
      (String c w2 +:+ "Net:" +:+ ws2
         +:+ String "$" (g2 +:+ mid2 +:+ "Trades:" +:+ ws3 +:+ g3 +:+ post))
    = None.
Hypothesis mid2_first :
  forall w1 c w2,
    mid2 = w1 +:+ String c w2 ->
    match_here (literals "Trades:" ++ tail3)
      (String c w2 +:+ "Trades:" +:+ ws3 +:+ g3 +:+ post)
    = None.
Hypothesis mid2_head : Str.head_in signed_decimal mid2 = false.
Hypothesis post_head : Str.head_in category_digit post = false.

Lemma trades_found :
  match_here (literals "Trades:" ++ tail3) ("Trades:" +:+ ws3 +:+ g3 +:+ post)
  = Some ([g3], post).
Proof.
  rewrite match_here_lits. unfold tail3.
  apply match_here_max_run; [exact ws3_space | | lia |].
  - apply (head_of_run category_digit); [exact digit_is_not_space | assumption..].
  - apply match_here_group_run;
      [exact g3_digits | exact post_head | now apply length_nonempty | reflexivity].
Qed.

Lemma net_found :
  match_here (literals "Net:" ++ tail2)
    ("Net:" +:+ ws2 +:+ String "$" (g2 +:+ mid2 +:+ "Trades:" +:+ ws3 +:+ g3 +:+ post))
  = Some ([g2; g3], post).
Proof.
  rewrite match_here_lits, tail2_items.
  apply match_here_max_run; [exact ws2_space | reflexivity | lia |].
  rewrite match_here_lit.
  apply match_here_group_run; [exact g2_signed | | now apply length_nonempty |].
  - apply ReportLine.head_in_app; [exact mid2_head | reflexivity].
  - apply match_here_min_skip; [exact mid2_line | exact mid2_first | exact trades_found].
Qed.

Lemma return_found :
  match_here PATTERN
    ("Return:" +:+ ws1 +:+ g1
       +:+ String "%" (mid1 +:+ "Net:" +:+ ws2
                         +:+ String "$" (g2 +:+ mid2 +:+ "Trades:" +:+ ws3 +:+ g3 +:+ post)))
  = Some ([g1; g2; g3], post).
Proof.
  rewrite ReportLine.PATTERN_tails, match_here_lits, tail1_items.
  apply match_here_max_run; [exact ws1_space | | lia |].
  - apply (head_of_run signed_decimal); [exact signed_is_not_space | assumption..].
  - apply match_here_group_run;
      [exact g1_signed | reflexivity | now apply length_nonempty |].
    rewrite match_here_lit.
    apply match_here_min_skip; [exact mid1_line | exact mid1_first | exact net_found].
Qed.
End Line.

(** A cut that meets [first] is the one the search makes. *)
Lemma first_is_found d :
  first d ->
  search PATTERN (text d) = Some (String.length (pre d), [g1 d; g2 d; g3 d]).
Proof.
  destruct d as [pre ws1 g1 mid1 ws2 g2 mid2 ws3 g3 post].
  intros ((Hw1 & Ha1 & Hg1 & Hm1 & Hw2 & Ha2 & Hg2 & Hm2 & Hw3 & Ha3 & Hg3)
          & Hleft & Hl1 & Hh2 & Hl2 & Hp).
  unfold text, from_net, from_trades, laziest in *. simpl in *.
  assert (Hfound := return_found ws1 g1 mid1 ws2 g2 mid2 ws3 g3 post
                      Hw1 Hw2 Hw3 Hg1 Ha1 Hg2 Ha2 Hg3 Ha3 Hm1 Hm2).
  unfold search. rewrite search_from_skip.
  - erewrite ReportLine.search_from_head; [reflexivity|]. apply Hfound.
    + intros w1 c w2 Hsplit. apply match_here_None. exact (Hl1 w1 c w2 Hsplit).
    + intros w1 c w2 Hsplit. apply match_here_None. exact (Hl2 w1 c w2 Hsplit).
    + exact Hh2.
    + exact Hp.
  - intros w1 c w2 ->. apply match_here_None. intros Hocc.
    apply (Hleft (String.length w1)).
    + rewrite length_app. simpl. lia.
    + rewrite app_assoc. now apply occurs_at_skip.
Qed.

(** What the engine matched at the head of [s] is a cut with the
    choices of [first], whatever stands in front of [s]. *)
Lemma cut_of_match front s gs rest :
  match_here PATTERN s = Some (gs, rest) ->
  exists d,
    pre d = front /\ gs = [g1 d; g2 d; g3 d]
    /\ text d = front +:+ s
    /\ instance d
    /\ laziest (literals "Net:" ++ tail2) (mid1 d) (from_net d)
    /\ Str.head_in signed_decimal (mid2 d) = false
    /\ laziest (literals "Trades:" ++ tail3) (mid2 d) (from_trades d)
    /\ Str.head_in category_digit (post d) = false.
Proof.
  intros H. rewrite ReportLine.PATTERN_tails in H.
  apply match_here_lits_inv in H as (s1 & -> & H). rewrite tail1_items in H.
  apply match_here_max_inv in H as (ws1 & s2 & -> & Hws1 & _ & H & _).
  apply match_here_group_inv in H as (g1 & gs1 & s3 & -> & -> & Hg1 & Hn1 & H & _).
  apply match_here_lit_inv in H as (s4 & -> & H).
  apply match_here_min_inv in H as (mid1 & s5 & -> & Hmid1 & H & Hlazy1).
  apply match_here_lits_inv in H as (s6 & -> & H). rewrite tail2_items in H.
  apply match_here_max_inv in H as (ws2 & s7 & -> & Hws2 & _ & H & _).
  apply match_here_lit_inv in H as (s8 & -> & H).
  apply match_here_group_inv in H as (g2 & gs2 & s9 & -> & -> & Hg2 & Hn2 & H & Hlong2).
  apply match_here_min_inv in H as (mid2 & s10 & -> & Hmid2 & H & Hlazy2).
  pose proof H as Htrades.
  apply match_here_lits_inv in H as (s11 & Hs10 & H). unfold tail3 in H.
  apply match_here_max_inv in H as (ws3 & s12 & -> & Hws3 & _ & H & _).
  apply match_here_group_inv in H as (g3 & gs3 & post & -> & -> & Hg3 & Hn3 & H & Hlong3).
  simpl in H. injection H as <- <-. subst s10.
  exists (Cut front ws1 g1 mid1 ws2 g2 mid2 ws3 g3 post).
  unfold text, from_net, from_trades, instance, laziest. simpl.
  split; [reflexivity|]. split; [reflexivity|]. split; [reflexivity|].
  split; [repeat split; try assumption; now apply nonempty_length|].
  split; [|split; [|split]].
  - intros u c v Hsplit. apply match_here_None. exact (Hlazy1 u c v Hsplit).
  - destruct mid2 as [|c m']; [reflexivity|]. simpl.
    destruct (signed_decimal c) eqn:Hc; [exfalso | reflexivity].
    simpl in Hmid2. apply andb_true_iff in Hmid2 as [_ Hmid2].
    assert (Hnone := Hlong2 (String c "") (m' +:+ "Trades:" +:+ ws3 +:+ g3 +:+ post)
                       ltac:(discriminate)
                       ltac:(simpl; now rewrite Hc) eq_refl).
    rewrite (match_here_min_skip any_char _ m' _ ([g3], post)) in Hnone;
      [discriminate | exact Hmid2 | | exact Htrades].
    intros w1 d w2 ->. apply (Hlazy2 (String c w1) d w2). now rewrite app_cons.
  - intros u c v Hsplit. apply match_here_None. exact (Hlazy2 u c v Hsplit).
  - destruct post as [|c post']; [reflexivity|]. simpl.
    destruct (category_digit c) eqn:Hc; [exfalso | reflexivity].
    assert (Hnone := Hlong3 (String c "") post' ltac:(discriminate)
                       ltac:(simpl; now rewrite Hc) eq_refl).
    discriminate.
Qed.

End ReadingFacts.

(** C9.  When the pattern occurs in the captured text, once or more
    often, the parser reads the first match and no other.  The text has a
    cut [d] along the pattern that meets [Reading.first]: the report starts
    at the leftmost offset at which an instance of the pattern starts,
    [mid1] and [mid2] are the shortest texts after which the rest of the
    pattern can be matched, the groups are whole runs.  [re.search] returns
    that offset and the three groups of [d], and the [try] block ends as
    the conversions of these three groups do: with SUCCESS and their
    values, or with the exception of the first conversion that fails.
    Every cut of the text that meets [Reading.first] has the same offset
    and the same groups, so that an instance starting further right is
    never the one that is read; and the outcome depends on the combined
    text only. *)
Theorem C9_leftmost_match :
  forall (p : completed),
    ReSpec.occurs PATTERN (stdout p +:+ stderr p) ->
    exists d : Reading.cut,
      Reading.text d = stdout p +:+ stderr p
      /\ Reading.first d
      /\ Re.search PATTERN (stdout p +:+ stderr p)
         = Some (String.length (Reading.pre d),
                 [Reading.g1 d; Reading.g2 d; Reading.g3 d])
      /\ parse_output p
         = (r ← float (Reading.g1 d); n ← float (Reading.g2 d); t ← int (Reading.g3 d);
            Ok {| status := "SUCCESS"; return_ := PyFloat r; net := PyFloat n;
                  trades := t |})
      /\ (forall d' : Reading.cut,
            Reading.text d' = stdout p +:+ stderr p -> Reading.first d' ->
            String.length (Reading.pre d') = String.length (Reading.pre d)
            /\ Reading.g1 d' = Reading.g1 d /\ Reading.g2 d' = Reading.g2 d
            /\ Reading.g3 d' = Reading.g3 d)
      /\ (forall p' : completed,
            stdout p' +:+ stderr p' = stdout p +:+ stderr p ->
            parse_output p' = parse_output p).
Proof.
  intros p Hocc.
  assert (Hs : exists x, Re.search PATTERN (stdout p +:+ stderr p) = Some x).
  { destruct (Re.search PATTERN (stdout p +:+ stderr p)) eqn:E; [now eexists|].
    apply ReFacts.search_None in E. contradiction. }
  destruct Hs as [[i gs] Hs]. pose proof Hs as Hfound.
  apply ReFacts.search_from_Some in Hfound
    as (front & m & post0 & Heq & Hi & _ & Hm & Hleft).
  simpl in Hi. subst i.
  destruct (ReadingFacts.cut_of_match front _ _ _ Hm)
    as (d & Hpre & -> & Htext & Hinst & Hl1 & Hh2 & Hl2 & Hp).
  rewrite <- Heq in Htext.
  assert (Hfirst : Reading.first d).
  { split; [exact Hinst|]. split; [|now repeat split].
    rewrite Hpre, Htext. exact Hleft. }
  exists d. rewrite <- Hpre in Hs.
  split; [exact Htext|]. split; [exact Hfirst|]. split; [exact Hs|].
  split; [|split].
  - unfold parse_output. rewrite Hs. reflexivity.
  - intros d' Htext' Hfirst'.
    apply ReadingFacts.first_is_found in Hfirst'. rewrite Htext', Hs in Hfirst'.
    injection Hfirst' as -> -> -> ->. now repeat split.
  - intros p' Heq'. unfold parse_output. now rewrite Heq'.
Qed.

Lemma C9_witness :
  ReSpec.occurs PATTERN
    (stdout (CompletedProcess 0 "Return: 1% Net: $2 Trades: 3 Return: 4% Net: $5 Trades: 6" "")
       +:+ stderr (CompletedProcess 0 "Return: 1% Net: $2 Trades: 3 Return: 4% Net: $5 Trades: 6" ""))
  /\ exists d : Reading.cut,
       Reading.text d = "Return: 1% Net: $2 Trades: 3 Return: 4% Net: $5 Trades: 6"
       /\ Reading.first d
       /\ Reading.pre d = ""
       /\ Reading.g1 d = "1" /\ Reading.g2 d = "2" /\ Reading.g3 d = "3"
       /\ parse_output
            (CompletedProcess 0 "Return: 1% Net: $2 Trades: 3 Return: 4% Net: $5 Trades: 6" "")
          = Ok (Outcome "SUCCESS" (PyFloat 1) (PyFloat 2) 3).
Proof.
  assert (Hocc : ReSpec.occurs PATTERN
            (stdout (CompletedProcess 0
                       "Return: 1% Net: $2 Trades: 3 Return: 4% Net: $5 Trades: 6" "")
               +:+ stderr (CompletedProcess 0
                       "Return: 1% Net: $2 Trades: 3 Return: 4% Net: $5 Trades: 6" ""))).
  { apply (ReFacts.search_Some_occurs _ _ (0, ["1"; "2"; "3"])). vm_compute. reflexivity. }
  split; [exact Hocc|].
  destruct (C9_leftmost_match
              (CompletedProcess 0
                 "Return: 1% Net: $2 Trades: 3 Return: 4% Net: $5 Trades: 6" "")
              Hocc) as (d & Htext & Hfirst & Hs & Hp & _).
  assert (E : Re.search PATTERN
                (stdout (CompletedProcess 0
                           "Return: 1% Net: $2 Trades: 3 Return: 4% Net: $5 Trades: 6" "")
                   +:+ stderr (CompletedProcess 0
                           "Return: 1% Net: $2 Trades: 3 Return: 4% Net: $5 Trades: 6" ""))
              = Some (0, ["1"; "2"; "3"])) by (vm_compute; reflexivity).
  rewrite E in Hs. injection Hs as Hlen H1 H2 H3.
  exists d. split; [exact Htext|]. split; [exact Hfirst|].
  split; [destruct (Reading.pre d); [reflexivity | discriminate]|].
  split; [now symmetry|]. split; [now symmetry|]. split; [now symmetry|].
  rewrite Hp, <- H1, <- H2, <- H3. vm_compute. reflexivity.
Defined.

(** ** Numbers and the table writer *)

Module PyFacts.
Import Py.

Lemma is_zero_len {A} (x : A) (l : list A) : is_zero (len (x :: l)) = false.
Proof.
  unfold is_zero, len, to_Q, Qcompare. simpl Qnum. simpl Qden.
  rewrite Z.mul_1_r. simpl. reflexivity.
Qed.

(** Dividing by [len] of a non-empty list raises nothing. *)
Lemma truediv_len {A} (a : num) (x : A) (l : list A) :
  truediv a (len (x :: l)) = Ok (PyFloat (Qred (to_Q a / to_Q (len (x :: l))))).
Proof. unfold truediv. now rewrite is_zero_len. Qed.

Lemma truediv_nonempty {A} (a : num) (l : list A) :
  l <> [] -> truediv a (len l) = Ok (PyFloat (Qred (to_Q a / to_Q (len l)))).
Proof. destruct l; [contradiction | intros _; apply truediv_len]. Qed.

Lemma sum_ones_from {A} (l : list A) : forall z,
  fold_left add (map (fun _ => PyInt 1) l) (PyInt z)
  = PyInt (z + Z.of_nat (length l)).
Proof.
  induction l as [|x l IH]; intros z; simpl fold_left; simpl length.
  - f_equal. lia.
  - simpl add. rewrite IH. f_equal. lia.
Qed.

(** [sum(1 for _ in l)] is the number of elements of [l]. *)
Lemma sum_ones {A} (l : list A) :
  sum (map (fun _ => PyInt 1) l) = PyInt (Z.of_nat (length l)).
Proof. unfold sum. now rewrite sum_ones_from. Qed.

End PyFacts.

Module IoFacts.
Import Py Io.

Lemma for_each_ok {A} (xs : list A) (body : A -> res (list printed)) :
  (forall x, exists out, body x = Ok out) ->
  exists out, CompareStrategies.for_each xs body = Ok out.
Proof.
  intros Hbody. induction xs as [|x xs [rest IH]]; simpl; [eauto|].
  destruct (Hbody x) as [out ->]. simpl. rewrite IH. simpl. eauto.
Qed.

Lemma write_after_mkdir path t f d :
  fst path = d ->
  write_file path t (mkdir_exist_ok d f)
  = Ok (Fs ({[ d ]} ∪ dirs f) (<[ path := t ]> (files f))).
Proof.
  intros <-. unfold write_file, mkdir_exist_ok. simpl.
  rewrite decide_True by set_solver. reflexivity.
Qed.

End IoFacts.

(** ** The trial loops of [compare_strategies.py] *)

Module CompareFacts.
Import Py Trial Io CompareStrategies Matrix CompareTable.

Lemma grows_refl strat m : grows strat [] m m.
Proof.
  intros s. case_decide; [|reflexivity].
  destruct (m !! s); simpl; [now rewrite app_nil_r | reflexivity].
Qed.

Lemma grows_trans strat a b m1 m2 m3 :
  grows strat a m1 m2 -> grows strat b m2 m3 -> grows strat (a ++ b) m1 m3.
Proof.
  intros H1 H2 s. rewrite (H2 s), (H1 s). case_decide; [|reflexivity].
  destruct (m1 !! s); simpl; [now rewrite app_assoc | reflexivity].
Qed.

Lemma writerows_items (rs : list row) :
  writerows fieldnames (map items rs) = Ok (map cells rs).
Proof.
  induction rs as [|r rs IH]; [reflexivity|].
  simpl map. simpl writerows. rewrite IH. reflexivity.
Qed.

Lemma summary_ok strat rs : exists out, summary strat rs = Ok out.
Proof.
  unfold summary. destruct (successful rs) as [|r succ]; [eauto|].
  unfold avg_return, win_rate. rewrite !PyFacts.truediv_len. simpl. eauto.
Qed.

Lemma breakdown_ok period_name strat rs :
  exists out, breakdown period_name strat rs = Ok out.
Proof.
  unfold breakdown. destruct (period_results period_name rs) as [|r pr]; [eauto|].
  rewrite !PyFacts.truediv_len. simpl. eauto.
Qed.

Section Loops.
Context {World : Type}.
Variable subprocess_run : list string -> Z -> World -> res completed * World.
Variable periods : list (string * string * string).
Variable symbols : list string.
Variable strategies : list string.

Lemma run_benchmark_from_trial sym sd ed strat w :
  from_trial (fst (run_benchmark subprocess_run sym sd ed strat w)).
Proof.
  unfold run_benchmark.
  destruct (subprocess_run (cmd sym sd ed strat) 60%Z w) as [answer w'].
  now exists answer.
Qed.

Lemma trial_appended strat total p st sym :
  appended strat [(strat, fst (fst p), sym)] st
           (trial subprocess_run strat total p st sym).
Proof.
  destruct p as [[pn sd] ed]. unfold trial.
  pose proof (run_benchmark_from_trial sym sd ed strat (world st)) as Hft.
  destruct (run_benchmark subprocess_run sym sd ed strat (world st)) as [o w'].
  exists [Row strat pn sym o]. simpl. split; [|split].
  - intros s. rewrite lookup_alter. case_decide; [now subst | reflexivity].
  - reflexivity.
  - constructor; [exact Hft | constructor].
Qed.

Lemma appended_trans strat t1 t2 (st1 st2 st3 : @state World) :
  appended strat t1 st1 st2 -> appended strat t2 st2 st3 ->
  appended strat (t1 ++ t2) st1 st3.
Proof.
  intros (a & Ha & Hta & Hfa) (b & Hb & Htb & Hfb).
  exists (a ++ b). split; [|split].
  - eapply grows_trans; eassumption.
  - now rewrite map_app, Hta, Htb.
  - now apply Forall_app.
Qed.

Lemma appended_refl strat (st st' : @state World) :
  results st' = results st -> appended strat [] st st'.
Proof.
  intros H. exists []. rewrite H. split; [apply grows_refl | split; [reflexivity | constructor]].
Qed.

Lemma per_period_appended strat total p : forall syms st,
  appended strat (map (fun sym => (strat, fst (fst p), sym)) syms) st
           (fold_left (trial subprocess_run strat total p) syms st).
Proof.
  induction syms as [|sym syms IH]; intros st; simpl fold_left; simpl map.
  - now apply appended_refl.
  - change ((strat, fst (fst p), sym) :: map (fun sym => (strat, fst (fst p), sym)) syms)
      with ([(strat, fst (fst p), sym)] ++ map (fun sym => (strat, fst (fst p), sym)) syms).
    eapply appended_trans; [apply trial_appended | apply IH].
Qed.

Lemma periods_appended strat total : forall ps st,
  appended strat (for_strategy ps symbols strat) st
           (fold_left (per_period subprocess_run symbols strat total) ps st).
Proof.
  induction ps as [|p ps IH]; intros st; simpl fold_left.
  - now apply appended_refl.
  - unfold for_strategy. simpl flat_map.
    eapply appended_trans; [apply per_period_appended | apply IH].
Qed.

Lemma per_strategy_appended st strat :
  appended strat (for_strategy periods symbols strat) st
           (per_strategy subprocess_run periods symbols st strat).
Proof.
  unfold per_strategy.
  destruct (periods_appended strat
              (Z.of_nat (length periods) * Z.of_nat (length symbols))%Z periods
              (State (world st)
                 (console st
                    ++ [ print [Txt newline; Txt (rule 60)];
                         print [Txt "Testing "; Upper strat; Txt " Strategy"];
                         print [Txt (rule 60); Txt newline] ])
                 (results st) 0))
    as (new & Hg & Ht & Hf).
  now exists new.
Qed.

(** After the loop over the strategies still to do: a strategy that is
    not among them keeps its list; one that is, once, has had its trials
    appended. *)
Lemma strategies_loop : forall todo st,
  let st' := fold_left (per_strategy subprocess_run periods symbols) todo st in
  (forall s, s ∉ todo -> results st' !! s = results st !! s)
  /\ (NoDup todo ->
      forall s, s ∈ todo ->
        exists new,
          results st' !! s = (fun l => l ++ new) <$> (results st !! s)
          /\ map trial_of new = for_strategy periods symbols s
          /\ Forall (fun r => from_trial (result r)) new).
Proof.
  induction todo as [|x todo IH]; intros st; simpl.
  - split; [reflexivity|]. intros _ s Hs. now apply elem_of_nil in Hs.
  - destruct (IH (per_strategy subprocess_run periods symbols st x)) as [IH1 IH2].
    destruct (per_strategy_appended st x) as (new & Hg & Ht & Hf).
    split.
    + intros s Hs. apply not_elem_of_cons in Hs as [Hne Hs].
      rewrite (IH1 s Hs), (Hg s). now rewrite decide_False by congruence.
    + intros Hnd s Hs. apply NoDup_cons in Hnd as [Hx Hnd].
      apply elem_of_cons in Hs as [->|Hs].
      * exists new. rewrite (IH1 x Hx), (Hg x). now rewrite decide_True.
      * destruct (IH2 Hnd s Hs) as (new' & Hl & Ht' & Hf').
        exists new'. rewrite Hl, (Hg s).
        rewrite decide_False; [now split | intros ->; contradiction].
Qed.

Lemma init_lookup (s : string) :
  s ∈ strategies ->
  (list_to_map (map (fun s => (s, @nil row)) strategies) : gmap string (list row)) !! s
  = Some [].
Proof.
  intros Hs. apply elem_of_list_to_map_1'.
  - intros y Hy. apply list_elem_of_fmap in Hy as (s' & [= _ ->] & _). reflexivity.
  - apply list_elem_of_fmap. now exists s.
Qed.

(** With pairwise distinct strategies, the list kept under each strategy
    after the loops is the rows of its trials, in order. *)
Lemma results_of_strategy w s :
  NoDup strategies -> s ∈ strategies ->
  map trial_of (results_of (results (trials subprocess_run periods symbols strategies w)) s) = for_strategy periods symbols s
  /\ Forall (fun r => from_trial (result r)) (results_of (results (trials subprocess_run periods symbols strategies w)) s).
Proof.
  intros Hnd Hs. unfold trials.
  destruct (strategies_loop strategies
              (State w
                 [ print [Txt (rule 60)];
                   print [Txt "Strategy Comparison: Advanced vs RegimeAdaptive"];
                   print [Txt (rule 60)];
                   print [] ]
                 (list_to_map (map (fun s => (s, [])) strategies)) 0)) as [_ H].
  destruct (H Hnd s Hs) as (new & Hl & Ht & Hf).
  unfold results_of. rewrite Hl. simpl results. rewrite (init_lookup s Hs). simpl.
  now split.
Qed.


(** The script always runs to its end; it leaves the results directory
    and, in it, the table of all the records under the header. *)
Lemma script_ok timestamp w f :
  exists r,
    script subprocess_run periods symbols strategies timestamp w f = Ok r
    /\ records r = all_results strategies (results (trials subprocess_run periods symbols strategies w))
    /\ dirs (final_fs r) = {[ RESULTS_DIR ]} ∪ dirs f
    /\ files (final_fs r)
       = <[ results_file timestamp := map CStr fieldnames :: map cells (records r) ]> (files f).
Proof.
  unfold script, main.
  unfold DictWriter. rewrite writerows_items. simpl mbind.
  rewrite (IoFacts.write_after_mkdir (results_file timestamp) _ f RESULTS_DIR eq_refl).
  simpl mbind.
  destruct (IoFacts.for_each_ok strategies
              (fun strat => summary strat (results_of (results (trials subprocess_run periods symbols strategies w)) strat)))
    as [comparison ->]; [intros; apply summary_ok|].
  simpl mbind.
  destruct (IoFacts.for_each_ok periods
              (fun '(period_name, _, _) =>
                 body ← for_each strategies
                          (fun strat => breakdown period_name strat
                                          (results_of (results (trials subprocess_run periods symbols strategies w)) strat));
                 Ok (print [Txt newline; Str period_name ""; Txt ":"] :: body)))
    as [periods_out ->].
  { intros [[pn sd] ed].
    destruct (IoFacts.for_each_ok strategies
                (fun strat => breakdown pn strat (results_of (results (trials subprocess_run periods symbols strategies w)) strat)))
      as [body ->]; [intros; apply breakdown_ok|].
    simpl. eauto. }
  simpl mbind. eexists. split; [reflexivity|]. simpl. repeat split.
Qed.

End Loops.
End CompareFacts.

(** ** The trial loops of [validate_risk_filter.py] *)

Module ValidateFacts.
Import Py Trial Io ValidateRiskFilter Matrix ValidateTable.



Section Loops.
Context {World : Type}.
Variable subprocess_run : list string -> Z -> World -> res completed * World.
Variable periods : list (string * string * string).
Variable symbols : list string.







End Loops.
End ValidateFacts.

(** ** The aggregates *)

Module AggregateFacts.
Import Py Trial Io Matrix.

(** An outcome of [run_benchmark] that is not a success has zero in its
    three numeric fields. *)
Lemma from_trial_zero o :
  from_trial o -> status o <> SUCCESS ->
  return_ o = PyInt 0 /\ net o = PyInt 0 /\ trades o = 0%Z.
Proof.
  intros [[p|[|cl msg]] ->] Hst; simpl in *; [|now repeat split | now repeat split].
  destruct (TrialFacts.parse_output_cases p)
    as [[_ Hp]|(m & g1 & g2 & g3 & _
                & [(r & n & _ & _ & Hp)|[[_ Hp]|[(_ & _ & Hp)|(_ & _ & _ & Hp)]]])];
    rewrite Hp in *; simpl in *; now repeat split.
Qed.

Lemma filter_insert {A} (f : A -> bool) rs1 r rs2 :
  f r = false -> List.filter f (rs1 ++ r :: rs2) = List.filter f (rs1 ++ rs2).
Proof. intros Hr. rewrite !List.filter_app. simpl. now rewrite Hr. Qed.

Lemma filter_twice {A} (f g : A -> bool) l :
  List.filter g (List.filter f l) = List.filter (fun x => f x && g x) l.
Proof.
  induction l as [|x l IH]; [reflexivity|]. simpl.
  destruct (f x); simpl; [destruct (g x); now rewrite IH | exact IH].
Qed.

Lemma filter_nonempty {A} (f : A -> bool) l :
  List.filter f l <> [] -> exists x l', List.filter f l = x :: l'.
Proof. destruct (List.filter f l) as [|x l']; [contradiction | eauto]. Qed.

End AggregateFacts.

(** ** The claims about the trial matrix, the table and the aggregates *)

Import Io Matrix.









(** The scenario of the specification: two symbols, the second of which
    times out; the rows of the table after the header. *)
Example end_to_end_rows :
  exists r,
    CompareStrategies.script Stub.subprocess_run
      [("P1", "2024-01-01", "2024-01-31")] ["AAA"; "BBB"] ["s1"]
      "20240201_000000"
      [Stub.reports "Return: 2.00% ... Net: $10.00 ... Trades: 3"; Stub.times_out]
      Stub.empty_fs = Ok r
    /\ map CompareTable.cells (CompareStrategies.records r)
       = [ [CStr "s1"; CStr "P1"; CStr "AAA";
            CNum (PyFloat 2); CNum (PyFloat 10); CInt 3; CStr "SUCCESS"];
           [CStr "s1"; CStr "P1"; CStr "BBB";
            CNum (PyInt 0); CNum (PyInt 0); CInt 0; CStr "TIMEOUT"] ].
Proof.
  destruct (CompareFacts.script_ok Stub.subprocess_run
              [("P1", "2024-01-01", "2024-01-31")] ["AAA"; "BBB"] ["s1"]
              "20240201_000000"
              [Stub.reports "Return: 2.00% ... Net: $10.00 ... Trades: 3"; Stub.times_out]
              Stub.empty_fs) as (r & Hr & Hrec & _).
  exists r. split; [exact Hr|]. rewrite Hrec. vm_compute. reflexivity.
Qed.

(** ** Every record holds an outcome of [run_benchmark] *)

Module CompareRecords.
Import Py Trial Io CompareStrategies Matrix CompareTable.

Section Loops.
Context {World : Type}.
Variable subprocess_run : list string -> Z -> World -> res completed * World.
Variable periods : list (string * string * string).
Variable symbols : list string.
Variable strategies : list string.

Lemma appended_all strat ts (st st' : @state World) :
  appended strat ts st st' ->
  (forall s l, results st !! s = Some l -> Forall (fun r => from_trial (result r)) l) ->
  forall s l, results st' !! s = Some l -> Forall (fun r => from_trial (result r)) l.
Proof.
  intros (new & Hg & _ & Hnew) Hall s l Hl. rewrite (Hg s) in Hl.
  case_decide; [|now apply (Hall s)].
  destruct (results st !! s) as [l0|] eqn:E; simpl in Hl; [|discriminate].
  injection Hl as <-. apply Forall_app. split; [now apply (Hall s) | exact Hnew].
Qed.

Lemma strategies_all : forall todo (st : @state World),
  (forall s l, results st !! s = Some l -> Forall (fun r => from_trial (result r)) l) ->
  forall s l,
    results (fold_left (per_strategy subprocess_run periods symbols) todo st) !! s = Some l ->
    Forall (fun r => from_trial (result r)) l.
Proof.
  induction todo as [|x todo IH]; intros st Hall; simpl; [exact Hall|].
  apply IH. eapply appended_all; [apply CompareFacts.per_strategy_appended | exact Hall].
Qed.

Lemma records_from_trials timestamp w f r :
  script subprocess_run periods symbols strategies timestamp w f = Ok r ->
  Forall (fun r => from_trial (result r)) (records r).
Proof.
  intros Hr.
  destruct (CompareFacts.script_ok subprocess_run periods symbols strategies timestamp w f)
    as (r' & Hr' & Hrec & _).
  rewrite Hr in Hr'. injection Hr' as <-. rewrite Hrec.
  unfold all_results. apply Forall_flat_map, Forall_forall. intros s _.
  unfold results_of.
  destruct (results (trials subprocess_run periods symbols strategies w) !! s)
    as [l|] eqn:E; simpl; [|constructor].
  revert E. unfold trials. apply strategies_all. simpl.
  intros s' l' Hl'. apply elem_of_list_to_map_2 in Hl'.
  apply list_elem_of_fmap in Hl' as (? & [= _ ->] & _). constructor.
Qed.

End Loops.
End CompareRecords.

(** C8.  Take any record of a run of [compare_strategies.py] whose
    status is not SUCCESS.  Its return, net and trade count are zero; it
    is left out of the successful records and of the successful records of
    every period, so that the summary and the period breakdown are what
    they would be without it; and its row, status included, is in the
    table written to the results file. *)
Theorem C8_failed_trials :
  forall (World : Type)
         (subprocess_run : list string -> Z -> World -> res completed * World)
         (periods : list (string * string * string))
         (symbols strategies : list string)
         (timestamp : string) (w : World) (f : fs)
         (r : CompareStrategies.run) (rec : CompareStrategies.row),
    CompareStrategies.script subprocess_run periods symbols strategies timestamp w f
    = Ok r ->
    In rec (CompareStrategies.records r) ->
    status (CompareStrategies.result rec) <> "SUCCESS" ->
    (return_ (CompareStrategies.result rec) = PyInt 0
     /\ net (CompareStrategies.result rec) = PyInt 0
     /\ trades (CompareStrategies.result rec) = 0%Z)
    /\ (forall rs1 rs2,
          CompareStrategies.successful (rs1 ++ rec :: rs2)
          = CompareStrategies.successful (rs1 ++ rs2))
    /\ (forall strat rs1 rs2,
          CompareStrategies.summary strat (rs1 ++ rec :: rs2)
          = CompareStrategies.summary strat (rs1 ++ rs2))
    /\ (forall period_name strat rs1 rs2,
          CompareStrategies.breakdown period_name strat (rs1 ++ rec :: rs2)
          = CompareStrategies.breakdown period_name strat (rs1 ++ rs2))
    /\ exists t,
         files (CompareStrategies.final_fs r)
           !! CompareStrategies.results_file timestamp = Some t
         /\ In [ CStr (CompareStrategies.strategy rec);
                 CStr (CompareStrategies.period rec);
                 CStr (CompareStrategies.symbol rec);
                 CNum (PyInt 0); CNum (PyInt 0); CInt 0;
                 CStr (status (CompareStrategies.result rec)) ] t.
Proof.
  intros World run periods symbols strategies ts w f r rec Hr Hin Hst.
  pose proof (CompareRecords.records_from_trials run periods symbols strategies ts w f r Hr)
    as Hall.
  rewrite Forall_forall in Hall. specialize (Hall rec (proj2 (list_elem_of_In _ _) Hin)).
  destruct (AggregateFacts.from_trial_zero _ Hall Hst) as (H1 & H2 & H3).
  assert (Hs : CompareStrategies.is_success rec = false).
  { unfold CompareStrategies.is_success. now apply String.eqb_neq. }
  assert (Hsucc : forall rs1 rs2,
            CompareStrategies.successful (rs1 ++ rec :: rs2)
            = CompareStrategies.successful (rs1 ++ rs2)).
  { intros. now apply AggregateFacts.filter_insert. }
  split; [now repeat split|]. split; [exact Hsucc|]. split; [|split].
  - intros. unfold CompareStrategies.summary. now rewrite Hsucc.
  - intros pn strat rs1 rs2. unfold CompareStrategies.breakdown,
      CompareStrategies.period_results.
    rewrite AggregateFacts.filter_insert; [reflexivity|]. now rewrite Hs, andb_false_r.
  - destruct (CompareFacts.script_ok run periods symbols strategies ts w f)
      as (r' & Hr' & _ & _ & Hfiles).
    rewrite Hr in Hr'. injection Hr' as <-.
    eexists. split; [rewrite Hfiles; apply lookup_insert_eq|].
    right. apply in_map_iff. exists rec. split; [|exact Hin].
    unfold CompareTable.cells. now rewrite H1, H2, H3.
Qed.

Lemma C8_witness :
  exists r,
    CompareStrategies.script Stub.subprocess_run
      [("P1", "2024-01-01", "2024-01-31")] ["AAA"] ["s1"]
      "20240201_000000" [Stub.times_out] Stub.empty_fs = Ok r
    /\ exists t,
         files (CompareStrategies.final_fs r)
           !! CompareStrategies.results_file "20240201_000000" = Some t
         /\ In [ CStr "s1"; CStr "P1"; CStr "AAA";
                 CNum (PyInt 0); CNum (PyInt 0); CInt 0; CStr "TIMEOUT" ] t.
Proof.
  destruct (CompareFacts.script_ok Stub.subprocess_run
              [("P1", "2024-01-01", "2024-01-31")] ["AAA"] ["s1"]
              "20240201_000000" [Stub.times_out] Stub.empty_fs)
    as (r & Hr & Hrec & _).
  exists r. split; [exact Hr|].
  refine (proj2 (proj2 (proj2 (proj2
    (C8_failed_trials Stub.World Stub.subprocess_run
       [("P1", "2024-01-01", "2024-01-31")] ["AAA"] ["s1"]
       "20240201_000000" [Stub.times_out] Stub.empty_fs
       r (CompareStrategies.Row "s1" "P1" "AAA" (failed "TIMEOUT")) Hr _ _))))).
  - rewrite Hrec. vm_compute. left. reflexivity.
  - discriminate.
Defined.

(** C3.  In both scripts, when some record is a success, the win rate
    [winners/len(successful)] is the number of records that are a success
    with a return above zero, divided by the number of records that are a
    success; the records that are not a success count in neither. *)
Theorem C3_win_rate :
  forall (rs : list CompareStrategies.row) (vs : list ValidateRiskFilter.row),
    CompareStrategies.successful rs <> [] ->
    ValidateRiskFilter.successful vs <> [] ->
    CompareStrategies.win_rate (CompareStrategies.successful rs)
    = Ok (PyFloat (Qred
        (inject_Z (Z.of_nat (length (List.filter
           (fun r => CompareStrategies.is_success r
                     && gt0 (return_ (CompareStrategies.result r))) rs)))
         / inject_Z (Z.of_nat (length (List.filter CompareStrategies.is_success rs))))))
    /\ ValidateRiskFilter.win_rate (ValidateRiskFilter.successful vs)
       = Ok (PyFloat (Qred
           (inject_Z (Z.of_nat (length (List.filter
              (fun r => ValidateRiskFilter.is_success r
                        && gt0 (return_ (ValidateRiskFilter.result r))) vs)))
            / inject_Z (Z.of_nat (length (List.filter ValidateRiskFilter.is_success vs)))))).
Proof.
  intros rs vs Hrs Hvs. split.
  - unfold CompareStrategies.win_rate, CompareStrategies.winners.
    rewrite PyFacts.sum_ones, (PyFacts.truediv_nonempty _ _ Hrs).
    unfold CompareStrategies.successful. now rewrite AggregateFacts.filter_twice.
  - unfold ValidateRiskFilter.win_rate, ValidateRiskFilter.winners.
    rewrite PyFacts.sum_ones, (PyFacts.truediv_nonempty _ _ Hvs).
    unfold ValidateRiskFilter.successful. now rewrite AggregateFacts.filter_twice.
Qed.

(** The records of the claim: a success at +1%, a success at -1% and a
    timeout give one half, not one third. *)
Lemma C3_witness :
  CompareStrategies.win_rate
    (CompareStrategies.successful
       [ CompareStrategies.Row "s1" "P1" "AAA" (Outcome "SUCCESS" (PyFloat 1) (PyFloat 5) 2);
         CompareStrategies.Row "s1" "P1" "BBB" (Outcome "SUCCESS" (PyFloat (-1)) (PyFloat (-5)) 2);
         CompareStrategies.Row "s1" "P1" "CCC" (failed "TIMEOUT") ])
  = Ok (PyFloat (1 # 2))
  /\ ValidateRiskFilter.win_rate
       (ValidateRiskFilter.successful
          [ ValidateRiskFilter.Row "P1" "AAA" "2024-01-01" "2024-01-31"
              (Outcome "SUCCESS" (PyFloat 1) (PyFloat 5) 2);
            ValidateRiskFilter.Row "P1" "BBB" "2024-01-01" "2024-01-31"
              (Outcome "SUCCESS" (PyFloat (-1)) (PyFloat (-5)) 2);
            ValidateRiskFilter.Row "P1" "CCC" "2024-01-01" "2024-01-31"
              (failed "TIMEOUT") ])
     = Ok (PyFloat (1 # 2)).
Proof.
  refine (C3_win_rate
    [ CompareStrategies.Row "s1" "P1" "AAA" (Outcome "SUCCESS" (PyFloat 1) (PyFloat 5) 2);
      CompareStrategies.Row "s1" "P1" "BBB" (Outcome "SUCCESS" (PyFloat (-1)) (PyFloat (-5)) 2);
      CompareStrategies.Row "s1" "P1" "CCC" (failed "TIMEOUT") ]
    [ ValidateRiskFilter.Row "P1" "AAA" "2024-01-01" "2024-01-31"
        (Outcome "SUCCESS" (PyFloat 1) (PyFloat 5) 2);
      ValidateRiskFilter.Row "P1" "BBB" "2024-01-01" "2024-01-31"
        (Outcome "SUCCESS" (PyFloat (-1)) (PyFloat (-5)) 2);
      ValidateRiskFilter.Row "P1" "CCC" "2024-01-01" "2024-01-31"
        (failed "TIMEOUT") ] _ _); discriminate.
Defined.

(** The summary prints that ratio times one hundred. *)
Example win_rate_line :
  CompareStrategies.summary "s1"
    [ CompareStrategies.Row "s1" "P1" "AAA" (Outcome "SUCCESS" (PyFloat 1) (PyFloat 5) 2);
      CompareStrategies.Row "s1" "P1" "BBB" (Outcome "SUCCESS" (PyFloat (-1)) (PyFloat (-5)) 2);
      CompareStrategies.Row "s1" "P1" "CCC" (failed "TIMEOUT") ]
  = Ok [ print [Txt newline; Upper "s1"; Txt ":"];
         print [Txt "  Avg Return: "; Num (PyFloat 0) "+.2f"; Txt "%"];
         print [Txt "  Total P&L: $"; Num (PyFloat 0) "+.2f"];
         print [Txt "  Win Rate: "; Num (PyFloat 50) ".1f"; Txt "%"];
         print [Txt "  Total Trades: "; Num (PyInt 4) ""];
         print [Txt "  Avg Trades/Test: "; Num (PyFloat 2) ".1f"] ].
Proof. vm_compute. reflexivity. Qed.

(** C4 holds in [validate_risk_filter.py]: without a success the
    summary is the one line ["No successful tests!"]. *)
Lemma validate_reports_no_success total rs :
  ValidateRiskFilter.successful rs = [] ->
  ValidateRiskFilter.summary total rs = Ok [ValidateRiskFilter.no_successful_tests].
Proof. intros H. unfold ValidateRiskFilter.summary. now rewrite H. Qed.

(** In [compare_strategies.py] the summary of a strategy without a
    success prints nothing at all, and so does each period of the
    breakdown. *)
Lemma compare_prints_nothing strat period_name rs :
  CompareStrategies.successful rs = [] ->
  CompareStrategies.summary strat rs = Ok []
  /\ CompareStrategies.breakdown period_name strat rs = Ok [].
Proof.
  intros H. unfold CompareStrategies.summary, CompareStrategies.breakdown.
  rewrite H. split; [reflexivity|].
  replace (CompareStrategies.period_results period_name rs) with (@nil CompareStrategies.row);
    [reflexivity|].
  unfold CompareStrategies.period_results, CompareStrategies.successful in *.
  induction rs as [|r rs IH]; [reflexivity|]. simpl in *.
  destruct (CompareStrategies.is_success r); [discriminate|].
  rewrite andb_false_r. now apply IH.
Qed.

(** C4 fails in [compare_strategies.py].  A run in which both trials time
    out: after the seven lines of the banners and the four lines of the
    two trials, the report is the two headings, the label of the period
    and the name of the file, with no line saying that no test
    succeeded. *)
Theorem C4_compare_strategies_silent :
  exists r,
    CompareStrategies.script Stub.subprocess_run
      [("P1", "2024-01-01", "2024-01-31")] ["AAA"; "BBB"] ["s1"]
      "20240201_000000" [Stub.times_out; Stub.times_out] Stub.empty_fs = Ok r
    /\ skipn 11 (CompareStrategies.output r)
       = CompareStrategies.heading "COMPARISON SUMMARY"
           ++ CompareStrategies.heading "PERIOD BREAKDOWN"
           ++ [ print [Txt newline; Str "P1" ""; Txt ":"];
                print [Txt newline; Txt "Full results: ";
                       Str "benchmark_results/strategy_comparison_20240201_000000.csv" ""] ].
Proof. eexists. split; [vm_compute; reflexivity|]. vm_compute. reflexivity. Qed.

(** * Further properties of the harness *)

(** ** The calls of a run *)

Module HarnessFacts.
Import Py Trial Io Matrix CallLog.



Section Calls.
Context {World : Type}.
Variable run : list string -> Z -> World -> res completed * World.
Variable periods : list (string * string * string).
Variable symbols : list string.








End Calls.
End HarnessFacts.


(** X3.  A SUCCESS outcome is read from the captured text: the text
    holds an instance of the report pattern, at the leftmost offset where
    one starts, whose first two groups [float] converts to the return and
    the net amount of the outcome and whose third group, in decimal, is
    its trade count, which is not negative. *)
Theorem success_is_read_from_text :
  forall (p : completed) (o : outcome),
    parse_output p = Ok o ->
    status o = "SUCCESS" ->
    exists pre m post g1 g2 g3 r n,
      stdout p +:+ stderr p = pre +:+ m +:+ post
      /\ ReSpec.matches PATTERN m [g1; g2; g3]
      /\ (forall j, j < String.length pre ->
                    ~ ReSpec.occurs_at PATTERN (stdout p +:+ stderr p) j)
      /\ float g1 = Ok r /\ float g2 = Ok n
      /\ o = {| status := "SUCCESS"; return_ := PyFloat r; net := PyFloat n;
                trades := digits_value 0 g3 |}.
Proof.
  intros p o Hp Hst.
  destruct (TrialFacts.parse_output_cases p)
    as [[_ Hp']|(i & g1 & g2 & g3 & Hs
                 & [(r & n & H1 & H2 & Hp')|[[_ Hp']|[(_ & _ & Hp')|(_ & _ & _ & Hp')]]])];
    rewrite Hp' in Hp; try discriminate.
  - injection Hp as <-. discriminate.
  - injection Hp as <-.
    apply ReFacts.search_from_Some in Hs as (pre & m & post & Heq & _ & Hm & _ & Hleft).
    exists pre, m, post, g1, g2, g3, r, n. now repeat split.
Qed.

Lemma success_is_read_from_text_witness :
  exists pre m post g1 g2 g3 r n,
    "log Return: -0.5% | Net: $-12.25 | Trades: 04" +:+ " done"
    = pre +:+ m +:+ post
    /\ ReSpec.matches PATTERN m [g1; g2; g3]
    /\ (forall j, j < String.length pre ->
                  ~ ReSpec.occurs_at PATTERN
                      ("log Return: -0.5% | Net: $-12.25 | Trades: 04" +:+ " done") j)
    /\ float g1 = Ok r /\ float g2 = Ok n
    /\ Outcome "SUCCESS" (PyFloat (-1 # 2)) (PyFloat (-49 # 4)) 4
       = {| status := "SUCCESS"; return_ := PyFloat r; net := PyFloat n;
            trades := digits_value 0 g3 |}.
Proof.
  refine (success_is_read_from_text
            (CompletedProcess 0 "log Return: -0.5% | Net: $-12.25 | Trades: 04" " done")
            (Outcome "SUCCESS" (PyFloat (-1 # 2)) (PyFloat (-49 # 4)) 4) _ _).
  - vm_compute. reflexivity.
  - reflexivity.
Defined.

(** X4.  A text in which the report pattern occurs is never classified
    as PARSE_ERROR: the trial is a SUCCESS, or its status is the ERROR text
    of a failed conversion to [float] of the first or the second group, or
    the ERROR text of [int] for a third group of more than 4300 digits. *)
Theorem occurrence_is_not_parse_error :
  forall (p : completed),
    ReSpec.occurs PATTERN (stdout p +:+ stderr p) ->
    status (handlers (parse_output p)) <> "PARSE_ERROR"
    /\ (status (handlers (parse_output p)) = "SUCCESS"
        \/ (exists g,
              status (handlers (parse_output p))
              = "ERROR: could not convert string to float: '" +:+ g +:+ "'")
        \/ (exists g,
              (4300 < N.of_nat (String.length g))%N
              /\ status (handlers (parse_output p))
                 = "ERROR: Exceeds the limit (4300 digits) for integer string conversion: value has "
                     +:+ decimal (String.length g)
                     +:+ " digits; use sys.set_int_max_str_digits() to increase the limit")).
Proof.
  intros p Hocc.
  destruct (TrialFacts.parse_output_cases p)
    as [[Hn _]|(i & g1 & g2 & g3 & _
                & [(r & n & _ & _ & Hp)|[[_ Hp]|[(_ & _ & Hp)|(_ & _ & Hlen & Hp)]]])].
  - apply ReFacts.search_None in Hn. contradiction.
  - rewrite Hp. split; [discriminate | now left].
  - rewrite Hp. split; [discriminate | right; left; now exists g1].
  - rewrite Hp. split; [discriminate | right; left; now exists g2].
  - rewrite Hp. split; [discriminate | right; right; now exists g3].
Qed.

Lemma occurrence_is_not_parse_error_witness :
  status (handlers (parse_output
            (CompletedProcess 2 "Return: 1.2.3% Net: $4 Trades: 5" "")))
  <> "PARSE_ERROR"
  /\ (status (handlers (parse_output
                 (CompletedProcess 2 "Return: 1.2.3% Net: $4 Trades: 5" "")))
      = "SUCCESS"
      \/ (exists g,
            status (handlers (parse_output
                      (CompletedProcess 2 "Return: 1.2.3% Net: $4 Trades: 5" "")))
            = "ERROR: could not convert string to float: '" +:+ g +:+ "'")
      \/ (exists g,
            (4300 < N.of_nat (String.length g))%N
            /\ status (handlers (parse_output
                         (CompletedProcess 2 "Return: 1.2.3% Net: $4 Trades: 5" "")))
               = "ERROR: Exceeds the limit (4300 digits) for integer string conversion: value has "
                   +:+ decimal (String.length g)
                   +:+ " digits; use sys.set_int_max_str_digits() to increase the limit")).
Proof.
  apply (occurrence_is_not_parse_error
           (CompletedProcess 2 "Return: 1.2.3% Net: $4 Trades: 5" "")).
  apply (ReFacts.search_Some_occurs _ _ (0, ["1.2.3"; "4"; "5"])).
  vm_compute. reflexivity.
Defined.

(** A third group of 4301 digits: the trial is classified with the ERROR
    text of [int]. *)
Example too_many_digits :
  status (handlers (parse_output
            (CompletedProcess 0
               ("Return: 1% Net: $2 Trades: " +:+ String.concat "" (repeat "7" 4301)) "")))
  = "ERROR: Exceeds the limit (4300 digits) for integer string conversion: value has 4301 digits; use sys.set_int_max_str_digits() to increase the limit".
Proof. vm_compute. reflexivity. Qed.

(** ** The dictionary of results *)

Module KeysFacts.
Import CompareStrategies CompareTable.

Lemma grows_is_Some strat new (m m' : gmap string (list row)) s :
  grows strat new m m' -> (is_Some (m' !! s) <-> is_Some (m !! s)).
Proof.
  intros Hg. rewrite (Hg s). case_decide; [|reflexivity].
  now rewrite fmap_is_Some.
Qed.

Lemma loop_is_Some {World : Type}
      (run : list string -> Z -> World -> res completed * World)
      periods symbols s : forall todo (st : @state World),
  is_Some (results (fold_left (per_strategy run periods symbols) todo st) !! s)
  <-> is_Some (results st !! s).
Proof.
  induction todo as [|x todo IH]; intros st; simpl; [reflexivity|].
  rewrite IH.
  destruct (CompareFacts.per_strategy_appended run periods symbols st x)
    as (new & Hg & _).
  eapply grows_is_Some; eassumption.
Qed.

End KeysFacts.

(** X5.  After the trial loops of [compare_strategies.py] the dictionary
    of results has the configured strategies as its keys, all of them and
    no other: the lookups [results[strategy]] of the loops, of
    [all_results] and of the two reports always find a list. *)
Theorem results_keys_are_the_strategies :
  forall (World : Type)
         (subprocess_run : list string -> Z -> World -> res completed * World)
         (periods : list (string * string * string))
         (symbols strategies : list string) (w : World) (s : string),
    is_Some (CompareStrategies.results
               (CompareStrategies.trials subprocess_run periods symbols strategies w)
             !! s)
    <-> s ∈ strategies.
Proof.
  intros World run periods symbols strategies w s.
  unfold CompareStrategies.trials. rewrite KeysFacts.loop_is_Some. simpl.
  split.
  - intros [l Hl]. apply elem_of_list_to_map_2 in Hl.
    apply list_elem_of_fmap in Hl as (s' & [= -> _] & Hs'). exact Hs'.
  - intros Hs. rewrite (CompareFacts.init_lookup strategies s Hs). now exists [].
Qed.

(** ** Counts *)

Module CountFacts.
Import Py.






Lemma ratio_bounds (k n : nat) :
  k <= n -> 0 < n ->
  (0 <= Qred (inject_Z (Z.of_nat k) / inject_Z (Z.of_nat n)))%Q
  /\ (Qred (inject_Z (Z.of_nat k) / inject_Z (Z.of_nat n)) <= 1)%Q.
Proof.
  intros Hk Hn. rewrite Qred_correct.
  assert (Hpos : (0 < inject_Z (Z.of_nat n))%Q).
  { change 0%Q with (inject_Z 0). rewrite <- Zlt_Qlt. lia. }
  split.
  - apply Qle_shift_div_l; [exact Hpos|]. rewrite Qmult_0_l.
    change 0%Q with (inject_Z 0). rewrite <- Zle_Qle. lia.
  - apply Qle_shift_div_r; [exact Hpos|]. rewrite Qmult_1_l.
    rewrite <- Zle_Qle. lia.
Qed.

End CountFacts.

(** X6.  In both scripts the win rate of a list of records with at
    least one success lies between 0 and 1, so that the percentage of the
    report lies between 0 and 100. *)
Theorem win_rate_between_0_and_1 :
  forall (rs : list CompareStrategies.row) (vs : list ValidateRiskFilter.row),
    CompareStrategies.successful rs <> [] ->
    ValidateRiskFilter.successful vs <> [] ->
    (exists q, CompareStrategies.win_rate (CompareStrategies.successful rs) = Ok (PyFloat q)
               /\ (0 <= q)%Q /\ (q <= 1)%Q)
    /\ (exists q, ValidateRiskFilter.win_rate (ValidateRiskFilter.successful vs)
                  = Ok (PyFloat q)
                  /\ (0 <= q)%Q /\ (q <= 1)%Q).
Proof.
  intros rs vs Hrs Hvs. split.
  - unfold CompareStrategies.win_rate, CompareStrategies.winners.
    rewrite PyFacts.sum_ones, (PyFacts.truediv_nonempty _ _ Hrs).
    eexists. split; [reflexivity|]. simpl to_Q. apply CountFacts.ratio_bounds.
    + apply List.filter_length_le.
    + destruct (CompareStrategies.successful rs); [contradiction | simpl; lia].
  - unfold ValidateRiskFilter.win_rate, ValidateRiskFilter.winners.
    rewrite PyFacts.sum_ones, (PyFacts.truediv_nonempty _ _ Hvs).
    eexists. split; [reflexivity|]. simpl to_Q. apply CountFacts.ratio_bounds.
    + apply List.filter_length_le.
    + destruct (ValidateRiskFilter.successful vs); [contradiction | simpl; lia].
Qed.

Lemma win_rate_between_0_and_1_witness :
  (exists q,
     CompareStrategies.win_rate
       (CompareStrategies.successful
          [CompareStrategies.Row "s1" "P1" "AAA"
             (Outcome "SUCCESS" (PyFloat 1) (PyFloat 5) 2)])
     = Ok (PyFloat q) /\ (0 <= q)%Q /\ (q <= 1)%Q)
  /\ (exists q,
        ValidateRiskFilter.win_rate
          (ValidateRiskFilter.successful
             [ValidateRiskFilter.Row "P1" "AAA" "2024-01-01" "2024-01-31"
                (Outcome "SUCCESS" (PyFloat (-1)) (PyFloat 5) 2)])
        = Ok (PyFloat q) /\ (0 <= q)%Q /\ (q <= 1)%Q).
Proof.
  apply (win_rate_between_0_and_1
           [CompareStrategies.Row "s1" "P1" "AAA"
              (Outcome "SUCCESS" (PyFloat 1) (PyFloat 5) 2)]
           [ValidateRiskFilter.Row "P1" "AAA" "2024-01-01" "2024-01-31"
              (Outcome "SUCCESS" (PyFloat (-1)) (PyFloat 5) 2)]); discriminate.
Defined.


(** ** A report line with any numbers *)

Module AnyReportLine.
Import Re ReRun StrFacts PatternTails ReadingFacts.

Section Line.
Variables ws1 g1 mid1 ws2 g2 mid2 ws3 g3 post : string.
Hypothesis ws1_space : Str.all_chars category_space ws1 = true.
Hypothesis ws2_space : Str.all_chars category_space ws2 = true.
Hypothesis ws3_space : Str.all_chars category_space ws3 = true.
Hypothesis g1_some : g1 <> "".
Hypothesis g1_signed : Str.all_chars signed_decimal g1 = true.
Hypothesis g2_some : g2 <> "".
Hypothesis g2_signed : Str.all_chars signed_decimal g2 = true.
Hypothesis g3_some : g3 <> "".
Hypothesis g3_digits : Str.all_chars category_digit g3 = true.
Hypothesis mid1_line : Str.all_chars any_char mid1 = true.
Hypothesis mid1_net : Str.contains "Net:" mid1 = false.
Hypothesis mid2_line : Str.all_chars any_char mid2 = true.
Hypothesis mid2_trades : Str.contains "Trades:" mid2 = false.
Hypothesis mid2_head : Str.head_in signed_decimal mid2 = false.
Hypothesis post_head : Str.head_in category_digit post = false.

Lemma any_return_part :
  match_here PATTERN
    ("Return:" +:+ ws1 +:+ g1
       +:+ String "%" (mid1 +:+ "Net:" +:+ ws2
                         +:+ String "$" (g2 +:+ mid2 +:+ "Trades:" +:+ ws3 +:+ g3 +:+ post)))
  = Some ([g1; g2; g3], post).
Proof.
  apply return_found; try assumption.
  - intros w1 c w2 ->. apply match_here_lits_fail.
    apply (no_straddle "N" "et:" w1 c w2
             (ws2 +:+ String "$" (g2 +:+ mid2 +:+ "Trades:" +:+ ws3 +:+ g3 +:+ post)));
      [reflexivity | exact mid1_net].
  - intros w1 c w2 ->. apply match_here_lits_fail.
    apply (no_straddle "T" "rades:" w1 c w2 (ws3 +:+ g3 +:+ post));
      [reflexivity | exact mid2_trades].
Qed.

Lemma any_search_report pre :
  Str.contains "Return:" pre = false ->
  search PATTERN
    (pre +:+ "Return:" +:+ ws1 +:+ g1
       +:+ String "%" (mid1 +:+ "Net:" +:+ ws2
                         +:+ String "$" (g2 +:+ mid2 +:+ "Trades:" +:+ ws3 +:+ g3 +:+ post)))
  = Some (String.length pre, [g1; g2; g3]).
Proof.
  intros Hpre. unfold search. rewrite search_from_skip.
  - rewrite (ReportLine.search_from_head _ _ _ _ _ any_return_part). reflexivity.
  - intros w1 c w2 ->. rewrite ReportLine.PATTERN_tails. apply match_here_lits_fail.
    apply (no_straddle "R" "eturn:" w1 c w2
             (ws1 +:+ g1
                +:+ String "%" (mid1 +:+ "Net:" +:+ ws2
                     +:+ String "$" (g2 +:+ mid2 +:+ "Trades:" +:+ ws3 +:+ g3 +:+ post))));
      [reflexivity | exact Hpre].
Qed.
End Line.
End AnyReportLine.

(** X9.  A report on one line is read whatever its numbers.  Let the
    captured text be [pre], ["Return:"], white space, [g1], ["%"], [mid1],
    ["Net:"], white space, ["$"], [g2], [mid2], ["Trades:"], white space,
    [g3] and [post], where [g1] and [g2] are non-empty texts of digits,
    dots and minus signs, [g3] is a non-empty text of digits, [pre] does
    not contain ["Return:"], [mid1] and [mid2] hold no line feed, [mid1]
    does not contain ["Net:"], [mid2] does not contain ["Trades:"] and does
    not begin with a digit, a dot or a minus sign, and [post] does not
    begin with a digit.  Then the search finds the line where it starts,
    with the groups [g1], [g2], [g3], and the [try] block ends as the
    conversions [float(g1)], [float(g2)] and [int(g3)] do, in this order:
    with SUCCESS and their values, or with the exception of the first that
    fails; nothing of [post], further reports included, plays a part. *)
Theorem any_report_line_is_read :
  forall (p : completed) (pre ws1 g1 mid1 ws2 g2 mid2 ws3 g3 post : string),
    stdout p +:+ stderr p
    = pre +:+ "Return:" +:+ ws1 +:+ g1 +:+ "%" +:+ mid1
        +:+ "Net:" +:+ ws2 +:+ "$" +:+ g2 +:+ mid2
        +:+ "Trades:" +:+ ws3 +:+ g3 +:+ post ->
    Str.contains "Return:" pre = false ->
    Str.all_chars Re.category_space ws1 = true ->
    Str.all_chars Re.category_space ws2 = true ->
    Str.all_chars Re.category_space ws3 = true ->
    g1 <> "" -> Str.all_chars signed_decimal g1 = true ->
    g2 <> "" -> Str.all_chars signed_decimal g2 = true ->
    g3 <> "" -> Str.all_chars Re.category_digit g3 = true ->
    Str.all_chars Re.any_char mid1 = true -> Str.contains "Net:" mid1 = false ->
    Str.all_chars Re.any_char mid2 = true -> Str.contains "Trades:" mid2 = false ->
    Str.head_in signed_decimal mid2 = false ->
    Str.head_in Re.category_digit post = false ->
    Re.search PATTERN (stdout p +:+ stderr p) = Some (String.length pre, [g1; g2; g3])
    /\ parse_output p
       = (r ← float g1; n ← float g2; t ← int g3;
          Ok {| status := "SUCCESS"; return_ := PyFloat r; net := PyFloat n;
                trades := t |}).
Proof.
  intros p pre ws1 g1 mid1 ws2 g2 mid2 ws3 g3 post Htext Hpre
         Hw1 Hw2 Hw3 Hg1 Ha1 Hg2 Ha2 Hg3 Ha3 Hl1 Hn1 Hl2 Ht2 Hh2 Hpost.
  assert (Hs : Re.search PATTERN (stdout p +:+ stderr p)
               = Some (String.length pre, [g1; g2; g3])).
  { rewrite Htext.
    exact (AnyReportLine.any_search_report ws1 g1 mid1 ws2 g2 mid2 ws3 g3 post
             Hw1 Hw2 Hw3 Hg1 Ha1 Hg2 Ha2 Hg3 Ha3 Hl1 Hn1 Hl2 Ht2 Hh2 Hpost pre Hpre). }
  split; [exact Hs|].
  unfold parse_output. rewrite Hs. reflexivity.
Qed.

Lemma any_report_line_is_read_witness :
  Re.search PATTERN
    ("INFO start | Return:  -1.50% (gross) Net: $-7.5, Trades: 012" +:+ "ms Return: 9% Net: $9 Trades: 9")
  = Some (13, ["-1.50"; "-7.5"; "012"])
  /\ parse_output
       (CompletedProcess 0 "INFO start | Return:  -1.50% (gross) Net: $-7.5, Trades: 012"
                         "ms Return: 9% Net: $9 Trades: 9")
     = Ok {| status := "SUCCESS"; return_ := PyFloat (-3 # 2); net := PyFloat (-15 # 2);
             trades := 12 |}.
Proof.
  refine (any_report_line_is_read
            (CompletedProcess 0 "INFO start | Return:  -1.50% (gross) Net: $-7.5, Trades: 012"
                              "ms Return: 9% Net: $9 Trades: 9")
            "INFO start | " "  " "-1.50" " (gross) " " " "-7.5" ", " " " "012"
            "ms Return: 9% Net: $9 Trades: 9"
            _ _ _ _ _ _ _ _ _ _ _ _ _ _ _ _ _);
    try reflexivity; discriminate.
Defined.

(** ** The period breakdown *)

Module BreakdownFacts.
Import CompareStrategies.

Lemma one_label (x : string) : forall labels,
  NoDup labels -> x ∈ labels ->
  list_sum (map (fun l => if String.eqb x l then 1 else 0) labels) = 1.
Proof.
  induction labels as [|l labels IH]; intros Hnd Hx; [now apply elem_of_nil in Hx|].
  apply NoDup_cons in Hnd as [Hl Hnd]. simpl.
  destruct (String.eqb_spec x l) as [->|Hne].
  - assert (H0 : list_sum (map (fun l0 => if String.eqb l l0 then 1 else 0) labels) = 0).
    { clear IH Hnd Hx. induction labels as [|l' labels IH]; [reflexivity|].
      apply not_elem_of_cons in Hl as [Hne Hl]. simpl.
      destruct (String.eqb_spec l l'); [contradiction|]. now apply IH. }
    lia.
  - apply elem_of_cons in Hx as [->|Hx]; [contradiction|]. now rewrite IH.
Qed.

Lemma no_label (labels : list string) :
  list_sum (map (fun _ => 0) labels) = 0.
Proof. induction labels; simpl; auto. Qed.

Lemma list_sum_add {A} (f g : A -> nat) (l : list A) :
  list_sum (map (fun x => f x + g x) l) = list_sum (map f l) + list_sum (map g l).
Proof. induction l as [|x l IH]; simpl; [reflexivity | rewrite IH; lia]. Qed.

Lemma period_results_cons l r rs :
  length (period_results l (r :: rs))
  = (if is_success r then if String.eqb (period r) l then 1 else 0 else 0)
    + length (period_results l rs).
Proof.
  unfold period_results. simpl.
  destruct (String.eqb (period r) l), (is_success r); reflexivity.
Qed.

(** Each successful record whose period is one of the labels is counted
    under that label and under no other. *)
Lemma successes_by_label (labels : list string) (rs : list row) :
  NoDup labels ->
  Forall (fun r => period r ∈ labels) rs ->
  length (successful rs)
  = list_sum (map (fun l => length (period_results l rs)) labels).
Proof.
  intros Hnd. induction 1 as [|r rs Hr Hrs IH].
  - simpl. now rewrite no_label.
  - rewrite (map_ext _ _ (fun l => period_results_cons l r rs)), list_sum_add, <- IH.
    unfold successful. simpl. destruct (is_success r); simpl.
    + now rewrite (one_label (period r) labels Hnd Hr).
    + now rewrite no_label.
Qed.

End BreakdownFacts.

(** X10.  In a run of [compare_strategies.py] with pairwise distinct
    strategies and pairwise distinct period labels, the period breakdown
    accounts for each successful trial of a strategy once: the numbers of
    successful records of the periods add up to the number of successful
    records of the strategy. *)
Theorem breakdown_counts_each_success_once :
  forall (World : Type)
         (subprocess_run : list string -> Z -> World -> res completed * World)
         (periods : list (string * string * string))
         (symbols strategies : list string) (w : World) (strat : string),
    NoDup strategies ->
    NoDup (map (fun p => fst (fst p)) periods) ->
    strat ∈ strategies ->
    let rs := CompareStrategies.results_of
                (CompareStrategies.results
                   (CompareStrategies.trials subprocess_run periods symbols strategies w))
                strat in
    length (CompareStrategies.successful rs)
    = list_sum (map (fun p => length (CompareStrategies.period_results (fst (fst p)) rs))
                    periods).
Proof.
  intros World run periods symbols strategies w strat Hnd Hlabels Hs rs.
  destruct (CompareFacts.results_of_strategy run periods symbols strategies w strat Hnd Hs)
    as [Hm _]. fold rs in Hm.
  rewrite (BreakdownFacts.successes_by_label (map (fun p => fst (fst p)) periods) rs Hlabels).
  - now rewrite map_map.
  - apply List.Forall_forall. intros r Hin.
    assert (Ht : In (CompareTable.trial_of r) (for_strategy periods symbols strat)).
    { rewrite <- Hm. now apply in_map. }
    unfold for_strategy in Ht. apply in_flat_map in Ht as (p & Hp & Ht).
    apply in_map_iff in Ht as (sym & Heq & _).
    unfold CompareTable.trial_of in Heq. injection Heq as _ Hper _.
    apply list_elem_of_In. rewrite <- Hper.
    exact (in_map (fun p => fst (fst p)) periods p Hp).
Qed.

Lemma breakdown_counts_each_success_once_witness :
  length (CompareStrategies.successful
            (CompareStrategies.results_of
               (CompareStrategies.results
                  (CompareStrategies.trials Stub.subprocess_run
                     [("P1", "a", "b"); ("P2", "c", "d")] ["AAA"] ["s1"]
                     [Stub.reports "Return: 1% Net: $1 Trades: 1";
                      Stub.reports "Return: 2% Net: $2 Trades: 2"]))
               "s1"))
  = 2.
Proof.
  refine (eq_trans
            (breakdown_counts_each_success_once Stub.World Stub.subprocess_run
               [("P1", "a", "b"); ("P2", "c", "d")] ["AAA"] ["s1"]
               [Stub.reports "Return: 1% Net: $1 Trades: 1";
                Stub.reports "Return: 2% Net: $2 Trades: 2"]
               "s1" _ _ _) _).
  - apply (bool_decide_unpack _). vm_compute. exact I.
  - apply (bool_decide_unpack _). vm_compute. exact I.
  - apply (bool_decide_unpack _). vm_compute. exact I.
  - vm_compute. reflexivity.
Defined.

(** * [create_sequences] *)

Module SeqFacts.
Import TrainLstm.

Lemma slice_window {A} (l : list A) (i len : nat) :
  i + len <= length l ->
  slice (Z.of_nat i) (Z.of_nat i + Z.of_nat len) l = firstn len (skipn i l).
Proof.
  intros H. unfold slice, clamp.
  destruct (Z.ltb_spec (Z.of_nat i) 0); [lia|].
  destruct (Z.ltb_spec (Z.of_nat i + Z.of_nat len) 0); [lia|].
  rewrite !Z.min_l by lia.
  replace (Z.to_nat (Z.of_nat i + Z.of_nat len - Z.of_nat i)) with len by lia.
  now rewrite Nat2Z.id.
Qed.

Lemma item_inside {A} (l : list A) (j : nat) (x : A) :
  nth_error l j = Some x -> item (Z.of_nat j) l = Ok x.
Proof.
  intros H. assert (Hj : j < length l) by (apply nth_error_Some; congruence).
  unfold item. destruct (Z.ltb_spec (Z.of_nat j) 0); [lia|].
  destruct (Z.leb_spec 0 (Z.of_nat j)); [|lia].
  destruct (Z.ltb_spec (Z.of_nat j) (Z.of_nat (length l))); [|lia].
  simpl. now rewrite Nat2Z.id, H.
Qed.

Lemma item_outside {A} (l : list A) (j : Z) :
  (Z.of_nat (length l) <= j \/ j < - Z.of_nat (length l))%Z ->
  item j l = Raise IndexError.
Proof.
  intros H. unfold item.
  destruct (Z.ltb_spec j 0).
  - destruct (Z.leb_spec 0 (j + Z.of_nat (length l))); [lia | reflexivity].
  - destruct (Z.leb_spec 0 j); [|lia].
    destruct (Z.ltb_spec j (Z.of_nat (length l))); [lia | reflexivity].
Qed.

Lemma item_from_end {A} (l : list A) (j : nat) :
  0 < j -> j <= length l ->
  item (- Z.of_nat j) l = item (Z.of_nat (length l - j)) l.
Proof.
  intros H0 Hj. unfold item.
  destruct (Z.ltb_spec (- Z.of_nat j) 0); [|lia].
  destruct (Z.ltb_spec (Z.of_nat (length l - j)) 0); [lia|].
  now replace (- Z.of_nat j + Z.of_nat (length l))%Z with (Z.of_nat (length l - j)) by lia.
Qed.

Lemma nth_error_nth_inside {A} (l : list A) (j : nat) (d : A) :
  j < length l -> nth_error l j = Some (nth j l d).
Proof. intros H. now apply nth_error_nth'. Qed.

Section Loop.
Context {A : Type}.
Variable data : list (list A).
Variable width : nat.
Hypothesis data_rect : rectangular width data.
Variable d : A.

Lemma item2_inside (r c : nat) :
  r < length data -> c < width ->
  item2 (Z.of_nat r) (Z.of_nat c) data = Ok (nth c (nth r data []) d).
Proof.
  intros Hr Hc. unfold item2.
  rewrite (item_inside data r (nth r data [])) by now apply nth_error_nth_inside.
  simpl. apply item_inside, nth_error_nth_inside.
  unfold rectangular in data_rect. rewrite List.Forall_forall in data_rect.
  rewrite (data_rect (nth r data [])); [exact Hc | now apply nth_In].
Qed.

(** The loop over the indices [start .. start + m - 1], each of which
    leaves room for a window of [len] rows that ends after the first
    row. *)
Lemma loop_windows (len c : nat) : forall m start xs ys,
  1 <= start + len -> c < width -> start + m + len <= S (length data) ->
  fold_left (step data (Z.of_nat len) (Z.of_nat c))
            (map Z.of_nat (seq start m)) (Ok (xs, ys))
  = Ok (xs ++ map (fun i => firstn len (skipn i data)) (seq start m),
        ys ++ map (fun i => nth c (nth (i + len - 1) data []) d) (seq start m)).
Proof.
  induction m as [|m IH]; intros start xs ys Hlen Hc Hfit; cbn [seq map fold_left].
  - now rewrite !app_nil_r.
  - assert (Hstep : step data (Z.of_nat len) (Z.of_nat c) (Ok (xs, ys)) (Z.of_nat start)
                    = Ok (xs ++ [firstn len (skipn start data)],
                          ys ++ [nth c (nth (start + len - 1) data []) d])).
    { unfold step. cbn [mbind res_bind bind].
      rewrite slice_window by lia.
      replace (Z.of_nat start + Z.of_nat len - 1)%Z
        with (Z.of_nat (start + len - 1)) by lia.
      rewrite item2_inside by lia. reflexivity. }
    rewrite Hstep, IH by lia. now rewrite <- !app_assoc.
Qed.

Lemma np_array_regular (len : nat) (xs : list (list (list A))) :
  Forall (fun x => length x = len) xs -> np_array xs = Ok xs.
Proof.
  intros H. destruct xs as [|x rest]; [reflexivity|]. simpl.
  inversion H as [|? ? Hx Hrest]; subst.
  replace (forallb (fun y => Nat.eqb (length y) (length x)) rest) with true; [reflexivity|].
  symmetry. apply forallb_forall. rewrite List.Forall_forall in Hrest.
  intros y Hy. apply Nat.eqb_eq. now apply Hrest.
Qed.

Lemma windows_regular (len m : nat) :
  m + len <= length data ->
  Forall (fun x : list (list A) => length x = len)
         (map (fun i => firstn len (skipn i data)) (seq 0 m)).
Proof.
  intros H. apply List.Forall_forall. intros x Hx.
  apply in_map_iff in Hx as (i & <- & Hi). apply in_seq in Hi.
  rewrite length_firstn, length_skipn. lia.
Qed.

Lemma item_In (r : Z) (row : list A) :
  item r data = Ok row -> In row data.
Proof.
  unfold item. destruct (_ && _); [|discriminate].
  destruct (nth_error data _) as [x|] eqn:E; [|discriminate].
  intros [= <-]. eapply nth_error_In; eassumption.
Qed.

(** A target counted from the end is the target counted from the start. *)
Lemma item2_from_end (r : Z) (j : nat) :
  0 < j -> j <= width ->
  item2 r (- Z.of_nat j) data = item2 r (Z.of_nat (width - j)) data.
Proof.
  intros H0 Hj. unfold item2. destruct (item r data) as [row|e] eqn:E; [|reflexivity].
  simpl. apply item_In in E.
  unfold rectangular in data_rect. rewrite List.Forall_forall in data_rect.
  rewrite <- (data_rect row E) in *. now apply item_from_end.
Qed.

End Loop.

Lemma empty_windows {A} (data : list (list A)) : forall m s,
  map (fun i => firstn 0 (skipn i data)) (seq s m) = repeat [] m.
Proof. induction m as [|m IH]; intros s; simpl; [reflexivity | now rewrite IH]. Qed.

Lemma loop_raised {A} (data : list (list A)) len c e : forall idx,
  fold_left (step data len c) idx (Raise e) = Raise e.
Proof. induction idx as [|i idx IH]; [reflexivity | exact IH]. Qed.

End SeqFacts.

(** X11.  For an array of [n] rows of one width, a window length
    [seq_length >= 1] and a target column inside the width,
    [create_sequences] returns, without raising, the [n - seq_length]
    windows of [seq_length] consecutive rows that start at the rows 0, 1,
    2, ... and, for each window, the entry in the target column of the last
    row of that window. *)
Theorem create_sequences_slides_a_window :
  forall (A : Type) (d : A) (data : list (list A)) (width seq_length target : nat),
    TrainLstm.rectangular width data ->
    1 <= seq_length ->
    target < width ->
    TrainLstm.create_sequences data (Z.of_nat seq_length) (Z.of_nat target)
    = Ok (map (fun i => firstn seq_length (skipn i data))
              (seq 0 (length data - seq_length)),
          map (fun i => nth target (nth (i + seq_length - 1) data []) d)
              (seq 0 (length data - seq_length))).
Proof.
  intros A d data width len c Hrect Hlen Hc. unfold TrainLstm.create_sequences, TrainLstm.range.
  replace (Z.to_nat (Z.of_nat (length data) - Z.of_nat len)) with (length data - len) by lia.
  destruct (Nat.le_gt_cases len (length data)) as [Hle|Hgt].
  - rewrite (SeqFacts.loop_windows data width Hrect d len c) by lia. simpl.
    rewrite (SeqFacts.np_array_regular len); [reflexivity|].
    apply SeqFacts.windows_regular. lia.
  - replace (length data - len) with 0 by lia. reflexivity.
Qed.

Lemma create_sequences_slides_a_window_witness :
  TrainLstm.create_sequences
    [[1; 10]; [2; 20]; [3; 30]; [4; 40]]%Z (Z.of_nat 2) (Z.of_nat 1)
  = Ok ([ [[1; 10]; [2; 20]]; [[2; 20]; [3; 30]] ]%Z, [20; 30]%Z).
Proof.
  refine (create_sequences_slides_a_window Z 0%Z
            [[1; 10]; [2; 20]; [3; 30]; [4; 40]]%Z 2 2 1 _ _ _).
  - repeat constructor.
  - lia.
  - lia.
Defined.

(** X12.  With no more rows than [seq_length], [create_sequences]
    returns two empty arrays and raises nothing, whatever the target
    column: an index outside the array goes unnoticed, since no row is
    read. *)
Theorem create_sequences_of_too_few_rows :
  forall (A : Type) (data : list (list A)) (seq_length target : Z),
    (Z.of_nat (length data) <= seq_length)%Z ->
    TrainLstm.create_sequences data seq_length target = Ok ([], []).
Proof.
  intros A data len c H. unfold TrainLstm.create_sequences, TrainLstm.range.
  replace (Z.to_nat (Z.of_nat (length data) - len)) with 0 by lia. reflexivity.
Qed.

Lemma create_sequences_of_too_few_rows_witness :
  TrainLstm.create_sequences [[1; 10]; [2; 20]]%Z 2 7 = Ok ([], []).
Proof.
  apply (create_sequences_of_too_few_rows Z [[1; 10]; [2; 20]]%Z 2 7). simpl. lia.
Defined.

(** X13.  When there are more rows than [seq_length >= 1], a target
    column outside the width of the array, on either side, makes
    [create_sequences] raise [IndexError] at its first window. *)
Theorem create_sequences_rejects_a_column_outside :
  forall (A : Type) (data : list (list A)) (width seq_length : nat) (target : Z),
    TrainLstm.rectangular width data ->
    1 <= seq_length ->
    seq_length < length data ->
    (Z.of_nat width <= target \/ target < - Z.of_nat width)%Z ->
    TrainLstm.create_sequences data (Z.of_nat seq_length) target
    = Raise TrainLstm.IndexError.
Proof.
  intros A data width len c Hrect Hlen Hn Hc.
  unfold TrainLstm.create_sequences, TrainLstm.range.
  replace (Z.to_nat (Z.of_nat (length data) - Z.of_nat len))
    with (S (length data - len - 1)) by lia.
  cbn [seq map fold_left].
  assert (Hstep : TrainLstm.step data (Z.of_nat len) c (Ok ([], [])) (Z.of_nat 0)
                  = Raise TrainLstm.IndexError).
  { unfold TrainLstm.step. cbn [mbind res_bind bind]. unfold TrainLstm.item2.
    replace (Z.of_nat 0 + Z.of_nat len - 1)%Z with (Z.of_nat (len - 1)) by lia.
    rewrite (SeqFacts.item_inside data (len - 1) (nth (len - 1) data []))
      by (apply SeqFacts.nth_error_nth_inside; lia).
    cbn [mbind res_bind bind].
    rewrite SeqFacts.item_outside; [reflexivity|].
    unfold TrainLstm.rectangular in Hrect. rewrite List.Forall_forall in Hrect.
    rewrite (Hrect (nth (len - 1) data [])); [exact Hc | apply nth_In; lia]. }
  rewrite Hstep, SeqFacts.loop_raised. reflexivity.
Qed.

Lemma create_sequences_rejects_a_column_outside_witness :
  TrainLstm.create_sequences [[1; 10]; [2; 20]; [3; 30]]%Z (Z.of_nat 2) 2
  = Raise TrainLstm.IndexError.
Proof.
  apply (create_sequences_rejects_a_column_outside Z [[1; 10]; [2; 20]; [3; 30]]%Z 2 2 2).
  - repeat constructor.
  - lia.
  - simpl. lia.
  - left. simpl. lia.
Defined.

(** X14.  With [seq_length = 0] the row index [i + seq_length - 1] of
    the first target is [-1], which numpy reads from the end: the windows
    are empty and the targets are those of the last row, then of the rows
    0, 1, 2, ... up to the last but one. *)
Theorem create_sequences_of_length_zero_wraps :
  forall (A : Type) (d : A) (data : list (list A)) (width target : nat),
    TrainLstm.rectangular width data ->
    1 <= length data ->
    target < width ->
    TrainLstm.create_sequences data 0 (Z.of_nat target)
    = Ok (repeat [] (length data),
          nth target (nth (length data - 1) data []) d
            :: map (fun i => nth target (nth i data []) d) (seq 0 (length data - 1))).
Proof.
  intros A d data width c Hrect Hn Hc.
  change (TrainLstm.create_sequences data 0 (Z.of_nat c))
    with (TrainLstm.create_sequences data (Z.of_nat 0) (Z.of_nat c)).
  unfold TrainLstm.create_sequences, TrainLstm.range.
  replace (Z.to_nat (Z.of_nat (length data) - Z.of_nat 0))
    with (S (length data - 1)) by lia.
  cbn [seq map fold_left].
  assert (Hstep : TrainLstm.step data (Z.of_nat 0) (Z.of_nat c) (Ok ([], [])) (Z.of_nat 0)
                  = Ok ([[]], [nth c (nth (length data - 1) data []) d])).
  { unfold TrainLstm.step. cbn [mbind res_bind bind].
    rewrite (SeqFacts.slice_window data 0 0) by lia.
    unfold TrainLstm.item2.
    change (Z.of_nat 0 + Z.of_nat 0 - 1)%Z with (- Z.of_nat 1)%Z.
    rewrite SeqFacts.item_from_end by lia.
    rewrite (SeqFacts.item_inside data (length data - 1) (nth (length data - 1) data []))
      by (apply SeqFacts.nth_error_nth_inside; lia).
    cbn [mbind res_bind bind].
    rewrite (SeqFacts.item_inside _ c (nth c (nth (length data - 1) data []) d));
      [reflexivity|].
    apply SeqFacts.nth_error_nth_inside.
    unfold TrainLstm.rectangular in Hrect. rewrite List.Forall_forall in Hrect.
    rewrite (Hrect (nth (length data - 1) data [])); [exact Hc | apply nth_In; lia]. }
  rewrite Hstep.
  rewrite (SeqFacts.loop_windows data width Hrect d 0 c) by lia.
  cbn [mbind res_bind bind].
  rewrite SeqFacts.empty_windows.
  assert (Hxs : [[]] ++ repeat ([] : list (list A)) (length data - 1)
                = repeat [] (length data)).
  { destruct (length data) as [|n]; [lia|]. simpl. now rewrite Nat.sub_0_r. }
  rewrite Hxs.
  rewrite (SeqFacts.np_array_regular 0) by (apply List.Forall_forall; intros x Hx;
    apply repeat_spec in Hx; now subst).
  cbn [mbind res_bind bind]. f_equal. f_equal. simpl. f_equal.
  rewrite <- seq_shift, map_map. apply map_ext. intros i.
  now replace (S i + 0 - 1) with i by lia.
Qed.

Lemma create_sequences_of_length_zero_wraps_witness :
  TrainLstm.create_sequences [[1; 10]; [2; 20]; [3; 30]]%Z 0 (Z.of_nat 1)
  = Ok ([[]; []; []], [30; 10; 20]%Z).
Proof.
  refine (create_sequences_of_length_zero_wraps Z 0%Z
            [[1; 10]; [2; 20]; [3; 30]]%Z 2 1 _ _ _).
  - repeat constructor.
  - simpl. lia.
  - lia.
Defined.

(** X15.  A negative target column counts from the last column: for an
    array of one width, the target [-j] gives what the target [width - j]
    gives, for every window length. *)
Theorem create_sequences_target_from_the_end :
  forall (A : Type) (data : list (list A)) (width j : nat) (seq_length : Z),
    TrainLstm.rectangular width data ->
    0 < j -> j <= width ->
    TrainLstm.create_sequences data seq_length (- Z.of_nat j)
    = TrainLstm.create_sequences data seq_length (Z.of_nat (width - j)).
Proof.
  intros A data width j len Hrect H0 Hj. unfold TrainLstm.create_sequences.
  replace (fold_left (TrainLstm.step data len (- Z.of_nat j))
                     (TrainLstm.range (Z.of_nat (length data) - len)) (Ok ([], [])))
    with (fold_left (TrainLstm.step data len (Z.of_nat (width - j)))
                    (TrainLstm.range (Z.of_nat (length data) - len)) (Ok ([], [])));
    [reflexivity|].
  generalize (Ok ([], []) : res (list (list (list A)) * list A)).
  induction (TrainLstm.range (Z.of_nat (length data) - len)) as [|i idx IH]; intros acc;
    [reflexivity|].
  simpl. rewrite IH. f_equal. unfold TrainLstm.step.
  destruct acc as [[xs ys]|e]; [|reflexivity]. cbn [mbind res_bind bind].
  now rewrite (SeqFacts.item2_from_end data width Hrect).
Qed.

Lemma create_sequences_target_from_the_end_witness :
  TrainLstm.create_sequences [[1; 10]; [2; 20]; [3; 30]]%Z 2 (- Z.of_nat 1)
  = TrainLstm.create_sequences [[1; 10]; [2; 20]; [3; 30]]%Z 2 (Z.of_nat (2 - 1)).
Proof.
  apply (create_sequences_target_from_the_end Z [[1; 10]; [2; 20]; [3; 30]]%Z 2 1 2).
  - repeat constructor.
  - lia.
  - lia.
Defined.

(** * [test_crypto_ws.py] *)

Module WsFacts.
Import CryptoWs.

Lemma length_substring_le (s : string) : forall n m,
  String.length (String.substring n m s) <= m.
Proof.
  induction s as [|c s IH]; intros n m.
  - destruct n, m; simpl; lia.
  - destruct n as [|n]; [destruct m as [|m]|]; simpl; [lia | | apply IH].
    specialize (IH 0 m). lia.
Qed.

Lemma length_escape quote c : String.length (escape quote c) <= 4.
Proof.
  unfold escape.
  repeat match goal with
         | |- context [if ?b then _ else _] => destruct b
         end; simpl; lia.
Qed.

Lemma length_escaped quote b :
  String.length (escaped quote b) <= 4 * String.length b.
Proof.
  induction b as [|c b IH]; simpl; [lia|].
  rewrite StrFacts.length_app. pose proof (length_escape quote c). lia.
Qed.

(** [repr] of [n] bytes has at most [4 * n + 3] characters. *)
Lemma length_repr b : String.length (repr b) <= 4 * String.length b + 3.
Proof.
  unfold repr. simpl String.length. rewrite StrFacts.length_app. simpl String.length.
  match goal with
  | |- context [escaped ?q b] => pose proof (length_escaped q b)
  end.
  lia.
Qed.

Section Peer.
Context {Peer : Type}.
Variable connect : string -> Peer -> res unit * Peer.
Variable recv : option Q -> Peer -> received * Peer.
Variable send : list (string * json) -> Peer -> res unit * Peer.

Lemma heard_length : forall n p, length (heard recv n p) <= n.
Proof.
  induction n as [|n IH]; intros p; simpl; [lia|].
  destruct (recv (Some 1%Q) p) as [[m|e|] p']; simpl; [|lia..].
  specialize (IH p'). lia.
Qed.

Lemma heard_all : forall n p,
  stopped recv n p = None <-> length (heard recv n p) = n.
Proof.
  induction n as [|n IH]; intros p; simpl; [easy|].
  destruct (recv (Some 1%Q) p) as [[m|e|] p']; simpl; [|easy..].
  rewrite IH. lia.
Qed.

(** What [n] rounds of the loop do, whatever the peer does: they print
    the lines of the messages heard, send nothing, and end as the receive
    that yielded no message did. *)
Lemma listen_heard : forall n i (s : @state Peer),
  out (snd (listen recv n i s)) = out s ++ data_lines i (heard recv n (peer s))
  /\ sent (snd (listen recv n i s)) = sent s
  /\ fst (listen recv n i s)
     = match stopped recv n (peer s) with
       | Some (Lost e) => Exc e
       | Some Silent => Exc TimeoutError
       | _ => Val tt
       end.
Proof.
  induction n as [|n IH]; intros i s.
  - simpl. now rewrite app_nil_r.
  - simpl listen. simpl heard. simpl stopped. unfold bind, do_recv, say.
    destruct (recv (Some 1%Q) (peer s)) as [[m|e|] p]; simpl.
    + destruct (IH (i + 1)%Z (State p (out s ++ [print (data_line i m)]) (sent s)))
        as (Hout & Hsent & Hfst).
      simpl in *. rewrite Hout, Hsent, Hfst, <- app_assoc. now repeat split.
    + now rewrite app_nil_r.
    + now rewrite app_nil_r.
Qed.

Lemma try_listen_sent (s : @state Peer) :
  sent (snd (try_listen recv s)) = sent s.
Proof.
  destruct (listen_heard 30 0%Z s) as (_ & Hsent & _).
  unfold try_listen.
  destruct (listen recv 30 0 s) as [[[]|e|] s']; simpl in *; try exact Hsent.
  destruct (is_timeout e); exact Hsent.
Qed.

End Peer.
End WsFacts.

(** X16.  Whatever the peer does, the listening part of
    [test_alpaca_crypto] prints one line for each message that the
    receives under the deadline of one second yield one after the other,
    at most thirty, numbered from 1 in the order of their arrival, up to
    the first receive that yields none.  When that receive stayed silent
    for the second, or raised [TimeoutError], the line that tells of a
    second without data follows and the listening ends without an
    exception; any other exception of the receive leaves the loop and no
    line follows.  Nothing is sent.  A line shows at most the first 200
    characters of a text message and, of a binary message, the [repr] of
    its first 200 bytes, which has at most 803 characters. *)
Theorem listening_is_bounded :
  forall (Peer : Type) (recv : option Q -> Peer -> CryptoWs.received * Peer)
         (s : @CryptoWs.state Peer),
    let ms := CryptoWs.heard recv 30 (CryptoWs.peer s) in
    let stop := CryptoWs.stopped recv 30 (CryptoWs.peer s) in
    CryptoWs.out (snd (CryptoWs.try_listen recv s))
    = CryptoWs.out s ++ CryptoWs.data_lines 0 ms
        ++ match stop with
           | Some CryptoWs.Silent => [print CryptoWs.no_data]
           | Some (CryptoWs.Lost e) =>
               if CryptoWs.is_timeout e then [print CryptoWs.no_data] else []
           | _ => []
           end
    /\ fst (CryptoWs.try_listen recv s)
       = match stop with
         | Some (CryptoWs.Lost e) =>
             if CryptoWs.is_timeout e then CryptoWs.Val tt else CryptoWs.Exc e
         | _ => CryptoWs.Val tt
         end
    /\ CryptoWs.sent (snd (CryptoWs.try_listen recv s)) = CryptoWs.sent s
    /\ length ms <= 30
    /\ (stop = None <-> length ms = 30)
    /\ forall m : CryptoWs.data,
         match m with
         | CryptoWs.Text _ =>
             String.length (CryptoWs.str (CryptoWs.excerpt m)) <= 200
         | CryptoWs.Bytes _ =>
             String.length (CryptoWs.str (CryptoWs.excerpt m)) <= 803
         end.
Proof.
  intros Peer recv s ms stop.
  destruct (WsFacts.listen_heard recv 30 0%Z s) as (Hout & Hsent & Hfst).
  fold ms in Hout. fold stop in Hfst.
  split; [|split; [|split; [|split; [|split]]]].
  - unfold CryptoWs.try_listen.
    destruct (CryptoWs.listen recv 30 0 s) as [r s'] eqn:E. simpl in Hout, Hfst.
    destruct stop as [[m|e|]|]; subst r; simpl.
    + now rewrite app_nil_r.
    + destruct (CryptoWs.is_timeout e); simpl; rewrite Hout;
        [now rewrite <- app_assoc | now rewrite app_nil_r].
    + rewrite Hout. now rewrite <- app_assoc.
    + now rewrite app_nil_r.
  - unfold CryptoWs.try_listen.
    destruct (CryptoWs.listen recv 30 0 s) as [r s'] eqn:E. simpl in Hfst.
    destruct stop as [[m|e|]|]; subst r; simpl; try reflexivity.
    now destruct (CryptoWs.is_timeout e).
  - apply WsFacts.try_listen_sent.
  - apply WsFacts.heard_length.
  - apply WsFacts.heard_all.
  - intros [t|b]; unfold CryptoWs.excerpt, CryptoWs.str.
    + apply WsFacts.length_substring_le.
    + pose proof (WsFacts.length_repr (String.substring 0 200 b)).
      pose proof (WsFacts.length_substring_le b 0 200). lia.
Qed.

(** A text message, a binary one, then a second of silence. *)
Example listening_to_a_script :
  CryptoWs.try_listen CryptoWs.scripted
    (CryptoWs.State
       [CryptoWs.Message (CryptoWs.Text "{T:t}");
        CryptoWs.Message (CryptoWs.Bytes (String "000" "it's"))]
       [] [])
  = (CryptoWs.Val tt,
     CryptoWs.State []
       [print [Txt "["; Int 1; Txt "s] 📊 "; Str "{T:t}" ""; Txt "..."];
        print [Txt "["; Int 2; Txt "s] 📊 "; Str ("b" +:+ String "034" "\x00it's" +:+ String "034" "") "";
               Txt "..."];
        print CryptoWs.no_data]
       []).
Proof. vm_compute. reflexivity. Qed.

(** X17.  Whatever the peer does and whatever the environment holds,
    [test_alpaca_crypto] hands to [send] nothing, or the authentication
    alone, or the authentication and then the subscription to the trades
    and quotes of BTC/USD and ETH/USD, in this order and nothing else; the
    key and the secret of the authentication are those of the environment
    or, when a variable is not set, its placeholder.  When the function
    returns without an exception, both messages were sent and its last
    line is the one that tells of the end of the test. *)
Theorem sends_authentication_then_subscription :
  forall (Peer : Type)
         (connect : string -> Peer -> res unit * Peer)
         (recv : option Q -> Peer -> CryptoWs.received * Peer)
         (send : list (string * CryptoWs.json) -> Peer -> res unit * Peer)
         (environ : gmap string string) (p : Peer),
    let auth :=
      [ ("action", CryptoWs.JStr "auth");
        ("key", CryptoWs.JStr (default "YOUR_KEY_HERE" (environ !! "ALPACA_API_KEY")));
        ("secret",
         CryptoWs.JStr (default "YOUR_SECRET_HERE" (environ !! "ALPACA_SECRET_KEY"))) ] in
    let r := CryptoWs.test_alpaca_crypto connect recv send environ
               (CryptoWs.State p [] []) in
    (CryptoWs.sent (snd r) = []
     \/ CryptoWs.sent (snd r) = [auth]
     \/ CryptoWs.sent (snd r) = [auth; CryptoWs.subscribe_msg])
    /\ (fst r = CryptoWs.Val tt ->
        CryptoWs.sent (snd r) = [auth; CryptoWs.subscribe_msg]
        /\ List.last (CryptoWs.out (snd r)) (print [])
           = print [Txt newline; Txt "✅ Test complete!"]).
Proof.
  intros Peer connect recv send environ p auth r. subst r auth.
  unfold CryptoWs.test_alpaca_crypto, CryptoWs.bind, CryptoWs.say,
    CryptoWs.do_connect, CryptoWs.do_recv, CryptoWs.do_send. simpl.
  destruct (connect CryptoWs.url p) as [[[]|e] p1]; simpl;
    [|split; [now left | discriminate]].
  destruct (recv None p1) as [[welcome|e|] p2]; simpl;
    [|split; [now left | discriminate]..].
  destruct (send _ p2) as [[[]|e] p3]; simpl;
    [|split; [right; now left | discriminate]].
  destruct (recv None p3) as [[response|e|] p4]; simpl;
    [|split; [right; now left | discriminate]..].
  destruct (send _ p4) as [[[]|e] p5]; simpl;
    [|split; [right; now right | discriminate]].
  match goal with
  | |- context [CryptoWs.try_listen recv ?s] =>
      pose proof (WsFacts.try_listen_sent recv s) as Hsent;
      destruct (CryptoWs.try_listen recv s) as [[[]|e|] s'] eqn:E
  end; simpl in *; rewrite Hsent.
  - split; [right; now right|]. intros _. split; [reflexivity|].
    now rewrite List.last_last.
  - split; [right; now right | discriminate].
  - split; [right; now right | discriminate].
Qed.

(** * More on the reports of the harness *)

(** X18.  In a run of [compare_strategies.py] with pairwise distinct
    strategies, the list kept under a strategy, from which its summary and
    its lines of the period breakdown are computed, holds only records of
    trials run with that strategy. *)
Theorem summary_reads_its_own_strategy :
  forall (World : Type)
         (subprocess_run : list string -> Z -> World -> res completed * World)
         (periods : list (string * string * string))
         (symbols strategies : list string) (w : World) (strat : string),
    NoDup strategies ->
    strat ∈ strategies ->
    Forall (fun r => CompareStrategies.strategy r = strat)
           (CompareStrategies.results_of
              (CompareStrategies.results
                 (CompareStrategies.trials subprocess_run periods symbols strategies w))
              strat).
Proof.
  intros World run periods symbols strategies w strat Hnd Hs.
  destruct (CompareFacts.results_of_strategy run periods symbols strategies w strat Hnd Hs)
    as [Hm _].
  apply List.Forall_forall. intros r Hin.
  assert (Ht : In (CompareTable.trial_of r) (for_strategy periods symbols strat)).
  { rewrite <- Hm. now apply in_map. }
  unfold for_strategy in Ht. apply in_flat_map in Ht as (p & _ & Ht).
  apply in_map_iff in Ht as (sym & Heq & _).
  unfold CompareTable.trial_of in Heq. now injection Heq as -> _ _.
Qed.

Lemma summary_reads_its_own_strategy_witness :
  Forall (fun r => CompareStrategies.strategy r = "b")
         (CompareStrategies.results_of
            (CompareStrategies.results
               (CompareStrategies.trials Stub.subprocess_run
                  [("P1", "2024-01-01", "2024-01-31")] ["AAA"] ["a"; "b"]
                  [Stub.times_out; Stub.reports "Return: 1% Net: $1 Trades: 1"]))
            "b").
Proof.
  apply (summary_reads_its_own_strategy Stub.World Stub.subprocess_run
           [("P1", "2024-01-01", "2024-01-31")] ["AAA"] ["a"; "b"]
           [Stub.times_out; Stub.reports "Return: 1% Net: $1 Trades: 1"] "b").
  - apply (bool_decide_unpack _). vm_compute. exact I.
  - apply (bool_decide_unpack _). vm_compute. exact I.
Defined.

